(** * Configuration loading of the job-posting DQ pipeline

    A shallow embedding of [functions/utils/config.py] and of the template
    loader of [functions/llm/prompts.py], with the properties of the
    configuration layer proved about it.

    Layout: Python text and values, the pydantic validation engine the
    models rely on, the two source modules, then the theorems.

    Modelling conventions.
    - A Python [str] is the list of its Unicode code points.
    - [int] is [Z]; a [float] is not-a-number, an infinity, or the exact
      rational value of the double ([Q]).
    - What pydantic makes of the text of a number or of a truth value is
      not computed: its readers of text are taken as given
      ([pydantic.text_readers]).
    - A [dict] is the list of its items in insertion order.
    - Values produced by [yaml.safe_load] are the trees of [pyval]
      (binary, timestamp and set nodes are left out).
    - An exception is a value of [exn]; a call that may raise returns
      [result]. *)

From Stdlib Require Import List NArith ZArith QArith Bool String Ascii Lia.
From Stdlib Require Import DecimalZ DecimalPos.
Import ListNotations.

Close Scope Q_scope.
Local Open Scope N_scope.

(** ** Text *)

Definition codepoint := N.
Definition pystr := list codepoint.

(** A source literal made of ASCII characters. *)
Definition lit (s : string) : pystr := map N_of_ascii (list_ascii_of_string s).

Fixpoint pystr_eqb (a b : pystr) : bool :=
  match a, b with
  | [], [] => true
  | x :: a', y :: b' => (x =? y) && pystr_eqb a' b'
  | _, _ => false
  end.

Module Char.
Definition TAB : codepoint := 9.
Definition LF : codepoint := 10.
Definition CR : codepoint := 13.
Definition SPACE : codepoint := 32.
Definition DQUOTE : codepoint := 34.
Definition PLUS : codepoint := 43.
Definition MINUS : codepoint := 45.
Definition UNDERSCORE : codepoint := 95.
Definition NBSP : codepoint := 160.          (* U+00A0 NO-BREAK SPACE *)
Definition FIGURE_SPACE : codepoint := 8199. (* U+2007 *)
Definition NNBSP : codepoint := 8239.        (* U+202F NARROW NO-BREAK SPACE *)
Definition BOM : codepoint := 65279.         (* U+FEFF *)
End Char.

(** The methods of [str] and the built-ins on text that the sources call. *)
Module Str.

Fixpoint startswith (p s : pystr) : bool :=
  match p, s with
  | [], _ => true
  | a :: p', b :: s' => (a =? b) && startswith p' s'
  | _ :: _, [] => false
  end.

(** [sub in s] *)
Fixpoint contains (sub s : pystr) : bool :=
  startswith sub s
  || match s with
     | [] => false
     | _ :: rest => contains sub rest
     end.

(** [s.replace(old, new)]: the occurrences of [old] are taken from the
    left and do not overlap.  [skip] counts the code points of a matched
    occurrence that are still to be dropped. *)
Fixpoint replace_from (old new : pystr) (skip : nat) (s : pystr) : pystr :=
  match s with
  | [] => match old with [] => new | _ :: _ => [] end
  | c :: rest =>
      match skip with
      | S k => replace_from old new k rest
      | O =>
          if startswith old s
          then new ++ match old with
                      | [] => c :: replace_from old new 0 rest
                      | _ :: old' => replace_from old new (List.length old') rest
                      end
          else c :: replace_from old new 0 rest
      end
  end.

Definition replace (old new s : pystr) : pystr := replace_from old new 0 s.

(** The code points for which [str.isspace] holds; [strip()] removes
    exactly these from both ends. *)
Definition isspace (c : codepoint) : bool :=
  ((9 <=? c) && (c <=? 13)) || ((28 <=? c) && (c <=? 32))
  || (c =? 133) || (c =? 160) || (c =? 5760)
  || ((8192 <=? c) && (c <=? 8202))
  || (c =? 8232) || (c =? 8233) || (c =? 8239) || (c =? 8287) || (c =? 12288).

Fixpoint lstrip (s : pystr) : pystr :=
  match s with
  | c :: rest => if isspace c then lstrip rest else s
  | [] => []
  end.

Definition rstrip (s : pystr) : pystr := rev (lstrip (rev s)).

Definition strip (s : pystr) : pystr := rstrip (lstrip s).

(** [s.lower()].  ASCII letters are mapped exactly, and so are the two
    code points outside ASCII whose lowercase form contains an ASCII
    letter (U+0130 and U+212A); the other case pairs of Unicode are not
    reproduced, their code points are kept as they are. *)
Definition lower_char (c : codepoint) : pystr :=
  if (65 <=? c) && (c <=? 90) then [c + 32]
  else if c =? 304 then [105; 775]
  else if c =? 8490 then [107]
  else [c].

Definition lower (s : pystr) : pystr := flat_map lower_char s.

(** *** [int(s)] for a string, base ten *)

(** The zeros of the decimal digits outside ASCII: each is followed by
    the digits one to nine of its script.  [int] reads the digits of every
    script; the table is that of Unicode 14.0, which Python 3.11 has. *)
Definition decimal_zeros : list codepoint :=
  [1632; 1776; 1984; 2406; 2534; 2662; 2790; 2918; 3046; 3174; 3302;
   3430; 3558; 3664; 3792; 3872; 4160; 4240; 6112; 6160; 6470; 6608;
   6784; 6800; 6992; 7088; 7232; 7248; 42528; 43216; 43264; 43472;
   43504; 43600; 44016; 65296; 66720; 68912; 69734; 69872; 69942;
   70096; 70384; 70736; 70864; 71248; 71360; 71472; 71904; 72016;
   72784; 73040; 73120; 92768; 92864; 93008; 120782; 120792; 120802;
   120812; 120822; 123200; 123632; 125264; 130032].

(** Decimal value of a digit. *)
Definition digit (c : codepoint) : option Z :=
  if (48 <=? c) && (c <=? 57) then Some (Z.of_N (c - 48))
  else
    match find (fun z => (z <=? c) && (c <=? z + 9)) decimal_zeros with
    | Some z => Some (Z.of_N (c - z))
    | None => None
    end.

(** The blanks that [int] drops from both ends: those of [isspace] but
    for the four separators U+001C to U+001F. *)
Definition int_space (c : codepoint) : bool :=
  isspace c && negb ((28 <=? c) && (c <=? 31)).

Fixpoint drop_while (p : codepoint -> bool) (s : pystr) : pystr :=
  match s with
  | c :: rest => if p c then drop_while p rest else s
  | [] => []
  end.

Definition trim (p : codepoint -> bool) (s : pystr) : pystr :=
  rev (drop_while p (rev (drop_while p s))).

Inductive lexstate := AtStart | AfterDigit | AfterUnderscore.

(** Digits, with single underscores allowed between two digits. *)
Fixpoint digits (st : lexstate) (acc : Z) (s : pystr) : option Z :=
  match s with
  | [] => match st with AfterDigit => Some acc | _ => None end
  | c :: rest =>
      match digit c with
      | Some d => digits AfterDigit (10 * acc + d)%Z rest
      | None =>
          if c =? Char.UNDERSCORE
          then match st with
               | AfterDigit => digits AfterUnderscore acc rest
               | _ => None
               end
          else None
      end
  end.

(** The number of digits of a text. *)
Definition digit_count (s : pystr) : nat :=
  List.length (filter (fun c => match digit c with Some _ => true | None => false end) s).

(** [sys.get_int_max_str_digits()], as the interpreter starts with. *)
Definition int_max_str_digits : nat := 4300.

(** [int(s)]: [None] stands for the [ValueError] that [int] raises, also
    for a text of more digits than the interpreter converts. *)
Definition int (s : pystr) : option Z :=
  let t := trim int_space s in
  if Nat.ltb int_max_str_digits (digit_count t) then None
  else
    match t with
    | [] => None
    | c :: rest =>
        if c =? Char.MINUS then option_map Z.opp (digits AtStart 0%Z rest)
        else if c =? Char.PLUS then digits AtStart 0%Z rest
        else digits AtStart 0%Z (c :: rest)
    end.

(** *** [str(n)] for an integer *)

Fixpoint of_uint (d : Decimal.uint) : pystr :=
  match d with
  | Decimal.Nil => []
  | Decimal.D0 d' => 48 :: of_uint d'
  | Decimal.D1 d' => 49 :: of_uint d'
  | Decimal.D2 d' => 50 :: of_uint d'
  | Decimal.D3 d' => 51 :: of_uint d'
  | Decimal.D4 d' => 52 :: of_uint d'
  | Decimal.D5 d' => 53 :: of_uint d'
  | Decimal.D6 d' => 54 :: of_uint d'
  | Decimal.D7 d' => 55 :: of_uint d'
  | Decimal.D8 d' => 56 :: of_uint d'
  | Decimal.D9 d' => 57 :: of_uint d'
  end.

Definition of_int (n : Z) : pystr :=
  match Z.to_int n with
  | Decimal.Pos d => of_uint d
  | Decimal.Neg d => Char.MINUS :: of_uint d
  end.

End Str.

(** ** Values *)

Inductive pyfloat :=
| FNan
| FInf (negative : bool)
| FFin (q : Q).

Module Float.
Definition of_Z (n : Z) : pyfloat := FFin (inject_Z n).

(** [a < b]; every comparison with not-a-number is false. *)
Definition ltb (a b : pyfloat) : bool :=
  match a, b with
  | FNan, _ | _, FNan => false
  | FInf true, FInf true => false
  | FInf true, _ => true
  | _, FInf true => false
  | FInf false, _ => false
  | FFin _, FInf false => true
  | FFin x, FFin y => negb (Qle_bool y x)
  end.

Definition is_zero (a : pyfloat) : bool :=
  match a with FFin q => (Qnum q =? 0)%Z | _ => false end.

(** [int(x)]: truncation towards zero, failing on nan and infinities. *)
Definition trunc (a : pyfloat) : option Z :=
  match a with
  | FFin q => Some (Z.quot (Qnum q) (Zpos (Qden q)))
  | _ => None
  end.

Definition is_integral (a : pyfloat) : bool :=
  match a with
  | FFin q => (Z.rem (Qnum q) (Zpos (Qden q)) =? 0)%Z
  | _ => false
  end.

(** [float(n)] for an integer: the nearest double, the even one of two
    that are as near; [None] stands for the [OverflowError] raised for an
    integer beyond the doubles.  Below [2 ^ 53] every integer is a
    double; above, the 53 leading bits are kept and the [k] bits after
    them decide the rounding. *)
Definition of_int (n : Z) : option pyfloat :=
  let a := Z.abs n in
  if (a <? 2 ^ 53)%Z then Some (of_Z n)
  else
    let k := (Z.log2 a - 52)%Z in
    let q := Z.shiftr a k in
    let r := Z.land a (Z.ones k) in
    let half := Z.shiftl 1 (k - 1) in
    let m :=
      if (half <? r)%Z || ((r =? half)%Z && Z.odd q) then (q + 1)%Z else q in
    let v := Z.shiftl m k in
    if (2 ^ 1024 <=? v)%Z then None else Some (of_Z (Z.sgn n * v)).
End Float.

(** What [yaml.safe_load] returns. *)
#[warnings="-register-all"]
Inductive pyval :=
| VNone
| VBool (b : bool)
| VInt (n : Z)
| VFloat (x : pyfloat)
| VStr (s : pystr)
| VList (items : list pyval)
| VDict (items : list (pyval * pyval)).

Definition pydict := list (pyval * pyval).

(** Truth value of an object, as tested by [or], [not] and [if]. *)
Definition truthy (v : pyval) : bool :=
  match v with
  | VNone => false
  | VBool b => b
  | VInt n => negb (n =? 0)%Z
  | VFloat x => negb (Float.is_zero x)
  | VStr s => match s with [] => false | _ => true end
  | VList l => match l with [] => false | _ => true end
  | VDict d => match d with [] => false | _ => true end
  end.

Definition is_dict (v : pyval) : bool :=
  match v with VDict _ => true | _ => false end.

Definition is_str (v : pyval) : bool :=
  match v with VStr _ => true | _ => false end.

Definition is_none (v : pyval) : bool :=
  match v with VNone => true | _ => false end.

(** The built-in [int(v)]; [None] stands for the exception it raises
    ([ValueError], [OverflowError] or [TypeError]). *)
Definition py_int (v : pyval) : option Z :=
  match v with
  | VInt n => Some n
  | VBool b => Some (if b then 1 else 0)%Z
  | VFloat x => Float.trunc x
  | VStr s => Str.int s
  | VNone | VList _ | VDict _ => None
  end.

(** Dictionary operations with a [str] key.  A [str] key is equal to no
    key of another type. *)
Module Dict.
Definition has_key (k : pystr) (e : pyval * pyval) : bool :=
  match fst e with VStr k' => pystr_eqb k k' | _ => false end.

(** [d.get(k)] with the key absent as [None] of [option]. *)
Definition get (k : pystr) (d : pydict) : option pyval :=
  option_map snd (find (has_key k) d).

(** [d.get(k)] and [d.get(k, None)] as Python returns them. *)
Definition get_or_none (k : pystr) (d : pydict) : pyval :=
  match get k d with Some v => v | None => VNone end.

(** [k in d] *)
Definition mem (k : pystr) (d : pydict) : bool := existsb (has_key k) d.

(** [d.pop(k)], the dictionary that is left. *)
Definition remove (k : pystr) (d : pydict) : pydict :=
  filter (fun e => negb (has_key k e)) d.

(** [d[k] = v]: an existing key keeps its place, a new one goes last. *)
Definition set (k : pystr) (v : pyval) (d : pydict) : pydict :=
  if mem k d
  then map (fun e => if has_key k e then (fst e, v) else e) d
  else d ++ [(VStr k, v)].
End Dict.

(** A [Dict[str, str]]. *)
Definition strdict := list (pystr * pystr).

Module StrDict.
Definition has_key (k : pystr) (e : pystr * pystr) : bool := pystr_eqb k (fst e).

Definition get (k : pystr) (d : strdict) : option pystr :=
  option_map snd (find (has_key k) d).

(** [d[k] = v] *)
Definition set (k v : pystr) (d : strdict) : strdict :=
  if existsb (has_key k) d
  then map (fun e => if has_key k e then (fst e, v) else e) d
  else d ++ [(k, v)].
End StrDict.

(** Reading a file opened in text mode with the default [newline=None]:
    every line ending ([CR LF], a lone [CR], [LF]) reaches the caller as
    [LF].  The argument is the decoded content of the file. *)
Module TextIO.
Fixpoint read (raw : pystr) : pystr :=
  match raw with
  | [] => []
  | c :: rest =>
      if c =? Char.CR
      then match rest with
           | c' :: rest' =>
               if c' =? Char.LF then Char.LF :: read rest'
               else Char.LF :: read rest
           | [] => [Char.LF]
           end
      else c :: read rest
  end.
End TextIO.

(** ** Exceptions *)

Inductive message :=
| Text (text : pystr)
  (** an error message whose text is fixed by the source *)
| PromptsEntry (k v : pyval)
  (** "prompts.yaml prompts must be string->string; got {type(k)}->{type(v)}
      for key={k}" *)
.

(** Error kinds of pydantic's line errors. *)
Inductive error_type :=
| value_error (msg : message)   (* a validator raised ValueError *)
| string_type
| int_type
| int_parsing
| int_parsing_size
| int_from_float
| finite_number
| float_type
| float_parsing
| bool_type
| bool_parsing
| model_type.

(** One entry of a [ValidationError]: where, and why. *)
Record line_error := { loc : list pystr; type : error_type }.

Inductive exn :=
| FileNotFoundError (path : pystr)
| YAMLError
| ValueError (msg : message)
| ValidationError (errors : list line_error).

Inductive result (A : Type) :=
| Ok (a : A)
| Raise (e : exn).
Arguments Ok {A} a.
Arguments Raise {A} e.

Definition bind {A B} (r : result A) (k : A -> result B) : result B :=
  match r with
  | Ok a => k a
  | Raise e => Raise e
  end.

Declare Scope py_scope.
Notation "x <- r ;; k" := (bind r (fun x => k))
  (at level 61, r at next level, right associativity) : py_scope.
Local Open Scope py_scope.

(** ** The validation engine (pydantic, lax mode)

    A model is validated field by field, in the order of declaration.  A
    field whose key is absent takes its default, which is not validated.
    The errors of all fields are gathered; the model is built only when
    there is none. *)
Module pydantic.

Inductive outcome (A : Type) :=
| Valid (a : A)
| Invalid (errors : list line_error).
Arguments Valid {A} a.
Arguments Invalid {A} errors.

Definition errors_of {A} (o : outcome A) : list line_error :=
  match o with
  | Valid _ => []
  | Invalid es => es
  end.

Definition fail {A} (t : error_type) : outcome A :=
  Invalid [ {| loc := []; type := t |} ].

(** The errors of a field carry the name of the field in front. *)
Definition under (name : pystr) (e : line_error) : line_error :=
  {| loc := name :: loc e; type := type e |}.

Definition at_loc {A} (name : pystr) (o : outcome A) : outcome A :=
  match o with
  | Valid a => Valid a
  | Invalid es => Invalid (map (under name) es)
  end.

(** An error report is never empty. *)
Definition sound {A} (o : outcome A) : Prop :=
  match o with
  | Valid _ => True
  | Invalid es => es <> []
  end.

(** One more field: its errors are added to those found so far. *)
Definition ap {A B} (f : outcome (A -> B)) (x : outcome A) : outcome B :=
  match f, x with
  | Valid g, Valid a => Valid (g a)
  | Valid _, Invalid es => Invalid es
  | Invalid es, Valid _ => Invalid es
  | Invalid es, Invalid es' => Invalid (es ++ es')
  end.

(** What a field validator of the source does: it returns a value or
    raises [ValueError] with a message. *)
Inductive checked (A : Type) :=
| Return (a : A)
| RaiseValueError (msg : message).
Arguments Return {A} a.
Arguments RaiseValueError {A} msg.

Definition of_checked {A} (c : checked A) : outcome A :=
  match c with
  | Return a => Valid a
  | RaiseValueError msg => fail (value_error msg)
  end.

(** A validator annotated with the type [A], as the object it returns. *)
Definition returning {A} (inj : A -> pyval) (f : pyval -> checked A)
    (v : pyval) : checked pyval :=
  match f v with
  | Return a => Return (inj a)
  | RaiseValueError msg => RaiseValueError msg
  end.

(** [@field_validator(..., mode="before")]: the validator sees the raw
    value, and what it returns is then converted to the field's type. *)
Definition before {A} (f : pyval -> checked pyval)
    (convert : pyval -> outcome A) (v : pyval) : outcome A :=
  match f v with
  | Return v' => convert v'
  | RaiseValueError msg => fail (value_error msg)
  end.

(** [@field_validator(...)] (mode "after"): the validator sees the
    converted value, if the conversion succeeded. *)
Definition after {A} (convert : pyval -> outcome A)
    (f : A -> checked A) (v : pyval) : outcome A :=
  match convert v with
  | Valid a => of_checked (f a)
  | Invalid es => Invalid es
  end.

Definition field {A} (name : pystr) (default : A)
    (validate : pyval -> outcome A) (data : pydict) : outcome A :=
  match Dict.get name data with
  | None => Valid default
  | Some v => at_loc name (validate v)
  end.

(** *** Conversions to the annotated types *)

Definition lax_str (v : pyval) : outcome pystr :=
  match v with
  | VStr s => Valid s
  | _ => fail string_type
  end.

(** pydantic reads the text of a number or of a truth value with readers
    of its own, which are not those of [int] and [float]: what they make
    of a string, a value or the kind of error reported, is taken as
    given. *)
Class text_readers := {
  str_as_int : pystr -> Z + error_type;
  str_as_float : pystr -> pyfloat + error_type;
  str_as_bool : pystr -> bool + error_type
}.

Definition of_read {A} (r : A + error_type) : outcome A :=
  match r with
  | inl a => Valid a
  | inr t => fail t
  end.

(** An integer that fits 64 bits. *)
Definition fits_i64 (n : Z) : bool :=
  (- 2 ^ 63 <=? n)%Z && (n <? 2 ^ 63)%Z.

(** A float as an integer: it must be finite, whole, and strictly
    between [- 2 ^ 63] and [2 ^ 63]. *)
Definition float_as_int (x : pyfloat) : outcome Z :=
  match Float.trunc x with
  | None => fail finite_number
  | Some n =>
      if negb (Float.is_integral x) then fail int_from_float
      else if (- 2 ^ 63 <? n)%Z && (n <? 2 ^ 63)%Z then Valid n
      else fail int_parsing_size
  end.

Definition int_as_bool (n : Z) : outcome bool :=
  if (n =? 0)%Z then Valid false
  else if (n =? 1)%Z then Valid true
  else fail bool_parsing.

Section Conversions.
Context `{readers : text_readers}.

Definition lax_int (v : pyval) : outcome Z :=
  match v with
  | VInt n => Valid n
  | VBool b => Valid (if b then 1 else 0)%Z
  | VFloat x => float_as_int x
  | VStr s => of_read (str_as_int s)
  | VNone | VList _ | VDict _ => fail int_type
  end.

(** An integer too large for a double is no number to pydantic. *)
Definition lax_float (v : pyval) : outcome pyfloat :=
  match v with
  | VFloat x => Valid x
  | VInt n =>
      match Float.of_int n with
      | Some x => Valid x
      | None => fail float_type
      end
  | VBool b => Valid (Float.of_Z (if b then 1 else 0))
  | VStr s => of_read (str_as_float s)
  | VNone | VList _ | VDict _ => fail float_type
  end.

(** An integer of 64 bits must be 0 or 1; so must a float, once it is an
    integer; a number that is neither is of the wrong type. *)
Definition lax_bool (v : pyval) : outcome bool :=
  match v with
  | VBool b => Valid b
  | VInt n => if fits_i64 n then int_as_bool n else fail bool_type
  | VFloat x =>
      match float_as_int x with
      | Valid n => int_as_bool n
      | Invalid _ => fail bool_type
      end
  | VStr s => of_read (str_as_bool s)
  | VNone | VList _ | VDict _ => fail bool_type
  end.

End Conversions.

(** [Optional[T]] *)
Definition lax_optional {A} (convert : pyval -> outcome A) (v : pyval)
  : outcome (option A) :=
  match v with
  | VNone => Valid None
  | _ => ap (Valid Some) (convert v)
  end.

(** [Model.model_validate(obj)] *)
Definition model_validate {A} (validate : pyval -> outcome A) (obj : pyval)
  : result A :=
  match validate obj with
  | Valid a => Ok a
  | Invalid es => Raise (ValidationError es)
  end.

End pydantic.

Notation "f <*> x" := (pydantic.ap f x) (at level 50, left associativity)
  : py_scope.

(** ** [functions/utils/config.py] *)
Module config.
Import pydantic.

(** *** Parameter models *)

Record ProjectConfig := {
  name : pystr;
  timezone : pystr
}.

Record InputsConfig := {
  raw_postings_csv : pystr;
  raw_jds_csv : pystr;
  raw_skills_csv : pystr;
  processed_postings_psv : pystr;
  processed_raw_psv : pystr;
  processed_skills_psv : pystr
}.

Record LLMConfig := {
  model_name : pystr;
  temperature : pyfloat;
  progress_log_every : Z;
  max_workers : Z;
  silence_client_lv_logs : bool;
  json_only : bool;
  max_retries : Z;
  max_rows_per_run : option Z;
  force : bool
}.

Record OutputsConfig := {
  artifacts_dir : pystr;
  cache_dir : pystr;
  reports_dir : pystr;
  job_postings_dq_eval_jsonl : pystr;
  job_postings_dq_eval_csv : pystr
}.

Record ParametersConfig := {
  project : ProjectConfig;
  inputs : InputsConfig;
  llm : LLMConfig;
  outputs : OutputsConfig;
  prompt_key : pystr
}.

(** The objects built from the defaults alone: [ProjectConfig()], ... *)

Definition ProjectConfig_default : ProjectConfig := {|
  name := lit "job_posting_dq";
  timezone := lit "Asia/Bangkok"
|}.

Definition InputsConfig_default : InputsConfig := {|
  raw_postings_csv := lit "raw_data/Thailand_global_postings.csv";
  raw_jds_csv := lit "raw_data/Thailand_global_raw.csv";
  raw_skills_csv := lit "raw_data/Thailand_global_skills.csv";
  processed_postings_psv := lit "process_data/Thailand_global_postings.psv";
  processed_raw_psv := lit "process_data/Thailand_global_raw.psv";
  processed_skills_psv := lit "process_data/Thailand_global_skills.psv"
|}.

Definition LLMConfig_default : LLMConfig := {|
  model_name := lit "gemini-2.5-flash";
  temperature := FFin (3 # 10);
  progress_log_every := 100;
  max_workers := 4;
  silence_client_lv_logs := false;
  json_only := true;
  max_retries := 3;
  max_rows_per_run := None;
  force := false
|}.

Definition OutputsConfig_default : OutputsConfig := {|
  artifacts_dir := lit "artifacts";
  cache_dir := lit "artifacts/cache";
  reports_dir := lit "artifacts/reports";
  job_postings_dq_eval_jsonl := lit "artifacts/job_postings_dq_eval.jsonl";
  job_postings_dq_eval_csv := lit "artifacts/job_postings_dq_eval.csv"
|}.

Definition ParametersConfig_default : ParametersConfig := {|
  project := ProjectConfig_default;
  inputs := InputsConfig_default;
  llm := LLMConfig_default;
  outputs := OutputsConfig_default;
  prompt_key := lit "job_posting_dq_eval_v1"
|}.

(** *** Field validators of [LLMConfig] *)

Definition _validate_temperature (v : pyfloat) : checked pyfloat :=
  if Float.ltb v (Float.of_Z 0) || Float.ltb (Float.of_Z 2) v
  then RaiseValueError (Text (lit "llm.temperature must be within [0.0, 2.0]"))
  else Return v.

(** [field_name] is [info.field_name]. *)
Definition _validate_positive_int (field_name : pystr) (v : Z) : checked Z :=
  if (v <=? 0)%Z
  then RaiseValueError (Text (lit "llm." ++ field_name ++ lit " must be > 0"))
  else Return v.

Definition _validate_progress_log_every (v : pyval) : checked Z :=
  match v with
  | VNone => Return 100%Z
  | _ =>
      match py_int v with
      | None =>
          RaiseValueError (Text (lit "llm.progress_log_every must be an integer"))
      | Some iv =>
          if (iv <=? 0)%Z
          then RaiseValueError (Text (lit "llm.progress_log_every must be > 0"))
          else Return iv
      end
  end.

(** 'llm.max_rows_per_run must be "all", null, or an integer' *)
Definition max_rows_per_run_message : pystr :=
  lit "llm.max_rows_per_run must be " ++ [Char.DQUOTE] ++ lit "all"
  ++ [Char.DQUOTE] ++ lit ", null, or an integer".

Definition _validate_max_rows_per_run (v : pyval) : checked pyval :=
  match v with
  | VNone => Return VNone
  | VStr v' =>
      let s := Str.lower (Str.strip v') in
      if pystr_eqb s (lit "all") then Return VNone
      else
        match Str.int s with
        | None => RaiseValueError (Text max_rows_per_run_message)
        | Some iv => Return (if (iv <=? 0)%Z then VNone else VInt iv)
        end
  | VInt n => Return (if (n <=? 0)%Z then VNone else v)
  | VBool b => Return (if b then v else VNone)
  | VFloat _ | VList _ | VDict _ =>
      RaiseValueError (Text max_rows_per_run_message)
  end.

(** *** The models as validators *)

Section Models.
Context `{readers : text_readers}.

Definition ProjectConfig_validate (v : pyval) : outcome ProjectConfig :=
  match v with
  | VDict d =>
      Valid Build_ProjectConfig
      <*> field (lit "name") (name ProjectConfig_default) lax_str d
      <*> field (lit "timezone") (timezone ProjectConfig_default) lax_str d
  | _ => fail model_type
  end.

Definition InputsConfig_validate (v : pyval) : outcome InputsConfig :=
  match v with
  | VDict d =>
      let dflt := InputsConfig_default in
      Valid Build_InputsConfig
      <*> field (lit "raw_postings_csv") (raw_postings_csv dflt) lax_str d
      <*> field (lit "raw_jds_csv") (raw_jds_csv dflt) lax_str d
      <*> field (lit "raw_skills_csv") (raw_skills_csv dflt) lax_str d
      <*> field (lit "processed_postings_psv") (processed_postings_psv dflt) lax_str d
      <*> field (lit "processed_raw_psv") (processed_raw_psv dflt) lax_str d
      <*> field (lit "processed_skills_psv") (processed_skills_psv dflt) lax_str d
  | _ => fail model_type
  end.

Definition LLMConfig_validate (v : pyval) : outcome LLMConfig :=
  match v with
  | VDict d =>
      let dflt := LLMConfig_default in
      Valid Build_LLMConfig
      <*> field (lit "model_name") (model_name dflt) lax_str d
      <*> field (lit "temperature") (temperature dflt)
            (after lax_float _validate_temperature) d
      <*> field (lit "progress_log_every") (progress_log_every dflt)
            (before (returning VInt _validate_progress_log_every) lax_int) d
      <*> field (lit "max_workers") (max_workers dflt)
            (after lax_int (_validate_positive_int (lit "max_workers"))) d
      <*> field (lit "silence_client_lv_logs") (silence_client_lv_logs dflt)
            lax_bool d
      <*> field (lit "json_only") (json_only dflt) lax_bool d
      <*> field (lit "max_retries") (max_retries dflt)
            (after lax_int (_validate_positive_int (lit "max_retries"))) d
      <*> field (lit "max_rows_per_run") (max_rows_per_run dflt)
            (before _validate_max_rows_per_run (lax_optional lax_int)) d
      <*> field (lit "force") (force dflt) lax_bool d
  | _ => fail model_type
  end.

Definition OutputsConfig_validate (v : pyval) : outcome OutputsConfig :=
  match v with
  | VDict d =>
      let dflt := OutputsConfig_default in
      Valid Build_OutputsConfig
      <*> field (lit "artifacts_dir") (artifacts_dir dflt) lax_str d
      <*> field (lit "cache_dir") (cache_dir dflt) lax_str d
      <*> field (lit "reports_dir") (reports_dir dflt) lax_str d
      <*> field (lit "job_postings_dq_eval_jsonl")
            (job_postings_dq_eval_jsonl dflt) lax_str d
      <*> field (lit "job_postings_dq_eval_csv")
            (job_postings_dq_eval_csv dflt) lax_str d
  | _ => fail model_type
  end.

(** [@model_validator(mode="before")] of [ParametersConfig].  The lookup of
    [llm] that follows the renaming changes nothing. *)
Definition _backward_compat_keys (data : pyval) : pyval :=
  match data with
  | VDict d =>
      if negb (Dict.mem (lit "inputs") d)
         && Dict.mem (lit "input") d
         && is_dict (Dict.get_or_none (lit "input") d)
      then VDict (Dict.set (lit "inputs") (Dict.get_or_none (lit "input") d)
                    (Dict.remove (lit "input") d))
      else VDict d
  | _ => data
  end.

Definition ParametersConfig_validate (data : pyval)
  : outcome ParametersConfig :=
  match _backward_compat_keys data with
  | VDict d =>
      let dflt := ParametersConfig_default in
      Valid Build_ParametersConfig
      <*> field (lit "project") (project dflt) ProjectConfig_validate d
      <*> field (lit "inputs") (inputs dflt) InputsConfig_validate d
      <*> field (lit "llm") (llm dflt) LLMConfig_validate d
      <*> field (lit "outputs") (outputs dflt) OutputsConfig_validate d
      <*> field (lit "prompt_key") (prompt_key dflt) lax_str d
  | _ => fail model_type
  end.

(** *** Credentials models *)

Record CredentialsGeminiRequest := {
  timeout_seconds : Z;
  retry_backoff_seconds : Z;
  max_retry_backoff_seconds : Z
}.

Record CredentialsGemini := {
  api_key_env : pystr;
  gcp_project_id : option pystr;
  gcp_location : option pystr;
  request : CredentialsGeminiRequest
}.

Record CredentialsConfig := {
  gemini : CredentialsGemini
}.

Definition CredentialsGeminiRequest_default : CredentialsGeminiRequest := {|
  timeout_seconds := 60;
  retry_backoff_seconds := 2;
  max_retry_backoff_seconds := 20
|}.

Definition CredentialsGemini_default : CredentialsGemini := {|
  api_key_env := lit "GEMINI_API_KEY";
  gcp_project_id := None;
  gcp_location := None;
  request := CredentialsGeminiRequest_default
|}.

Definition CredentialsConfig_default : CredentialsConfig := {|
  gemini := CredentialsGemini_default
|}.

Definition CredentialsGeminiRequest_validate (v : pyval)
  : outcome CredentialsGeminiRequest :=
  match v with
  | VDict d =>
      let dflt := CredentialsGeminiRequest_default in
      Valid Build_CredentialsGeminiRequest
      <*> field (lit "timeout_seconds") (timeout_seconds dflt) lax_int d
      <*> field (lit "retry_backoff_seconds") (retry_backoff_seconds dflt)
            lax_int d
      <*> field (lit "max_retry_backoff_seconds")
            (max_retry_backoff_seconds dflt) lax_int d
  | _ => fail model_type
  end.

Definition CredentialsGemini_validate (v : pyval) : outcome CredentialsGemini :=
  match v with
  | VDict d =>
      let dflt := CredentialsGemini_default in
      Valid Build_CredentialsGemini
      <*> field (lit "api_key_env") (api_key_env dflt) lax_str d
      <*> field (lit "gcp_project_id") (gcp_project_id dflt)
            (lax_optional lax_str) d
      <*> field (lit "gcp_location") (gcp_location dflt)
            (lax_optional lax_str) d
      <*> field (lit "request") (request dflt)
            CredentialsGeminiRequest_validate d
  | _ => fail model_type
  end.

Definition CredentialsConfig_validate (v : pyval) : outcome CredentialsConfig :=
  match v with
  | VDict d =>
      Valid Build_CredentialsConfig
      <*> field (lit "gemini") (gemini CredentialsConfig_default)
            CredentialsGemini_validate d
  | _ => fail model_type
  end.

(** *** YAML helpers and loaders *)

Section Loaders.

(** The files: the decoded content of the file at a path, if it exists. *)
Variable fs : pystr -> option pystr.

(** [yaml.safe_load], which raises [YAMLError] on ill-formed text. *)
Variable safe_load : pystr -> result pyval.

(** The text that [_load_yaml] hands to [yaml.safe_load]: what [f.read()]
    returns, with each of the four code points replaced in turn. *)
Definition yaml_text (raw : pystr) : pystr :=
  fold_left (fun text ch => Str.replace [ch] (lit " ") text)
    [Char.NBSP; Char.FIGURE_SPACE; Char.NNBSP; Char.BOM]
    (TextIO.read raw).

Definition _load_yaml (path : pystr) : result pydict :=
  match fs path with
  | None => Raise (FileNotFoundError (lit "YAML file not found: " ++ path))
  | Some raw =>
      loaded <- safe_load (yaml_text raw) ;;
      let data := if truthy loaded then loaded else VDict [] in
      match data with
      | VDict d => Ok d
      | _ =>
          Raise (ValueError
                   (Text (lit "YAML root must be a mapping/object: " ++ path)))
      end
  end.

(** The log entry written before the error is raised again is left out. *)
Definition load_parameters (path : pystr) : result ParametersConfig :=
  raw <- _load_yaml path ;;
  model_validate ParametersConfig_validate (VDict raw).

(** "{path} must contain a non-empty 'System Prompt' string" *)
Definition system_prompt_message (path : pystr) : message :=
  Text (path ++ lit " must contain a non-empty 'System Prompt' string").

Definition load_prompt (path : pystr) : result pystr :=
  raw <- _load_yaml path ;;
  let v := Dict.get_or_none (lit "System Prompt") raw in
  let v := if is_none v then Dict.get_or_none (lit "system_prompt") raw else v in
  match v with
  | VStr s =>
      match Str.strip s with
      | _ :: _ => Ok s
      | [] => Raise (ValueError (system_prompt_message path))
      end
  | _ => Raise (ValueError (system_prompt_message path))
  end.

(** The loop of [load_prompts] over [prompts.items()]. *)
Fixpoint collect_prompts (items : pydict) (out : strdict) : result strdict :=
  match items with
  | [] => Ok out
  | (k, v) :: rest =>
      match k, v with
      | VStr k', VStr v' => collect_prompts rest (StrDict.set k' v' out)
      | _, _ => Raise (ValueError (PromptsEntry k v))
      end
  end.

Definition load_prompts (path : pystr) : result strdict :=
  raw <- _load_yaml path ;;
  let meta := Dict.get_or_none (lit "meta") raw in
  let prompts := Dict.get_or_none (lit "prompts") raw in
  if is_none meta || negb (is_dict meta)
  then Raise (ValueError (Text (lit "prompts.yaml missing required 'meta' mapping")))
  else
    match prompts with
    | VDict items => collect_prompts items []
    | _ =>
        Raise (ValueError
                 (Text (lit "prompts.yaml missing required 'prompts' mapping")))
    end.

Definition load_credentials (path : pystr) : result CredentialsConfig :=
  raw <- _load_yaml path ;;
  model_validate CredentialsConfig_validate (VDict raw).

End Loaders.

End Models.

End config.

(** ** [functions/llm/prompts.py] *)
Module prompts.

Definition _BAD_WHITESPACE : list codepoint :=
  [Char.NBSP; Char.FIGURE_SPACE; Char.NNBSP; Char.BOM].

(** The body of [_sanitize_prompt_text] with the set visited in the order
    [order]. *)
Definition sanitize_in (order : list codepoint) (text : pystr) : pystr :=
  let text :=
    fold_left (fun text ch => Str.replace [ch] (lit " ") text) order text in
  Str.replace [Char.CR; Char.LF] [Char.LF] text.

(** [_BAD_WHITESPACE] is a set, visited in an order the source does not
    fix; the order of the source text is taken here.  An argument that is
    not a [str] would be returned as it is; the callers pass [str]. *)
Definition _sanitize_prompt_text (text : pystr) : pystr :=
  sanitize_in _BAD_WHITESPACE text.

Section Loaders.
Variable fs : pystr -> option pystr.
Variable safe_load : pystr -> result pyval.

Definition load_prompt_templates (path : pystr) : result strdict :=
  prompts <- config.load_prompts fs safe_load path ;;
  Ok (fold_left
        (fun clean item =>
           StrDict.set (fst item) (_sanitize_prompt_text (snd item)) clean)
        prompts []).

End Loaders.

End prompts.

(** ** Reference functions

    Closed forms that the proofs compare the source's text operations
    with. *)
Module Ref.

(** A marked code point becomes a space, any other stays. *)
Definition blank (marked : list codepoint) (c : codepoint) : codepoint :=
  if existsb (N.eqb c) marked then Char.SPACE else c.

(** The same for the four code points of [_BAD_WHITESPACE]. *)
Definition blank4 : codepoint -> codepoint := blank prompts._BAD_WHITESPACE.

(** Every [CR LF] pair, read from the left, becomes [LF]. *)
Fixpoint crlf (s : pystr) : pystr :=
  match s with
  | [] => []
  | c :: rest =>
      match rest with
      | c' :: rest' =>
          if (c =? Char.CR) && (c' =? Char.LF) then Char.LF :: crlf rest'
          else c :: crlf rest
      | [] => [c]
      end
  end.

(** The document in which the key [old] is spelled [new], everything
    else in its place. *)
Definition rename_key (old new : pystr) (d : pydict) : pydict :=
  map (fun e => if Dict.has_key old e then (VStr new, snd e) else e) d.

(** *** The schema of a Parameters document as a table

    Every place of the document that validation looks at, with the check
    made there: the errors the check finds in the value at that place.
    The table is written twice: with the rule of each field in words of
    its own, and with the conversions and validators that the code runs. *)

Definition check {A} (validate : pyval -> pydantic.outcome A) (v : pyval)
  : list line_error :=
  pydantic.errors_of (validate v).

Definition must_be_mapping (v : pyval) : list line_error :=
  if is_dict v then [] else [ {| loc := []; type := model_type |} ].

(** The error of a rule that is broken, with the text shown for it. *)
Definition broken (text : pystr) : list line_error :=
  [ {| loc := []; type := value_error (Text text) |} ].

(** A value that cannot be converted has the errors of the conversion;
    one that can is held against the rule. *)
Definition converted {A} (convert : pyval -> pydantic.outcome A)
    (rule : A -> list line_error) (v : pyval) : list line_error :=
  match convert v with
  | pydantic.Valid a => rule a
  | pydantic.Invalid es => es
  end.

(** Below [lo] or above [hi].  Not-a-number is neither. *)
Definition outside (lo hi : Z) (x : pyfloat) : bool :=
  match x with
  | FFin q => negb (Qle_bool (inject_Z lo) q) || negb (Qle_bool q (inject_Z hi))
  | FInf _ => true
  | FNan => false
  end.

(** [temperature]: a float, rejected outside [0.0, 2.0]. *)
Definition temperature_rule (x : pyfloat) : list line_error :=
  if outside 0 2 x
  then broken (lit "llm.temperature must be within [0.0, 2.0]")
  else [].

(** [max_workers], [max_retries]: an integer, rejected when 0 or less. *)
Definition positive_rule (name : pystr) (n : Z) : list line_error :=
  if (0 <? n)%Z then [] else broken (lit "llm." ++ name ++ lit " must be > 0").

(** [progress_log_every]: null stands for the default; any other value
    must be one that [int] makes an integer of, and that integer must be
    positive. *)
Definition progress_log_every_rule (v : pyval) : list line_error :=
  match v with
  | VNone => []
  | _ =>
      match py_int v with
      | None => broken (lit "llm.progress_log_every must be an integer")
      | Some n =>
          if (0 <? n)%Z then []
          else broken (lit "llm.progress_log_every must be > 0")
      end
  end.

(** The text shown for a value of [max_rows_per_run] that has none of
    the accepted shapes; the word all stands in double quotes. *)
Definition max_rows_per_run_text : pystr :=
  lit "llm.max_rows_per_run must be " ++ [34] ++ lit "all" ++ [34]
  ++ lit ", null, or an integer".

(** [max_rows_per_run]: null, an integer (a truth value is one), the word
    "all" in any case, or a string that [int] reads; blanks around the
    text of a string do not count. *)
Definition max_rows_per_run_rule (v : pyval) : list line_error :=
  match v with
  | VNone | VInt _ | VBool _ => []
  | VStr s =>
      let w := Str.lower (Str.strip s) in
      if pystr_eqb w (lit "all") then []
      else
        match Str.int w with
        | Some _ => []
        | None => broken max_rows_per_run_text
        end
  | VFloat _ | VList _ | VDict _ => broken max_rows_per_run_text
  end.

Section Schema.
Context `{readers : pydantic.text_readers}.

(** The rules of the fields. *)
Definition parameters_schema : list (list pystr * (pyval -> list line_error)) :=
  [ ([lit "project"], must_be_mapping);
    ([lit "project"; lit "name"], check pydantic.lax_str);
    ([lit "project"; lit "timezone"], check pydantic.lax_str);
    ([lit "inputs"], must_be_mapping);
    ([lit "inputs"; lit "raw_postings_csv"], check pydantic.lax_str);
    ([lit "inputs"; lit "raw_jds_csv"], check pydantic.lax_str);
    ([lit "inputs"; lit "raw_skills_csv"], check pydantic.lax_str);
    ([lit "inputs"; lit "processed_postings_psv"], check pydantic.lax_str);
    ([lit "inputs"; lit "processed_raw_psv"], check pydantic.lax_str);
    ([lit "inputs"; lit "processed_skills_psv"], check pydantic.lax_str);
    ([lit "llm"], must_be_mapping);
    ([lit "llm"; lit "model_name"], check pydantic.lax_str);
    ([lit "llm"; lit "temperature"], converted pydantic.lax_float temperature_rule);
    ([lit "llm"; lit "progress_log_every"], progress_log_every_rule);
    ([lit "llm"; lit "max_workers"],
      converted pydantic.lax_int (positive_rule (lit "max_workers")));
    ([lit "llm"; lit "silence_client_lv_logs"], check pydantic.lax_bool);
    ([lit "llm"; lit "json_only"], check pydantic.lax_bool);
    ([lit "llm"; lit "max_retries"],
      converted pydantic.lax_int (positive_rule (lit "max_retries")));
    ([lit "llm"; lit "max_rows_per_run"], max_rows_per_run_rule);
    ([lit "llm"; lit "force"], check pydantic.lax_bool);
    ([lit "outputs"], must_be_mapping);
    ([lit "outputs"; lit "artifacts_dir"], check pydantic.lax_str);
    ([lit "outputs"; lit "cache_dir"], check pydantic.lax_str);
    ([lit "outputs"; lit "reports_dir"], check pydantic.lax_str);
    ([lit "outputs"; lit "job_postings_dq_eval_jsonl"], check pydantic.lax_str);
    ([lit "outputs"; lit "job_postings_dq_eval_csv"], check pydantic.lax_str);
    ([lit "prompt_key"], check pydantic.lax_str) ].

(** The checks that the code runs at the same places. *)
Definition checks_of_code : list (list pystr * (pyval -> list line_error)) :=
  [ ([lit "project"], must_be_mapping);
    ([lit "project"; lit "name"], check pydantic.lax_str);
    ([lit "project"; lit "timezone"], check pydantic.lax_str);
    ([lit "inputs"], must_be_mapping);
    ([lit "inputs"; lit "raw_postings_csv"], check pydantic.lax_str);
    ([lit "inputs"; lit "raw_jds_csv"], check pydantic.lax_str);
    ([lit "inputs"; lit "raw_skills_csv"], check pydantic.lax_str);
    ([lit "inputs"; lit "processed_postings_psv"], check pydantic.lax_str);
    ([lit "inputs"; lit "processed_raw_psv"], check pydantic.lax_str);
    ([lit "inputs"; lit "processed_skills_psv"], check pydantic.lax_str);
    ([lit "llm"], must_be_mapping);
    ([lit "llm"; lit "model_name"], check pydantic.lax_str);
    ([lit "llm"; lit "temperature"],
      check (pydantic.after pydantic.lax_float config._validate_temperature));
    ([lit "llm"; lit "progress_log_every"],
      check (pydantic.before
               (pydantic.returning VInt config._validate_progress_log_every)
               pydantic.lax_int));
    ([lit "llm"; lit "max_workers"],
      check (pydantic.after pydantic.lax_int
               (config._validate_positive_int (lit "max_workers"))));
    ([lit "llm"; lit "silence_client_lv_logs"], check pydantic.lax_bool);
    ([lit "llm"; lit "json_only"], check pydantic.lax_bool);
    ([lit "llm"; lit "max_retries"],
      check (pydantic.after pydantic.lax_int
               (config._validate_positive_int (lit "max_retries"))));
    ([lit "llm"; lit "max_rows_per_run"],
      check (pydantic.before config._validate_max_rows_per_run
               (pydantic.lax_optional pydantic.lax_int)));
    ([lit "llm"; lit "force"], check pydantic.lax_bool);
    ([lit "outputs"], must_be_mapping);
    ([lit "outputs"; lit "artifacts_dir"], check pydantic.lax_str);
    ([lit "outputs"; lit "cache_dir"], check pydantic.lax_str);
    ([lit "outputs"; lit "reports_dir"], check pydantic.lax_str);
    ([lit "outputs"; lit "job_postings_dq_eval_jsonl"], check pydantic.lax_str);
    ([lit "outputs"; lit "job_postings_dq_eval_csv"], check pydantic.lax_str);
    ([lit "prompt_key"], check pydantic.lax_str) ].

(** The value at a place of a document, if the document reaches it. *)
Fixpoint lookup (path : list pystr) (v : pyval) : option pyval :=
  match path with
  | [] => Some v
  | k :: path' =>
      match v with
      | VDict d =>
          match Dict.get k d with
          | Some w => lookup path' w
          | None => None
          end
      | _ => None
      end
  end.

(** An error found at a place, as the report lists it. *)
Definition located (path : list pystr) (e : line_error) : line_error :=
  {| loc := path ++ loc e; type := type e |}.

(** The check of the schema at [path] finds the error [e] in [data]. *)
Definition found_by (schema : list (list pystr * (pyval -> list line_error)))
    (data : pyval) (path : list pystr) (e : line_error) : Prop :=
  exists chk v,
    In (path, chk) schema /\ lookup path data = Some v /\ In e (chk v).

(** A rule of the schema is broken at [path], with the error [e]. *)
Definition invalid_at (data : pyval) (path : list pystr) (e : line_error)
  : Prop :=
  found_by parameters_schema data path e.

End Schema.

(** The value of a run of decimal digits read after [acc]. *)
Fixpoint uint_value (acc : Z) (d : Decimal.uint) : Z :=
  match d with
  | Decimal.Nil => acc
  | Decimal.D0 d' => uint_value (10 * acc + 0) d'
  | Decimal.D1 d' => uint_value (10 * acc + 1) d'
  | Decimal.D2 d' => uint_value (10 * acc + 2) d'
  | Decimal.D3 d' => uint_value (10 * acc + 3) d'
  | Decimal.D4 d' => uint_value (10 * acc + 4) d'
  | Decimal.D5 d' => uint_value (10 * acc + 5) d'
  | Decimal.D6 d' => uint_value (10 * acc + 6) d'
  | Decimal.D7 d' => uint_value (10 * acc + 7) d'
  | Decimal.D8 d' => uint_value (10 * acc + 8) d'
  | Decimal.D9 d' => uint_value (10 * acc + 9) d'
  end.

(** The value [load_prompt] decides on: the one under "System Prompt",
    or the one under "system_prompt" when the former is null or absent. *)
Definition selected_prompt (raw : pydict) : pyval :=
  match Dict.get (lit "System Prompt") raw with
  | Some VNone | None => Dict.get_or_none (lit "system_prompt") raw
  | Some v => v
  end.

(** An entry of [prompts] is a pair of strings. *)
Definition str_to_str (e : pyval * pyval) : bool :=
  is_str (fst e) && is_str (snd e).

(** A carriage return becomes a line feed. *)
Definition cr_to_lf (c : codepoint) : codepoint :=
  if c =? Char.CR then Char.LF else c.

(** The text has none of the four code points and no [CR LF] pair. *)
Definition clean (t : pystr) : bool :=
  forallb (fun c => negb (Str.contains [c] t)) prompts._BAD_WHITESPACE
  && negb (Str.contains [Char.CR; Char.LF] t).

(** A parser that refuses every text that is not clean. *)
Definition guarded (safe_load : pystr -> result pyval) (t : pystr)
  : result pyval :=
  if clean t then safe_load t else Raise YAMLError.

End Ref.

(** ** Sample files

    A few configuration files: the name, the content, and the tree that
    PyYAML builds from the content. *)
Module Samples.
Local Open Scope string_scope.

Record file := { path : string; content : pystr; tree : pyval }.

Definition lines (ls : list string) : pystr :=
  flat_map (fun l => (lit l ++ [Char.LF])%list) ls.

Definition key (k : string) (v : pyval) : pyval * pyval := (VStr (lit k), v).

Definition files : list file := [
  {| path := "empty.yaml"; content := []; tree := VNone |};
  {| path := "zero.yaml"; content := lines ["0"]; tree := VInt 0 |};
  {| path := "false.yaml"; content := lines ["false"]; tree := VBool false |};
  {| path := "empty_list.yaml"; content := lines ["[]"]; tree := VList [] |};
  {| path := "list.yaml"; content := lines ["- a"; "- b"];
     tree := VList [VStr (lit "a"); VStr (lit "b")] |};
  {| path := "workers0.yaml"; content := lines ["llm:"; "  max_workers: 0"];
     tree := VDict [key "llm" (VDict [key "max_workers" (VInt 0)])] |};
  {| path := "workers1.yaml"; content := lines ["llm:"; "  max_workers: 1"];
     tree := VDict [key "llm" (VDict [key "max_workers" (VInt 1)])] |};
  {| path := "two_errors.yaml";
     content := lines ["llm:"; "  temperature: 5"; "  max_workers: 0"];
     tree := VDict [key "llm" (VDict [key "temperature" (VInt 5);
                                      key "max_workers" (VInt 0)])] |};
  {| path := "legacy.yaml";
     content := lines ["input:"; "  raw_jds_csv: jds.csv"; "prompt_key: v2"];
     tree := VDict [key "input" (VDict [key "raw_jds_csv" (VStr (lit "jds.csv"))]);
                    key "prompt_key" (VStr (lit "v2"))] |};
  {| path := "current.yaml";
     content := lines ["inputs:"; "  raw_jds_csv: jds.csv"; "prompt_key: v2"];
     tree := VDict [key "inputs" (VDict [key "raw_jds_csv" (VStr (lit "jds.csv"))]);
                    key "prompt_key" (VStr (lit "v2"))] |};
  {| path := "prompt.yaml";
     content := lines ["System Prompt: Judge the posting."; "system_prompt: unused"];
     tree := VDict [key "System Prompt" (VStr (lit "Judge the posting."));
                    key "system_prompt" (VStr (lit "unused"))] |};
  {| path := "prompts.yaml";
     content := (lines ["meta:"; "  version: 1"; "prompts:"]
                 ++ lit "  dq: " ++ [Char.DQUOTE] ++ lit "Rate\_it"
                 ++ [Char.DQUOTE; Char.CR; Char.LF])%list;
     tree := VDict [key "meta" (VDict [key "version" (VInt 1)]);
                    key "prompts"
                      (VDict [key "dq"
                                (VStr (lit "Rate" ++ [Char.NBSP] ++ lit "it")%list)])] |};
  {| path := "no_meta.yaml"; content := lines ["prompts:"; "  dq: Rate it"];
     tree := VDict [key "prompts" (VDict [key "dq" (VStr (lit "Rate it"))])] |};
  {| path := "bad_entry.yaml";
     content := lines ["meta: {}"; "prompts:"; "  dq: Rate it"; "  limit: 5"];
     tree := VDict [key "meta" (VDict []);
                    key "prompts" (VDict [key "dq" (VStr (lit "Rate it"));
                                          key "limit" (VInt 5)])] |}
].

(** Stand-ins for the readers of text of pydantic, which read nothing:
    the sample documents give no number or truth value as a string. *)
Definition readers : pydantic.text_readers := {|
  pydantic.str_as_int _ := inr int_parsing;
  pydantic.str_as_float _ := inr float_parsing;
  pydantic.str_as_bool _ := inr bool_parsing
|}.

(** The document [llm: {max_workers: k}]. *)
Definition llm_with_workers (k : Z) : pyval :=
  VDict [key "llm" (VDict [key "max_workers" (VInt k)])].

Definition fs (p : pystr) : option pystr :=
  option_map content (find (fun f => pystr_eqb (lit (path f)) p) files).

(** A stand-in for [yaml.safe_load] that knows the texts of the sample
    files, as they reach the parser, and refuses every other text. *)
Definition safe_load (text : pystr) : result pyval :=
  match find (fun f => pystr_eqb (config.yaml_text (content f)) text) files with
  | Some f => Ok (tree f)
  | None => Raise YAMLError
  end.

End Samples.

(** ** [functions/llm/client.py] *)
Module client.

(** What reaches this module as configuration: a value read from a
    document (a [dict] among them, or [None]), or one of the objects that
    [load_credentials] builds. *)
Inductive anyobj :=
| Value (v : pyval)
| Creds (c : config.CredentialsConfig)
| Gemini (g : config.CredentialsGemini)
| Request (r : config.CredentialsGeminiRequest).

Definition none : anyobj := Value VNone.

Definition of_option (o : option pystr) : anyobj :=
  match o with
  | Some s => Value (VStr s)
  | None => none
  end.

(** Truth value: an object of a model counts as true. *)
Definition truthy_obj (o : anyobj) : bool :=
  match o with
  | Value v => truthy v
  | Creds _ | Gemini _ | Request _ => true
  end.

Definition is_none_obj (o : anyobj) : bool :=
  match o with
  | Value VNone => true
  | _ => false
  end.

(** [getattr(obj, name, default)]: the fields of the models; a value read
    from a document has none of the attributes this module asks for
    ([gemini], [model_name], [api_key_env]), and neither has [BaseModel]. *)
Definition getattr (obj : anyobj) (name : pystr) (default : anyobj) : anyobj :=
  match obj with
  | Creds c =>
      if pystr_eqb name (lit "gemini") then Gemini (config.gemini c)
      else default
  | Gemini g =>
      if pystr_eqb name (lit "api_key_env")
      then Value (VStr (config.api_key_env g))
      else if pystr_eqb name (lit "gcp_project_id")
      then of_option (config.gcp_project_id g)
      else if pystr_eqb name (lit "gcp_location")
      then of_option (config.gcp_location g)
      else if pystr_eqb name (lit "request")
      then Request (config.request g)
      else default
  | Request r =>
      if pystr_eqb name (lit "timeout_seconds")
      then Value (VInt (config.timeout_seconds r))
      else if pystr_eqb name (lit "retry_backoff_seconds")
      then Value (VInt (config.retry_backoff_seconds r))
      else if pystr_eqb name (lit "max_retry_backoff_seconds")
      then Value (VInt (config.max_retry_backoff_seconds r))
      else default
  | Value _ => default
  end.

Definition _get (obj : anyobj) (key : pystr) (default : anyobj) : anyobj :=
  if is_none_obj obj then default
  else
    match obj with
    | Value (VDict d) =>
        match Dict.get key d with
        | Some v => Value v
        | None => default
        end
    | _ => getattr obj key default
    end.

Definition _resolve_gemini_config (credentials_config : anyobj) : anyobj :=
  match credentials_config with
  | Value (VDict d) =>
      match Dict.get (lit "gemini") d with
      | Some (VDict g) => Value (VDict g)
      | _ => credentials_config
      end
  | _ =>
      let gemini_section := getattr credentials_config (lit "gemini") none in
      if negb (is_none_obj gemini_section) then gemini_section
      else credentials_config
  end.

Inductive error :=
| ValueError (text : pystr)
| EnvironmentError (text : pystr).

Inductive raised (A : Type) :=
| Returned (a : A)
| Raised (e : error).
Arguments Returned {A} a.
Arguments Raised {A} e.

(** [genai.Client(api_key=...)], which makes no call over the network. *)
Inductive genai_client := Client (api_key : pystr).

(** The dictionary that [build_gemini_client] returns. *)
Record context := { client : genai_client; model_name : pystr }.

(** The calls to the logger are left out. *)
Section Environment.

(** [os.environ.get] *)
Variable environ : pystr -> option pystr.

(** The built-in [str]. *)
Variable str : anyobj -> pystr.

Definition get_model_name (credentials_config : anyobj)
    (model_name_override : option pystr) : raised pystr :=
  if truthy_obj (of_option model_name_override)
  then Returned (str (of_option model_name_override))
  else
    let cfg := _resolve_gemini_config credentials_config in
    let cfg_model := _get cfg (lit "model_name") none in
    if truthy_obj cfg_model then Returned (str cfg_model)
    else
      match environ (lit "GEMINI_MODEL") with
      | Some (c :: env_model) => Returned (c :: env_model)
      | _ =>
          Raised (ValueError
                    (lit "Gemini model name not found (override/credentials/env)"))
      end.

Definition build_gemini_client (credentials_config : anyobj)
    (model_name_override : option pystr) : raised context :=
  let cfg := _resolve_gemini_config credentials_config in
  let api_key_env := _get cfg (lit "api_key_env") none in
  if negb (truthy_obj api_key_env)
  then Raised (ValueError (lit "credentials_config.api_key_env is required"))
  else
    match environ (str api_key_env) with
    | Some (c :: api_key) =>
        match get_model_name credentials_config model_name_override with
        | Returned name =>
            Returned {| client := Client (c :: api_key); model_name := name |}
        | Raised e => Raised e
        end
    | _ =>
        Raised (EnvironmentError
                  (lit "Environment variable '" ++ str api_key_env
                   ++ lit "' not set for Gemini API key"))
    end.

End Environment.

End client.

(** ** [functions/core/ingestions.py]

    The cleaning that [clean_csv_to_psv_pandas] applies between
    [pd.read_csv] and [DataFrame.to_csv].  A frame is the list of its
    columns, each with its label and its cells; [read_csv] gives every
    column a label of its own. *)
Module ingestions.

(** A cell as [read_csv] leaves it: a string, a missing value (for which
    [pd.notna] is false), or a number or truth value, which is kept with
    the text that [str] gives for it. *)
Inductive cell :=
| Text (s : pystr)
| Missing
| Scalar (shown : pystr).

(** A frame: its columns in order, each under its label.  The labels
    that [read_csv] gives are distinct, a repeated header being renamed. *)
Definition frame := list (pystr * list cell).

Definition BACKSLASH : codepoint := 92.
Definition COMMA : codepoint := 44.

(** [pd.notna(x)] *)
Definition notna (x : cell) : bool :=
  match x with
  | Missing => false
  | Text _ | Scalar _ => true
  end.

(** [str(x)] *)
Definition str (x : cell) : pystr :=
  match x with
  | Text s => s
  | Scalar shown => shown
  | Missing => lit "nan"
  end.

(** The class of the pattern given to [re.sub], a raw string: an escaped
    opening bracket, an escaped closing bracket, a double quote, an
    escaped backslash, the letter [n], and the escape for the carriage
    return. *)
Definition isced_class (c : codepoint) : bool :=
  (c =? 91) || (c =? 93) || (c =? Char.DQUOTE) || (c =? BACKSLASH)
  || (c =? 110) || (c =? Char.CR).

(** [re.sub(pattern, '', s)] for a pattern that is one class: the code
    points of the class are deleted. *)
Definition re_sub_class (class : codepoint -> bool) (s : pystr) : pystr :=
  filter (fun c => negb (class c)) s.

(** The function applied to the cells of [ISCED_LEVELS_NAME]. *)
Definition clean_isced (x : cell) : cell :=
  if notna x then Text (Str.strip (re_sub_class isced_class (str x)))
  else Text [].

(** The function applied to the cells of every column. *)
Definition clean_value (x : cell) : cell :=
  if notna x
  then Text (Str.strip
               (Str.replace [Char.CR] (lit " ")
                  (Str.replace [Char.LF] (lit " ")
                     (Str.replace [BACKSLASH] []
                        (Str.replace [BACKSLASH; COMMA] [COMMA] (str x))))))
  else Text [].

(** [Series.replace(old, new)] with two strings: the cells equal to
    [old] become [new]. *)
Definition series_replace (old new : pystr) (col : list cell) : list cell :=
  map (fun x =>
         match x with
         | Text s => if pystr_eqb s old then Text new else x
         | _ => x
         end) col.

Definition has_column (label : pystr) (df : frame) : bool :=
  existsb (fun col => pystr_eqb label (fst col)) df.

(** [df[label] = f(df[label])] *)
Definition assign (label : pystr) (f : list cell -> list cell) (df : frame)
  : frame :=
  map (fun col => if pystr_eqb label (fst col) then (fst col, f (snd col))
                  else col) df.

(** The loop over [df.columns]. *)
Definition clean_all (labels : list pystr) (df : frame) : frame :=
  fold_left
    (fun df col =>
       let df := assign col (map clean_value) df in
       let df := assign col (series_replace (lit "[None]") []) df in
       let df := assign col (series_replace (lit "nan") []) df in
       assign col (series_replace (lit "NaN") []) df)
    labels df.

(** The frame that is written and returned, from the frame that was
    read. *)
Definition clean_frame (df : frame) : frame :=
  let df :=
    if has_column (lit "ISCED_LEVELS_NAME") df
    then assign (lit "ISCED_LEVELS_NAME") (map clean_isced) df
    else df in
  clean_all (map fst df) df.

(** [clean_csv_to_psv_pandas]: the frame returned, and the request to
    write it to [output_file] with [|] between the cells.  [read_csv] is
    pandas' reader with the options of the source. *)
Definition clean_csv_to_psv_pandas (read_csv : pystr -> frame)
    (input_file output_file : pystr) : frame * (pystr * codepoint * frame) :=
  let df := clean_frame (read_csv input_file) in
  (df, (output_file, 124, df)).

End ingestions.

(** ** Reading the input table ([functions/io/readers.py]) *)
Module readers.

(** A frame read with [dtype=str] and [keep_default_na=False]: the columns
    in order, each under its label as [str] shows it; every cell is a
    string. *)
Definition frame := list (pystr * list pystr).

(** [df.columns] *)
Definition columns (df : frame) : list pystr := map fst df.

(** The exceptions of this module.  The two [ValueError]s are told apart
    by their text: one shows the list of the missing columns and the list
    of the columns found, the other the format that was asked for.
    [Library] is what pandas raised. *)
Inductive error :=
| FileNotFoundError (p : pystr)
| MissingColumns (missing found : list pystr)
| UnsupportedFormat
| KeyError (key : pystr)
| Library (name : pystr).

Inductive raised (A : Type) :=
| Returned (a : A)
| Raised (e : error).
Arguments Returned {A} a.
Arguments Raised {A} e.

Definition and_then {A B} (r : raised A) (k : A -> raised B) : raised B :=
  match r with
  | Returned a => k a
  | Raised e => Raised e
  end.

Definition _DELIMS : strdict :=
  [(lit "csv", lit ","); (lit "tsv", [Char.TAB]); (lit "psv", lit "|")].

(** [c in l] for a list or tuple of strings, or the labels of a frame *)
Definition among (c : pystr) (l : list pystr) : bool :=
  existsb (pystr_eqb c) l.

Definition validate_required_columns (df : frame)
    (required_columns : list pystr) : raised unit :=
  let required := required_columns in
  let missing := filter (fun c => negb (among c (columns df))) required in
  match missing with
  | _ :: _ => Raised (MissingColumns missing (columns df))
  | [] => Returned tt
  end.

Section Files.

(** [Path(path)], shown as a string; whether that path exists; the
    function [trim_lr] of [functions.utils.text]; and the two readers of
    pandas with the options of the source, from the path, the separator
    and the encoding, and from the path and the name of the sheet. *)
Variable Path : pystr -> pystr.
Variable path_exists : pystr -> bool.
Variable trim_lr : pystr -> pystr.
Variable read_csv : pystr -> pystr -> pystr -> raised frame.
Variable read_excel : pystr -> pystr -> raised frame.

Definition _trim_column_names (df : frame) : frame :=
  map (fun col => (trim_lr (fst col), snd col)) df.

Definition read_input_table (path fmt : pystr) (sheet_name : option pystr)
    (encoding : pystr) : raised frame :=
  let p := Path path in
  if negb (path_exists p) then Raised (FileNotFoundError p)
  else
    let fmt := Str.strip (Str.lower fmt) in
    if among fmt [lit "csv"; lit "tsv"; lit "psv"]
    then
      match StrDict.get fmt _DELIMS with
      | Some delim =>
          and_then (read_csv p delim encoding)
            (fun df => Returned (_trim_column_names df))
      | None => Raised (KeyError fmt)
      end
    else if pystr_eqb fmt (lit "xlsx")
    then
      let sheet :=
        match sheet_name with
        | Some (c :: s) => c :: s
        | Some [] | None => lit "sheet1"
        end in
      and_then (read_excel p sheet)
        (fun df => Returned (_trim_column_names df))
    else Raised UnsupportedFormat.

End Files.

End readers.

(** ** A sample environment *)
Module Demo.

(** The environment variables of a sample process. *)
Definition environ (name : pystr) : option pystr :=
  if pystr_eqb name (lit "GEMINI_API_KEY") then Some (lit "secret-key")
  else if pystr_eqb name (lit "GEMINI_MODEL") then Some (lit "gemini-2.5-pro")
  else if pystr_eqb name (lit "EMPTY") then Some []
  else None.

(** A stand-in for [str] that is right on strings and on integers. *)
Definition str (o : client.anyobj) : pystr :=
  match o with
  | client.Value (VStr s) => s
  | client.Value (VInt n) => Str.of_int n
  | _ => lit "<object>"
  end.

(** A sample directory with one table in it. *)
Definition path_exists (p : pystr) : bool := pystr_eqb p (lit "raw_data/courses.psv").

Definition read_csv (p sep encoding : pystr) : readers.raised readers.frame :=
  if pystr_eqb sep (lit "|")
  then readers.Returned
         [(lit " course_name_en ", [lit " Algebra "; lit "nan"]);
          (lit "clo_name", [lit "a\b"; []])]
  else readers.Returned
         [(lit " course_name_en |clo_name", [lit " Algebra |a\b"; lit "nan|"])].

Definition read_excel (p sheet : pystr) : readers.raised readers.frame :=
  readers.Raised (readers.Library (lit "BadZipFile")).

End Demo.

(** ** More reference definitions *)
Module Known.

(** The keys of a Parameters document that validation looks up. *)
Definition parameters_keys : list pystr :=
  [lit "project"; lit "inputs"; lit "input"; lit "llm"; lit "outputs";
   lit "prompt_key"].

(** The fields of [LLMConfig]. *)
Definition llm_keys : list pystr :=
  [lit "model_name"; lit "temperature"; lit "progress_log_every";
   lit "max_workers"; lit "silence_client_lv_logs"; lit "json_only";
   lit "max_retries"; lit "max_rows_per_run"; lit "force"].

(** The model name when neither the override nor the configuration gives
    one: the variable [GEMINI_MODEL], if set and not empty. *)
Definition model_from_environment (environ : pystr -> option pystr)
  : client.raised pystr :=
  match environ (lit "GEMINI_MODEL") with
  | Some (c :: env_model) => client.Returned (c :: env_model)
  | _ =>
      client.Raised
        (client.ValueError
           (lit "Gemini model name not found (override/credentials/env)"))
  end.

(** *** The cleaning of cells in closed form *)

(** A line feed or carriage return becomes a space. *)
Definition line_end_to_space (c : codepoint) : codepoint :=
  if (c =? Char.LF) || (c =? Char.CR) then Char.SPACE else c.

(** Backslashes deleted, line ends turned into spaces, both ends
    trimmed. *)
Definition cleaned (s : pystr) : pystr :=
  Str.strip
    (map line_end_to_space
       (filter (fun c => negb (c =? ingestions.BACKSLASH)) s)).

Definition is_placeholder (s : pystr) : bool :=
  pystr_eqb s (lit "[None]") || pystr_eqb s (lit "nan") || pystr_eqb s (lit "NaN").

(** What the loop over the columns makes of one cell. *)
Definition final_cell (x : ingestions.cell) : ingestions.cell :=
  match x with
  | ingestions.Missing => ingestions.Text []
  | _ =>
      if is_placeholder (cleaned (ingestions.str x)) then ingestions.Text []
      else ingestions.Text (cleaned (ingestions.str x))
  end.

(** A text that the cleaning has nothing left to do on. *)
Definition settled (s : pystr) : bool :=
  forallb (fun c => negb ((c =? ingestions.BACKSLASH) || (c =? Char.LF)
                          || (c =? Char.CR))) s
  && pystr_eqb (Str.strip s) s
  && negb (is_placeholder s).

Definition settled_cell (x : ingestions.cell) : bool :=
  match x with
  | ingestions.Text s => settled s
  | _ => false
  end.

(** A text with no code point of the class of the pattern. *)
Definition outside_class (x : ingestions.cell) : bool :=
  match x with
  | ingestions.Text s => forallb (fun c => negb (ingestions.isced_class c)) s
  | _ => false
  end.

(** *** The format of the input table *)

(** A capital letter of ASCII as its small letter. *)
Definition ascii_lower (c : codepoint) : codepoint :=
  if (65 <=? c) && (c <=? 90) then c + 32 else c.

(** [s] spells [word], capitals or not. *)
Definition spelled (word s : pystr) : bool :=
  pystr_eqb (map ascii_lower s) word.

Definition small_letter (c : codepoint) : bool := (97 <=? c) && (c <=? 122).

(** What [read_input_table] makes of what a reader of pandas gave. *)
Definition with_trimmed_labels (trim_lr : pystr -> pystr)
    (r : readers.raised readers.frame) : readers.raised readers.frame :=
  readers.and_then r
    (fun df => readers.Returned (readers._trim_column_names trim_lr df)).

Definition formats : list pystr :=
  [lit "csv"; lit "tsv"; lit "psv"; lit "xlsx"].

End Known.

(** * Theorems *)

(** ** Text *)

Lemma pystr_eqb_refl (s : pystr) : pystr_eqb s s = true.
Proof.
  induction s as [|c s IH]; simpl; [reflexivity|].
  now rewrite N.eqb_refl, IH.
Qed.

Lemma pystr_eqb_eq (a b : pystr) : pystr_eqb a b = true <-> a = b.
Proof.
  split; [|intros ->; apply pystr_eqb_refl].
  revert b; induction a as [|x a IH]; intros [|y b]; simpl; try discriminate; auto.
  intros H. apply andb_prop in H as [Hx Hab].
  apply N.eqb_eq in Hx. f_equal; auto.
Qed.

Lemma pystr_eqb_neq (a b : pystr) : pystr_eqb a b = false <-> a <> b.
Proof.
  rewrite <- pystr_eqb_eq. destruct (pystr_eqb a b); split; congruence.
Qed.

(** Induction on a text when the function looks more than one code point
    ahead. *)
Lemma pystr_length_ind (P : pystr -> Prop) :
  (forall s, (forall t, (List.length t < List.length s)%nat -> P t) -> P s) ->
  forall s, P s.
Proof.
  intros step s.
  enough (H : forall n t, (List.length t < n)%nat -> P t)
    by (apply (H (S (List.length s))); lia).
  induction n as [|n IH]; intros t Ht; [lia|].
  apply step. intros u Hu. apply IH. lia.
Qed.

Lemma replace_one (a b : codepoint) (s : pystr) :
  Str.replace [a] [b] s = map (fun c => if c =? a then b else c) s.
Proof.
  unfold Str.replace.
  induction s as [|c s IH]; simpl; [reflexivity|].
  rewrite andb_true_r, N.eqb_sym.
  destruct (c =? a); simpl; now rewrite IH.
Qed.

Lemma replace_each (marked : list codepoint) (s : pystr) :
  fold_left (fun text ch => Str.replace [ch] (lit " ") text) marked s
  = map (Ref.blank marked) s.
Proof.
  revert s; induction marked as [|a l IH]; intros s; simpl.
  - unfold Ref.blank; simpl. now rewrite map_id.
  - rewrite IH. change (lit " ") with [Char.SPACE].
    rewrite replace_one, map_map.
    apply map_ext. intros c. unfold Ref.blank; simpl.
    destruct (c =? a) eqn:E; simpl; [|reflexivity].
    now destruct (existsb (N.eqb Char.SPACE) l).
Qed.

Lemma replace_crlf_step (c : codepoint) (rest : pystr) :
  Str.replace_from [Char.CR; Char.LF] [Char.LF] 0 (c :: rest)
  = match rest with
    | c' :: rest' =>
        if (c =? Char.CR) && (c' =? Char.LF)
        then Char.LF :: Str.replace_from [Char.CR; Char.LF] [Char.LF] 0 rest'
        else c :: Str.replace_from [Char.CR; Char.LF] [Char.LF] 0 rest
    | [] => [c]
    end.
Proof.
  destruct rest as [|c' rest'];
    cbn [Str.replace_from Str.startswith List.length app].
  - now rewrite andb_false_r.
  - rewrite andb_true_r, (N.eqb_sym Char.CR c), (N.eqb_sym Char.LF c').
    reflexivity.
Qed.

Lemma replace_crlf (s : pystr) :
  Str.replace [Char.CR; Char.LF] [Char.LF] s = Ref.crlf s.
Proof.
  unfold Str.replace.
  induction s as [s IH] using pystr_length_ind.
  destruct s as [|c rest]; [reflexivity|].
  rewrite replace_crlf_step.
  destruct rest as [|c' rest']; [reflexivity|].
  cbn [Ref.crlf].
  destruct ((c =? Char.CR) && (c' =? Char.LF)); f_equal; apply IH; simpl; lia.
Qed.

Lemma contains_one (c : codepoint) (s : pystr) :
  Str.contains [c] s = existsb (N.eqb c) s.
Proof.
  induction s as [|x s IH]; [reflexivity|].
  cbn [Str.contains Str.startswith existsb].
  now rewrite andb_true_r, IH.
Qed.

Lemma contains_crlf_cr (s : pystr) :
  Str.contains [Char.CR] s = false ->
  Str.contains [Char.CR; Char.LF] s = false.
Proof.
  induction s as [|x s IH]; [reflexivity|].
  cbn [Str.contains Str.startswith].
  rewrite andb_true_r. intros H.
  apply orb_false_elim in H as [Hx Hs].
  now rewrite Hx, IH.
Qed.

(** *** Reading in text mode *)

Lemma read_step (c : codepoint) (rest : pystr) :
  TextIO.read (c :: rest)
  = if c =? Char.CR
    then Char.LF :: TextIO.read
                      match rest with
                      | c' :: rest' => if c' =? Char.LF then rest' else rest
                      | [] => []
                      end
    else c :: TextIO.read rest.
Proof.
  cbn [TextIO.read]. destruct (c =? Char.CR); [|reflexivity].
  destruct rest as [|c' rest']; [reflexivity|].
  now destruct (c' =? Char.LF).
Qed.

Lemma read_no_cr (raw : pystr) :
  Str.contains [Char.CR] (TextIO.read raw) = false.
Proof.
  rewrite contains_one.
  induction raw as [raw IH] using pystr_length_ind.
  destruct raw as [|c rest]; [reflexivity|].
  rewrite read_step.
  destruct (c =? Char.CR) eqn:E; cbn [existsb].
  - replace (Char.CR =? Char.LF) with false by reflexivity.
    cbn [orb]. apply IH.
    destruct rest as [|c' rest']; simpl; [lia|].
    destruct (c' =? Char.LF); simpl; lia.
  - rewrite N.eqb_sym, E. cbn [orb]. apply IH. simpl; lia.
Qed.

Lemma read_app_crlf (a b : pystr) :
  TextIO.read (a ++ Char.CR :: Char.LF :: b)
  = TextIO.read a ++ Char.LF :: TextIO.read b.
Proof.
  induction a as [a IH] using pystr_length_ind.
  destruct a as [|c rest]; [reflexivity|].
  rewrite <- app_comm_cons, !read_step.
  destruct (c =? Char.CR).
  - destruct rest as [|c' rest']; [reflexivity|].
    rewrite <- app_comm_cons.
    destruct (c' =? Char.LF); cbn [app]; f_equal.
    + apply IH. simpl; lia.
    + rewrite app_comm_cons. apply IH. simpl; lia.
  - cbn [app]. f_equal. apply IH. simpl; lia.
Qed.

Lemma read_app_other (c : codepoint) (a b : pystr) :
  (c =? Char.CR) = false -> (c =? Char.LF) = false ->
  TextIO.read (a ++ c :: b) = TextIO.read a ++ c :: TextIO.read b.
Proof.
  intros Hcr Hlf.
  induction a as [a IH] using pystr_length_ind.
  destruct a as [|x rest].
  - cbn [app]. rewrite read_step, Hcr. reflexivity.
  - rewrite <- app_comm_cons, !read_step.
    destruct (x =? Char.CR).
    + destruct rest as [|c' rest'].
      * cbn [app]. rewrite Hlf. f_equal. rewrite read_step, Hcr. reflexivity.
      * rewrite <- app_comm_cons.
        destruct (c' =? Char.LF); cbn [app]; f_equal.
        -- apply IH. simpl; lia.
        -- rewrite app_comm_cons. apply IH. simpl; lia.
    + cbn [app]. f_equal. apply IH. simpl; lia.
Qed.

(** *** The four marked code points *)

Lemma blank4_cases (c : codepoint) :
  (Ref.blank4 c = Char.SPACE /\ In c prompts._BAD_WHITESPACE)
  \/ (Ref.blank4 c = c /\ existsb (N.eqb c) prompts._BAD_WHITESPACE = false).
Proof.
  unfold Ref.blank4, Ref.blank.
  destruct (existsb (N.eqb c) prompts._BAD_WHITESPACE) eqn:E; [left|right; auto].
  split; [reflexivity|].
  apply existsb_exists in E as (x & Hx & Hc).
  apply N.eqb_eq in Hc. now subst.
Qed.

Lemma blank4_unmarked (c : codepoint) :
  existsb (N.eqb (Ref.blank4 c)) prompts._BAD_WHITESPACE = false.
Proof.
  destruct (blank4_cases c) as [[-> _]|[-> H]]; [reflexivity|exact H].
Qed.

Lemma blank4_idem (c : codepoint) : Ref.blank4 (Ref.blank4 c) = Ref.blank4 c.
Proof.
  unfold Ref.blank4 at 1. unfold Ref.blank. now rewrite blank4_unmarked.
Qed.

Lemma blank4_eqb (c x : codepoint) :
  existsb (N.eqb x) (Char.SPACE :: prompts._BAD_WHITESPACE) = false ->
  (Ref.blank4 c =? x) = (c =? x).
Proof.
  intros Hx. cbn [existsb] in Hx.
  apply orb_false_elim in Hx as [Hsp Hx].
  destruct (blank4_cases c) as [[-> Hin]|[-> _]]; [|reflexivity].
  rewrite N.eqb_sym, Hsp. symmetry. apply N.eqb_neq. intros ->.
  assert (existsb (N.eqb x) prompts._BAD_WHITESPACE = true); [|congruence].
  apply existsb_exists. exists x. split; [assumption|apply N.eqb_refl].
Qed.

Lemma blank4_cr (c : codepoint) : (Ref.blank4 c =? Char.CR) = (c =? Char.CR).
Proof. now apply blank4_eqb. Qed.

Lemma blank4_lf (c : codepoint) : (Ref.blank4 c =? Char.LF) = (c =? Char.LF).
Proof. now apply blank4_eqb. Qed.

Lemma map_blank4_unmarked (s : pystr) :
  forallb (fun c => negb (Str.contains [c] (map Ref.blank4 s)))
    prompts._BAD_WHITESPACE = true.
Proof.
  apply forallb_forall. intros c Hc.
  rewrite contains_one. apply negb_true_iff.
  induction s as [|x s IH]; [reflexivity|].
  cbn [map existsb]. rewrite IH, orb_false_r.
  apply N.eqb_neq. intros ->.
  pose proof (blank4_unmarked x) as H.
  assert (existsb (N.eqb (Ref.blank4 x)) prompts._BAD_WHITESPACE = true); [|congruence].
  apply existsb_exists. exists (Ref.blank4 x). split; [assumption|apply N.eqb_refl].
Qed.

Lemma contains_map_blank4 (x : codepoint) (s : pystr) :
  existsb (N.eqb x) (Char.SPACE :: prompts._BAD_WHITESPACE) = false ->
  Str.contains [x] (map Ref.blank4 s) = Str.contains [x] s.
Proof.
  intros Hx. rewrite !contains_one.
  induction s as [|c s IH]; [reflexivity|].
  cbn [map existsb]. rewrite IH. f_equal.
  rewrite (N.eqb_sym x), (N.eqb_sym x). now apply blank4_eqb.
Qed.

(** *** The text handed to the parser *)

Lemma yaml_text_eq (raw : pystr) :
  config.yaml_text raw = map Ref.blank4 (TextIO.read raw).
Proof. unfold config.yaml_text. apply replace_each. Qed.

Lemma yaml_text_clean (raw : pystr) : Ref.clean (config.yaml_text raw) = true.
Proof.
  unfold Ref.clean. rewrite yaml_text_eq.
  rewrite map_blank4_unmarked. cbn [andb].
  apply negb_true_iff, contains_crlf_cr.
  rewrite contains_map_blank4 by reflexivity.
  apply read_no_cr.
Qed.

Lemma load_yaml_guarded fs safe_load path :
  config._load_yaml fs safe_load path
  = config._load_yaml fs (Ref.guarded safe_load) path.
Proof.
  unfold config._load_yaml, Ref.guarded.
  destruct (fs path) as [raw|]; [|reflexivity].
  now rewrite yaml_text_clean.
Qed.

(** *** Pairs of carriage return and line feed *)

Lemma crlf_step (c : codepoint) (rest : pystr) :
  Ref.crlf (c :: rest)
  = match rest with
    | c' :: rest' =>
        if (c =? Char.CR) && (c' =? Char.LF) then Char.LF :: Ref.crlf rest'
        else c :: Ref.crlf rest
    | [] => [c]
    end.
Proof. reflexivity. Qed.

Lemma crlf_map_blank4 (s : pystr) :
  Ref.crlf (map Ref.blank4 s) = map Ref.blank4 (Ref.crlf s).
Proof.
  induction s as [s IH] using pystr_length_ind.
  destruct s as [|c [|c' rest]]; try reflexivity.
  cbn [map].
  rewrite (crlf_step (Ref.blank4 c)), (crlf_step c), blank4_cr, blank4_lf.
  destruct ((c =? Char.CR) && (c' =? Char.LF)) eqn:E.
  - cbn [map]. f_equal. apply IH. simpl; lia.
  - cbn [map]. f_equal.
    change (Ref.blank4 c' :: map Ref.blank4 rest) with (map Ref.blank4 (c' :: rest)).
    apply IH. simpl; lia.
Qed.

Lemma crlf_length (s : pystr) :
  (List.length (Ref.crlf s) <= List.length s)%nat.
Proof.
  induction s as [s IH] using pystr_length_ind.
  destruct s as [|c [|c' rest]]; try (simpl; lia).
  rewrite crlf_step.
  destruct ((c =? Char.CR) && (c' =? Char.LF)); cbn [List.length].
  - assert (H := IH rest ltac:(simpl; lia)). lia.
  - assert (H := IH (c' :: rest) ltac:(simpl; lia)).
    cbn [List.length] in H. lia.
Qed.

(** Without a pair nothing changes; with one the text gets shorter. *)
Lemma crlf_fixed (s : pystr) :
  Str.contains [Char.CR; Char.LF] s = false -> Ref.crlf s = s.
Proof.
  induction s as [|c s IH]; [reflexivity|].
  cbn [Str.contains Str.startswith]. intros H.
  apply orb_false_elim in H as [Hhd Htl].
  rewrite crlf_step. destruct s as [|c' rest]; [reflexivity|].
  rewrite andb_true_r, (N.eqb_sym Char.CR), (N.eqb_sym Char.LF) in Hhd.
  rewrite Hhd. f_equal. now apply IH.
Qed.

Lemma crlf_shorter (s : pystr) :
  Str.contains [Char.CR; Char.LF] s = true ->
  (List.length (Ref.crlf s) < List.length s)%nat.
Proof.
  induction s as [s IH] using pystr_length_ind.
  destruct s as [|c [|c' rest]].
  - discriminate.
  - cbn. rewrite andb_false_r. discriminate.
  - cbn [Str.contains Str.startswith].
    rewrite andb_true_r, (N.eqb_sym Char.CR), (N.eqb_sym Char.LF).
    rewrite crlf_step.
    destruct ((c =? Char.CR) && (c' =? Char.LF)); cbn [orb List.length].
    + intros _. pose proof (crlf_length rest). lia.
    + intros H. specialize (IH (c' :: rest)). simpl in IH.
      cbn [Str.contains Str.startswith] in H.
      specialize (IH ltac:(lia) H). simpl. lia.
Qed.

(** A pair is left after one pass exactly when a carriage return stood
    in front of a pair. *)
Lemma crlf_head (c : codepoint) (s : pystr) :
  Str.startswith [Char.LF] (Ref.crlf (c :: s))
  = (c =? Char.LF) || Str.startswith [Char.CR; Char.LF] (c :: s).
Proof.
  rewrite crlf_step. destruct s as [|c' rest]; cbn [Str.startswith].
  - rewrite !andb_true_r, andb_false_r, orb_false_r. apply N.eqb_sym.
  - rewrite ?andb_true_r, (N.eqb_sym Char.CR c), (N.eqb_sym Char.LF c').
    destruct (c =? Char.CR) eqn:Ecr, (c' =? Char.LF) eqn:Elf;
      cbn [andb orb Str.startswith];
      rewrite ?andb_true_r, ?orb_false_r, ?orb_true_r;
      try apply N.eqb_sym; reflexivity.
Qed.

Lemma startswith_cons (a b : codepoint) (p s : pystr) :
  Str.startswith (a :: p) (b :: s) = (a =? b) && Str.startswith p s.
Proof. reflexivity. Qed.

Lemma contains_cons (sub : pystr) (c : codepoint) (s : pystr) :
  Str.contains sub (c :: s) = Str.startswith sub (c :: s) || Str.contains sub s.
Proof. reflexivity. Qed.

Lemma crlf_leaves_pair (s : pystr) :
  Str.contains [Char.CR; Char.LF] (Ref.crlf s)
  = Str.contains [Char.CR; Char.CR; Char.LF] s.
Proof.
  induction s as [s IH] using pystr_length_ind.
  destruct s as [|c [|c' rest]].
  - reflexivity.
  - cbn. now rewrite !andb_false_r.
  - rewrite crlf_step.
    destruct ((c =? Char.CR) && (c' =? Char.LF)) eqn:E.
    + apply andb_prop in E as [Ec Ec'].
      apply N.eqb_eq in Ec, Ec'. subst c c'.
      rewrite !contains_cons, (IH rest) by (simpl; lia).
      reflexivity.
    + rewrite (contains_cons _ c), (contains_cons _ c).
      rewrite (IH (c' :: rest)) by (simpl; lia). f_equal.
      rewrite (startswith_cons Char.CR c [Char.LF]),
        (startswith_cons Char.CR c [Char.CR; Char.LF]).
      rewrite crlf_head, (N.eqb_sym Char.CR c).
      destruct (c =? Char.CR); [|reflexivity].
      cbn [andb] in *. now rewrite E.
Qed.

(** *** The sanitizer of prompt templates *)

Lemma blank_ext (l l' : list codepoint) (c : codepoint) :
  (forall x, In x l <-> In x l') -> Ref.blank l c = Ref.blank l' c.
Proof.
  intros H. unfold Ref.blank.
  assert (E : existsb (N.eqb c) l = existsb (N.eqb c) l'); [|now rewrite E].
  apply eq_true_iff_eq. rewrite !existsb_exists.
  split; intros (x & Hx & Hc); exists x; split; auto; now apply H.
Qed.

Lemma sanitize_order_irrelevant (order : list codepoint) (s : pystr) :
  (forall c, In c order <-> In c prompts._BAD_WHITESPACE) ->
  prompts.sanitize_in order s = prompts._sanitize_prompt_text s.
Proof.
  intros H. unfold prompts._sanitize_prompt_text, prompts.sanitize_in.
  rewrite !replace_each. f_equal.
  apply map_ext. intros c. now apply blank_ext.
Qed.

Lemma sanitize_eq (s : pystr) :
  prompts._sanitize_prompt_text s = map Ref.blank4 (Ref.crlf s).
Proof.
  unfold prompts._sanitize_prompt_text, prompts.sanitize_in.
  rewrite replace_each, replace_crlf. apply crlf_map_blank4.
Qed.

Lemma sanitize_twice (s : pystr) :
  prompts._sanitize_prompt_text (prompts._sanitize_prompt_text s)
  = map Ref.blank4 (Ref.crlf (Ref.crlf s)).
Proof.
  rewrite (sanitize_eq (prompts._sanitize_prompt_text s)), sanitize_eq.
  rewrite <- crlf_map_blank4, <- !crlf_map_blank4, map_map.
  do 2 f_equal. apply map_ext, blank4_idem.
Qed.

Lemma sanitize_unmarked (s : pystr) :
  forallb (fun c => negb (Str.contains [c] (prompts._sanitize_prompt_text s)))
    prompts._BAD_WHITESPACE = true.
Proof. rewrite sanitize_eq. apply map_blank4_unmarked. Qed.

Lemma sanitize_idempotent_iff (s : pystr) :
  pystr_eqb (prompts._sanitize_prompt_text (prompts._sanitize_prompt_text s))
            (prompts._sanitize_prompt_text s)
  = negb (Str.contains [Char.CR; Char.CR; Char.LF] s).
Proof.
  rewrite sanitize_twice, sanitize_eq, <- crlf_leaves_pair.
  destruct (Str.contains [Char.CR; Char.LF] (Ref.crlf s)) eqn:E; cbn [negb].
  - apply pystr_eqb_neq. intros H.
    apply (f_equal (@List.length _)) in H. rewrite !length_map in H.
    apply crlf_shorter in E. lia.
  - apply pystr_eqb_eq. now rewrite crlf_fixed.
Qed.

(** ** Dictionaries *)

Lemma has_key_str (k k' : pystr) (v : pyval) :
  Dict.has_key k (VStr k', v) = pystr_eqb k k'.
Proof. reflexivity. Qed.

Lemma get_mem (k : pystr) (d : pydict) :
  Dict.mem k d = match Dict.get k d with Some _ => true | None => false end.
Proof.
  unfold Dict.mem, Dict.get.
  induction d as [|e d IH]; [reflexivity|].
  cbn [existsb find]. destruct (Dict.has_key k e); [reflexivity|exact IH].
Qed.

Lemma get_remove_same (k : pystr) (d : pydict) :
  Dict.get k (Dict.remove k d) = None.
Proof.
  unfold Dict.get, Dict.remove.
  induction d as [|e d IH]; [reflexivity|].
  cbn [filter]. destruct (Dict.has_key k e) eqn:E; cbn [negb]; [exact IH|].
  cbn [find]. now rewrite E.
Qed.

Lemma has_key_other (k k' : pystr) (e : pyval * pyval) :
  k <> k' -> Dict.has_key k e = true -> Dict.has_key k' e = false.
Proof.
  unfold Dict.has_key. destruct (fst e); try discriminate.
  intros Hk H. apply pystr_eqb_eq in H. subst.
  now apply pystr_eqb_neq.
Qed.

Lemma get_remove_other (k k' : pystr) (d : pydict) :
  k <> k' -> Dict.get k' (Dict.remove k d) = Dict.get k' d.
Proof.
  intros Hk. unfold Dict.get, Dict.remove. f_equal.
  induction d as [|e d IH]; [reflexivity|].
  cbn [filter find].
  destruct (Dict.has_key k e) eqn:E; cbn [negb find].
  - now rewrite (has_key_other k k' e Hk E).
  - now rewrite IH.
Qed.

Lemma get_app (k : pystr) (d d' : pydict) :
  Dict.get k (d ++ d')
  = match Dict.get k d with Some v => Some v | None => Dict.get k d' end.
Proof.
  unfold Dict.get. induction d as [|e d IH]; [reflexivity|].
  cbn [app find]. destruct (Dict.has_key k e); [reflexivity|exact IH].
Qed.

(** Writing a key that the dictionary does not have. *)
Lemma get_set_new (k k' : pystr) (v : pyval) (d : pydict) :
  Dict.get k d = None ->
  Dict.get k' (Dict.set k v d)
  = if pystr_eqb k' k then (match Dict.get k' d with Some w => Some w | None => Some v end)
    else Dict.get k' d.
Proof.
  intros Hk. unfold Dict.set. rewrite get_mem, Hk, get_app.
  destruct (Dict.get k' d) as [w|]; [now destruct (pystr_eqb k' k)|].
  unfold Dict.get. cbn [find]. rewrite has_key_str.
  now destruct (pystr_eqb k' k).
Qed.

Lemma get_rename_other (old new k : pystr) (d : pydict) :
  k <> old -> k <> new ->
  Dict.get k (Ref.rename_key old new d) = Dict.get k d.
Proof.
  intros Hold Hnew. unfold Dict.get, Ref.rename_key.
  induction d as [|e d IH]; [reflexivity|].
  cbn [map find].
  destruct (Dict.has_key old e) eqn:E.
  - rewrite has_key_str.
    rewrite (has_key_other old k e (not_eq_sym Hold) E).
    apply pystr_eqb_neq in Hnew. rewrite Hnew. exact IH.
  - destruct (Dict.has_key k e); [reflexivity|exact IH].
Qed.

Lemma get_rename_new (old new : pystr) (d : pydict) :
  Dict.get new d = None ->
  Dict.get new (Ref.rename_key old new d) = Dict.get old d.
Proof.
  unfold Dict.get, Ref.rename_key.
  induction d as [|e d IH]; [reflexivity|].
  cbn [map find]. intros H.
  destruct (Dict.has_key new e) eqn:Enew; [discriminate|].
  destruct (Dict.has_key old e) eqn:Eold.
  - rewrite has_key_str, pystr_eqb_refl. reflexivity.
  - rewrite Enew. now apply IH.
Qed.

Lemma lit_neq (a b : string) :
  pystr_eqb (lit a) (lit b) = false -> lit a <> lit b.
Proof. apply pystr_eqb_neq. Qed.

(** ** The renaming of [input] *)

Lemma backward_compat_rename (d : pydict) (v : pyval) :
  Dict.get (lit "inputs") d = None ->
  Dict.get (lit "input") d = Some v ->
  is_dict v = true ->
  config._backward_compat_keys (VDict d)
  = VDict (Dict.remove (lit "input") d ++ [(VStr (lit "inputs"), v)]).
Proof.
  intros Hinputs Hinput Hv.
  unfold config._backward_compat_keys, Dict.get_or_none.
  rewrite !get_mem, Hinputs, Hinput, Hv. cbn [negb andb].
  unfold Dict.set.
  rewrite get_mem, get_remove_other, Hinputs by (apply lit_neq; reflexivity).
  reflexivity.
Qed.

Lemma backward_compat_keep (d : pydict) :
  negb (Dict.mem (lit "inputs") d) && Dict.mem (lit "input") d
  && is_dict (Dict.get_or_none (lit "input") d) = false ->
  config._backward_compat_keys (VDict d) = VDict d.
Proof.
  intros H. unfold config._backward_compat_keys. now rewrite H.
Qed.

Lemma legacy_input_validates `{readers : pydantic.text_readers}
    (d : pydict) (v : pydict) :
  Dict.get (lit "inputs") d = None ->
  Dict.get (lit "input") d = Some (VDict v) ->
  config.ParametersConfig_validate (VDict d)
  = config.ParametersConfig_validate
      (VDict (Ref.rename_key (lit "input") (lit "inputs") d)).
Proof.
  intros Hinputs Hinput.
  unfold config.ParametersConfig_validate.
  rewrite (backward_compat_rename d (VDict v)) by auto.
  rewrite backward_compat_keep.
  2:{ rewrite get_mem, get_rename_new, Hinput by assumption. reflexivity. }
  unfold pydantic.field.
  rewrite !get_app, !get_rename_new by assumption.
  rewrite !get_rename_other by (apply lit_neq; reflexivity).
  rewrite !get_remove_other by (apply lit_neq; reflexivity).
  rewrite Hinputs, Hinput.
  repeat match goal with
         | |- context [Dict.get ?k d] => destruct (Dict.get k d); try reflexivity
         end.
Qed.

(** ** The validation engine *)

Import pydantic.

Lemma errors_of_ap {A B} (f : outcome (A -> B)) (x : outcome A) :
  errors_of (f <*> x) = errors_of f ++ errors_of x.
Proof.
  destruct f, x; cbn [ap errors_of app]; try reflexivity.
  symmetry; apply app_nil_r.
Qed.

Lemma errors_of_at_loc {A} (name : pystr) (o : outcome A) :
  errors_of (at_loc name o) = map (under name) (errors_of o).
Proof. now destruct o. Qed.

Lemma errors_of_field {A} (name : pystr) (dflt : A) validate (d : pydict) :
  errors_of (field name dflt validate d)
  = match Dict.get name d with
    | Some v => map (under name) (errors_of (validate v))
    | None => []
    end.
Proof.
  unfold field. destruct (Dict.get name d); [apply errors_of_at_loc|reflexivity].
Qed.

Lemma sound_valid_iff {A} (o : outcome A) :
  sound o -> (errors_of o = [] <-> exists a, o = Valid a).
Proof.
  destruct o as [a|es]; cbn [sound errors_of]; intros H; split.
  - eauto.
  - reflexivity.
  - intros ->. contradiction.
  - intros [a Ha]. discriminate.
Qed.

Lemma sound_ap {A B} (f : outcome (A -> B)) (x : outcome A) :
  sound f -> sound x -> sound (f <*> x).
Proof.
  destruct f as [g|es], x as [a|es']; cbn [ap sound]; auto.
  intros H _ E. apply app_eq_nil in E as [-> _]. contradiction.
Qed.

Lemma sound_fail {A} (t : error_type) : sound (@fail A t).
Proof. cbn. discriminate. Qed.

Lemma sound_at_loc {A} (name : pystr) (o : outcome A) :
  sound o -> sound (at_loc name o).
Proof.
  destruct o as [a|es]; cbn [at_loc sound]; auto.
  intros H E. apply map_eq_nil in E. contradiction.
Qed.

Lemma sound_field {A} (name : pystr) (dflt : A) validate (d : pydict) :
  (forall v, sound (validate v)) -> sound (field name dflt validate d).
Proof.
  intros H. unfold field.
  destruct (Dict.get name d); [apply sound_at_loc, H|exact I].
Qed.

Lemma sound_of_checked {A} (c : checked A) : sound (of_checked c).
Proof. destruct c; [exact I|apply sound_fail]. Qed.

Lemma sound_before {A} f (convert : pyval -> outcome A) (v : pyval) :
  (forall w, sound (convert w)) -> sound (before f convert v).
Proof.
  intros H. unfold before. destruct (f v); [apply H|apply sound_fail].
Qed.

Lemma sound_after {A} (convert : pyval -> outcome A) f (v : pyval) :
  (forall w, sound (convert w)) -> sound (after convert f v).
Proof.
  intros H. unfold after. specialize (H v).
  destruct (convert v); [apply sound_of_checked|exact H].
Qed.

Lemma sound_lax_str (v : pyval) : sound (lax_str v).
Proof. destruct v; cbn; auto; discriminate. Qed.

Lemma sound_of_read {A} (r : A + error_type) : sound (of_read r).
Proof. destruct r; [exact I|apply sound_fail]. Qed.

Lemma sound_float_as_int (x : pyfloat) : sound (float_as_int x).
Proof.
  unfold float_as_int. destruct (Float.trunc x); [|apply sound_fail].
  destruct (negb _); [apply sound_fail|].
  destruct (_ && _); [exact I|apply sound_fail].
Qed.

Lemma sound_int_as_bool (n : Z) : sound (int_as_bool n).
Proof.
  unfold int_as_bool. destruct (n =? 0)%Z; [exact I|].
  destruct (n =? 1)%Z; [exact I|apply sound_fail].
Qed.

Lemma sound_lax_int `{readers : text_readers} (v : pyval) : sound (lax_int v).
Proof.
  destruct v; cbn [lax_int]; try apply sound_fail; try exact I.
  - apply sound_float_as_int.
  - apply sound_of_read.
Qed.

Lemma sound_lax_float `{readers : text_readers} (v : pyval) : sound (lax_float v).
Proof.
  destruct v; cbn [lax_float]; try apply sound_fail; try exact I.
  - destruct (Float.of_int n); [exact I|apply sound_fail].
  - apply sound_of_read.
Qed.

Lemma sound_lax_bool `{readers : text_readers} (v : pyval) : sound (lax_bool v).
Proof.
  destruct v as [|b|n|x|s|l|d]; cbn [lax_bool];
    try apply sound_fail; try exact I.
  - destruct (fits_i64 n); [apply sound_int_as_bool|apply sound_fail].
  - destruct (float_as_int x); [apply sound_int_as_bool|apply sound_fail].
  - apply sound_of_read.
Qed.

Lemma sound_lax_optional {A} (convert : pyval -> outcome A) (v : pyval) :
  (forall w, sound (convert w)) -> sound (lax_optional convert v).
Proof.
  intros H. destruct v; cbn [lax_optional]; try exact I;
    apply sound_ap; try exact I; apply H.
Qed.

Create HintDb sound discriminated.
#[local] Hint Resolve sound_ap sound_field sound_fail sound_before sound_after
  sound_lax_str sound_lax_int sound_lax_float sound_lax_bool
  sound_lax_optional sound_of_checked : sound.
#[local] Hint Extern 1 (sound (Valid _)) => exact I : sound.

Ltac sound_model :=
  let v := fresh "v" in
  intros v; destruct v; lazy beta iota zeta;
  try apply sound_fail; repeat (apply sound_ap); auto 6 with sound.

Lemma sound_ProjectConfig v : sound (config.ProjectConfig_validate v).
Proof. revert v. unfold config.ProjectConfig_validate. sound_model. Qed.

Lemma sound_InputsConfig v : sound (config.InputsConfig_validate v).
Proof. revert v. unfold config.InputsConfig_validate. sound_model. Qed.

Lemma sound_LLMConfig `{readers : pydantic.text_readers}
    v : sound (config.LLMConfig_validate v).
Proof. revert v. unfold config.LLMConfig_validate. sound_model. Qed.

Lemma sound_OutputsConfig v : sound (config.OutputsConfig_validate v).
Proof. revert v. unfold config.OutputsConfig_validate. sound_model. Qed.

#[local] Hint Resolve sound_ProjectConfig sound_InputsConfig sound_LLMConfig
  sound_OutputsConfig : sound.

Lemma sound_ParametersConfig `{readers : pydantic.text_readers}
    v : sound (config.ParametersConfig_validate v).
Proof.
  unfold config.ParametersConfig_validate.
  generalize (config._backward_compat_keys v). sound_model.
Qed.

Lemma sound_CredentialsGeminiRequest `{readers : pydantic.text_readers} v :
  sound (config.CredentialsGeminiRequest_validate v).
Proof. revert v. unfold config.CredentialsGeminiRequest_validate. sound_model. Qed.

#[local] Hint Resolve sound_CredentialsGeminiRequest : sound.

Lemma sound_CredentialsGemini `{readers : pydantic.text_readers}
    v : sound (config.CredentialsGemini_validate v).
Proof. revert v. unfold config.CredentialsGemini_validate. sound_model. Qed.

#[local] Hint Resolve sound_CredentialsGemini : sound.

Lemma sound_CredentialsConfig `{readers : pydantic.text_readers}
    v : sound (config.CredentialsConfig_validate v).
Proof. revert v. unfold config.CredentialsConfig_validate. sound_model. Qed.

(** [model_validate] raises exactly when there is an error, with all of
    them. *)
Lemma model_validate_errors {A} (validate : pyval -> outcome A) (v : pyval)
    (e : line_error) :
  In e (errors_of (validate v)) ->
  model_validate validate v = Raise (ValidationError (errors_of (validate v))).
Proof.
  unfold model_validate. destruct (validate v); [contradiction|reflexivity].
Qed.

Lemma model_validate_ok {A} (validate : pyval -> outcome A) (v : pyval) (a : A) :
  model_validate validate v = Ok a -> errors_of (validate v) = [].
Proof.
  unfold model_validate. destruct (validate v); [reflexivity|discriminate].
Qed.

Lemma model_validate_cases {A} (validate : pyval -> outcome A) (v : pyval) :
  sound (validate v) ->
  (exists a, model_validate validate v = Ok a)
  \/ (exists es, es <> []
                 /\ model_validate validate v = Raise (ValidationError es)).
Proof.
  unfold model_validate. destruct (validate v) as [a|es]; cbn [sound]; eauto.
Qed.


(** *** Every error of every field reaches the report *)

Lemma in_ap_l {A B} (f : outcome (A -> B)) (x : outcome A) (e : line_error) :
  In e (errors_of f) -> In e (errors_of (f <*> x)).
Proof. rewrite errors_of_ap, in_app_iff. auto. Qed.

Lemma in_ap_r {A B} (f : outcome (A -> B)) (x : outcome A) (e : line_error) :
  In e (errors_of x) -> In e (errors_of (f <*> x)).
Proof. rewrite errors_of_ap, in_app_iff. auto. Qed.

Lemma in_field {A} (name : pystr) (dflt : A) validate (d : pydict)
    (v : pyval) (e : line_error) :
  Dict.get name d = Some v ->
  In e (errors_of (validate v)) ->
  In (under name e) (errors_of (field name dflt validate d)).
Proof.
  intros Hget He. rewrite errors_of_field, Hget. now apply in_map.
Qed.

Lemma errors_of_non_mapping {A} (validate : pyval -> outcome A) (v : pyval)
    (e : line_error) :
  (forall w, is_dict w = false -> validate w = fail model_type) ->
  In e (Ref.must_be_mapping v) -> In e (errors_of (validate v)).
Proof.
  intros H. unfold Ref.must_be_mapping.
  destruct (is_dict v) eqn:E; [contradiction|].
  now rewrite (H v E).
Qed.

Ltac report :=
  lazymatch goal with
  | |- In (under ?n _) (errors_of (_ <*> field ?n _ _ _)) =>
      apply in_ap_r; eapply in_field; [eassumption|]
  | |- In _ (errors_of (_ <*> _)) => apply in_ap_l; report
  end.

Ltac non_mapping :=
  apply errors_of_non_mapping; [|assumption];
  let w := fresh "w" in intros w; destruct w; (discriminate || reflexivity).

Lemma every_error_reported `{readers : pydantic.text_readers}
    (raw : pydict) (path : list pystr)
    (chk : pyval -> list line_error) (v : pyval) (e : line_error) :
  In (path, chk) Ref.checks_of_code ->
  Ref.lookup path (config._backward_compat_keys (VDict raw)) = Some v ->
  In e (chk v) ->
  In (Ref.located path e)
     (errors_of (config.ParametersConfig_validate (VDict raw))).
Proof.
  intros Hin Hlook He.
  unfold config.ParametersConfig_validate.
  assert (Hd : exists d, config._backward_compat_keys (VDict raw) = VDict d).
  { unfold config._backward_compat_keys.
    match goal with |- context [if ?b then _ else _] => destruct b end; eauto. }
  destruct Hd as [d Hd]. rewrite Hd in *. lazy beta iota zeta.
  unfold Ref.checks_of_code in Hin.
  repeat (destruct Hin as [Hin|Hin];
          [injection Hin as <- <-; cbn [Ref.lookup] in Hlook|]);
    try contradiction;
    match type of Hlook with
    | context [Dict.get ?s d] =>
        destruct (Dict.get s d) as [w|] eqn:Es; [|discriminate]
    end.
  all: try (injection Hlook as ->;
            match goal with
            | |- In (Ref.located [?s] ?e) _ =>
                change (Ref.located [s] e) with (under s e)
            end;
            report; first [exact He | non_mapping]).
  all: destruct w as [| | | | | |d']; try discriminate;
    match type of Hlook with
    | context [Dict.get ?f d'] =>
        destruct (Dict.get f d') as [u|] eqn:Ef; [|discriminate]
    end;
    injection Hlook as ->;
    match goal with
    | |- In (Ref.located [?s; ?f] ?e) _ =>
        change (Ref.located [s; f] e) with (under s (under f e))
    end;
    report;
    lazy beta iota zeta delta
      [config.ProjectConfig_validate config.InputsConfig_validate
       config.LLMConfig_validate config.OutputsConfig_validate];
    report; exact He.
Qed.

(** *** Every reported error is the error of a field *)

Ltac in_schema := repeat (first [left; reflexivity | right]).

Ltac split_errors H :=
  repeat (rewrite errors_of_ap in H; apply in_app_or in H as [H|H]);
  try contradiction.

Lemma every_report_is_an_error `{readers : pydantic.text_readers}
    (raw : pydict) (e' : line_error) :
  In e' (errors_of (config.ParametersConfig_validate (VDict raw))) ->
  exists path chk v e,
    In (path, chk) Ref.checks_of_code
    /\ Ref.lookup path (config._backward_compat_keys (VDict raw)) = Some v
    /\ In e (chk v)
    /\ e' = Ref.located path e.
Proof.
  unfold config.ParametersConfig_validate.
  assert (Hd : exists d, config._backward_compat_keys (VDict raw) = VDict d).
  { unfold config._backward_compat_keys.
    match goal with |- context [if ?b then _ else _] => destruct b end; eauto. }
  destruct Hd as [d ->]. lazy beta iota zeta. intros H.
  split_errors H;
    rewrite errors_of_field in H;
    match type of H with
    | context [Dict.get ?s ?dd] =>
        destruct (Dict.get s dd) as [w|] eqn:Es; [|contradiction];
        apply in_map_iff in H as (e1 & <- & H)
    end.
  5:{ (* prompt_key *)
      exists [lit "prompt_key"], (Ref.check lax_str), w, e1.
      repeat split; [in_schema|cbn [Ref.lookup]; now rewrite Es|exact H]. }
  all: destruct w as [| | | | | |d'];
    try (match type of Es with
         | Dict.get ?s _ = Some ?w =>
             exists [s], Ref.must_be_mapping, w, e1;
             repeat split;
               [in_schema|cbn [Ref.lookup]; now rewrite Es|exact H]
         end).
  all: lazy beta iota zeta delta
         [config.ProjectConfig_validate config.InputsConfig_validate
          config.LLMConfig_validate config.OutputsConfig_validate] in H;
    split_errors H;
    rewrite errors_of_field in H;
    match type of H with
    | context [Dict.get ?f ?dd] =>
        destruct (Dict.get f dd) as [u|] eqn:Ef; [|contradiction];
        apply in_map_iff in H as (e2 & <- & H)
    end;
    match type of Es with
    | Dict.get ?s _ = _ =>
        match type of Ef with
        | Dict.get ?f _ = _ =>
            match type of H with
            | In _ (errors_of (?val ?u)) =>
                exists [s; f], (Ref.check val), u, e2;
                repeat split;
                  [in_schema|cbn [Ref.lookup]; now rewrite Es, Ef|exact H]
            end
        end
    end.
Qed.

(** *** The rules of the fields and the checks of the code *)

Lemma outside_ltb (x : pyfloat) :
  Ref.outside 0 2 x = Float.ltb x (Float.of_Z 0) || Float.ltb (Float.of_Z 2) x.
Proof. destruct x as [|[|]|q]; reflexivity. Qed.

Lemma temperature_rule_checked `{readers : text_readers} (v : pyval) :
  Ref.converted lax_float Ref.temperature_rule v
  = Ref.check (after lax_float config._validate_temperature) v.
Proof.
  unfold Ref.converted, Ref.check, after.
  destruct (lax_float v) as [x|es]; [|reflexivity].
  unfold Ref.temperature_rule, config._validate_temperature.
  rewrite outside_ltb.
  now destruct (Float.ltb x (Float.of_Z 0) || Float.ltb (Float.of_Z 2) x).
Qed.

Lemma positive_rule_checked `{readers : text_readers} (name : pystr) (v : pyval) :
  Ref.converted lax_int (Ref.positive_rule name) v
  = Ref.check (after lax_int (config._validate_positive_int name)) v.
Proof.
  unfold Ref.converted, Ref.check, after.
  destruct (lax_int v) as [n|es]; [|reflexivity].
  unfold Ref.positive_rule, config._validate_positive_int.
  rewrite Z.ltb_antisym. now destruct (n <=? 0)%Z.
Qed.

Lemma progress_log_every_rule_checked `{readers : text_readers} (v : pyval) :
  Ref.progress_log_every_rule v
  = Ref.check (before (returning VInt config._validate_progress_log_every)
                 lax_int) v.
Proof.
  unfold Ref.check, before, returning, Ref.progress_log_every_rule,
    config._validate_progress_log_every.
  destruct v; try reflexivity;
    (destruct (py_int _) as [iv|]; [|reflexivity];
     rewrite Z.ltb_antisym; now destruct (iv <=? 0)%Z).
Qed.

Lemma max_rows_per_run_rule_checked `{readers : text_readers} (v : pyval) :
  Ref.max_rows_per_run_rule v
  = Ref.check (before config._validate_max_rows_per_run (lax_optional lax_int)) v.
Proof.
  unfold Ref.check, before, Ref.max_rows_per_run_rule,
    config._validate_max_rows_per_run.
  destruct v as [|b|n|x|s|l|d]; try reflexivity.
  - now destruct b.
  - now destruct (n <=? 0)%Z.
  - cbv zeta. destruct (pystr_eqb _ _); [reflexivity|].
    destruct (Str.int _) as [iv|]; [|reflexivity].
    now destruct (iv <=? 0)%Z.
Qed.

Lemma schema_agrees `{readers : text_readers} :
  Forall2 (fun rule chk => fst rule = fst chk /\ forall v, snd rule v = snd chk v)
    Ref.parameters_schema Ref.checks_of_code.
Proof.
  unfold Ref.parameters_schema, Ref.checks_of_code.
  repeat (constructor; [split; [reflexivity|cbn [snd]; intros v]|]);
    try reflexivity; try apply Forall2_nil.
  - apply temperature_rule_checked.
  - apply progress_log_every_rule_checked.
  - apply positive_rule_checked.
  - apply positive_rule_checked.
  - apply max_rows_per_run_rule_checked.
Qed.

Lemma found_by_agrees (s s' : list (list pystr * (pyval -> list line_error)))
    (data : pyval) (path : list pystr) (e : line_error) :
  Forall2 (fun a b => fst a = fst b /\ forall v, snd a v = snd b v) s s' ->
  Ref.found_by s data path e <-> Ref.found_by s' data path e.
Proof.
  intros Hs. unfold Ref.found_by. split.
  - intros (chk & v & Hin & Hlook & He).
    induction Hs as [|[p c] [p' c'] s s' [Hp Hc] Hs IH]; [contradiction|].
    cbn [fst snd] in *. destruct Hin as [Hin|Hin].
    + injection Hin as <- <-. exists c', v. rewrite <- Hc.
      repeat split; auto. left. now subst.
    + destruct (IH Hin) as (chk' & v' & ? & ? & ?). exists chk', v'.
      repeat split; auto. now right.
  - intros (chk & v & Hin & Hlook & He).
    induction Hs as [|[p c] [p' c'] s s' [Hp Hc] Hs IH]; [contradiction|].
    cbn [fst snd] in *. destruct Hin as [Hin|Hin].
    + injection Hin as <- <-. exists c, v. rewrite Hc.
      repeat split; auto. left. now subst.
    + destruct (IH Hin) as (chk' & v' & ? & ? & ?). exists chk', v'.
      repeat split; auto. now right.
Qed.

Lemma invalid_at_checked `{readers : text_readers} (data : pyval)
    (path : list pystr) (e : line_error) :
  Ref.invalid_at data path e <-> Ref.found_by Ref.checks_of_code data path e.
Proof. apply found_by_agrees, schema_agrees. Qed.

(** C7.  Validation of a Parameters document has two outcomes only: the
    typed object, or one [ValidationError] whose report is not empty.  The
    object is returned exactly when no rule of the schema is broken: no
    document with an invalid field yields an object, whatever defaults
    the other fields have.  The report lists every error of every invalid
    field, each under the path of its field, and nothing else.
    [load_parameters] returns what validation makes of the document that
    [_load_yaml] returned. *)
Theorem validation_all_or_nothing `{readers : pydantic.text_readers}
    (raw : pydict) :
  let validated := model_validate config.ParametersConfig_validate (VDict raw) in
  let data := config._backward_compat_keys (VDict raw) in
  ((exists cfg, validated = Ok cfg)
   \/ (exists errs, errs <> [] /\ validated = Raise (ValidationError errs)))
  /\ (forall cfg path e, validated = Ok cfg -> ~ Ref.invalid_at data path e)
  /\ ((forall path e, ~ Ref.invalid_at data path e) ->
      exists cfg, validated = Ok cfg)
  /\ (forall errs e',
        validated = Raise (ValidationError errs) ->
        In e' errs
        <-> exists path e, Ref.invalid_at data path e /\ e' = Ref.located path e)
  /\ (forall fs safe_load path,
        config._load_yaml fs safe_load path = Ok raw ->
        config.load_parameters fs safe_load path = validated)
  /\ (forall fs safe_load path e,
        config._load_yaml fs safe_load path = Raise e ->
        config.load_parameters fs safe_load path = Raise e).
Proof.
  cbv zeta.
  assert (Hcases := model_validate_cases config.ParametersConfig_validate
                      (VDict raw) (sound_ParametersConfig (VDict raw))).
  assert (Herrs : forall errs,
             model_validate config.ParametersConfig_validate (VDict raw)
             = Raise (ValidationError errs) ->
             errs = errors_of (config.ParametersConfig_validate (VDict raw))).
  { intros errs H. unfold model_validate in H.
    destruct (config.ParametersConfig_validate (VDict raw));
      [discriminate|now injection H]. }
  split; [exact Hcases|]. split; [|split; [|split; [|split]]].
  - intros cfg path e H Hinv. apply invalid_at_checked in Hinv.
    destruct Hinv as (chk & v & Hin & Hlook & He).
    apply model_validate_ok in H.
    pose proof (every_error_reported raw path chk v e Hin Hlook He) as R.
    rewrite H in R. contradiction.
  - intros Hnone. destruct Hcases as [Hok|(errs & Hne & Hraise)]; [exact Hok|].
    exfalso. destruct errs as [|e' errs]; [now apply Hne|].
    pose proof (Herrs _ Hraise) as E.
    assert (He' : In e' (errors_of (config.ParametersConfig_validate (VDict raw))))
      by (rewrite <- E; now left).
    destruct (every_report_is_an_error raw e' He')
      as (path & chk & v & e & Hin & Hlook & He & _).
    apply (Hnone path e). apply invalid_at_checked. now exists chk, v.
  - intros errs e' H. rewrite (Herrs _ H). split.
    + intros He'.
      destruct (every_report_is_an_error raw e' He')
        as (path & chk & v & e & Hin & Hlook & He & ->).
      exists path, e. split; [|reflexivity].
      apply invalid_at_checked. now exists chk, v.
    + intros (path & e & Hinv & ->). apply invalid_at_checked in Hinv.
      destruct Hinv as (chk & v & Hin & Hlook & He).
      exact (every_error_reported raw path chk v e Hin Hlook He).
  - intros fs safe_load path H. unfold config.load_parameters. now rewrite H.
  - intros fs safe_load path e H. unfold config.load_parameters. now rewrite H.
Qed.

(** ** Integers written in decimal *)

Lemma lstrip_id (s : pystr) :
  match s with c :: _ => Str.isspace c = false | [] => True end ->
  Str.lstrip s = s.
Proof. destruct s as [|c s]; [reflexivity|]. cbn. now intros ->. Qed.

Lemma strip_id (s : pystr) :
  Forall (fun c => Str.isspace c = false) s -> Str.strip s = s.
Proof.
  intros H. unfold Str.strip, Str.rstrip.
  rewrite (lstrip_id s) by (destruct H; auto).
  rewrite lstrip_id; [apply rev_involutive|].
  apply Forall_rev in H. destruct H; auto.
Qed.

Lemma lower_id (s : pystr) :
  Forall (fun c => Str.lower_char c = [c]) s -> Str.lower s = s.
Proof.
  unfold Str.lower. induction 1 as [|c s Hc _ IH]; [reflexivity|].
  cbn [flat_map]. now rewrite Hc, IH.
Qed.

Lemma uint_value_pos (d : Decimal.uint) (p : positive) :
  Ref.uint_value (Zpos p) d = Zpos (Pos.of_uint_acc d p).
Proof.
  revert p; induction d; intros p; cbn [Ref.uint_value Pos.of_uint_acc];
    try reflexivity;
    match goal with
    | |- Ref.uint_value ?z _ = Zpos (Pos.of_uint_acc _ ?q) =>
        replace z with (Zpos q) by lia
    end; apply IHd.
Qed.

Lemma uint_value_0 (d : Decimal.uint) :
  Ref.uint_value 0 d = Z.of_N (Pos.of_uint d).
Proof.
  induction d; cbn [Ref.uint_value Pos.of_uint]; try reflexivity;
    try exact IHd; cbn [Z.mul Z.add]; rewrite uint_value_pos; reflexivity.
Qed.

Lemma digits_of_uint (d : Decimal.uint) (st : Str.lexstate) (acc : Z) :
  d <> Decimal.Nil \/ st = Str.AfterDigit ->
  Str.digits st acc (Str.of_uint d) = Some (Ref.uint_value acc d).
Proof.
  revert st acc; induction d; intros st acc H;
    cbn [Str.of_uint Str.digits Ref.uint_value];
    try (change (Str.digit _) with (Some 0%Z) || change (Str.digit _) with (Some 1%Z)
         || change (Str.digit _) with (Some 2%Z) || change (Str.digit _) with (Some 3%Z)
         || change (Str.digit _) with (Some 4%Z) || change (Str.digit _) with (Some 5%Z)
         || change (Str.digit _) with (Some 6%Z) || change (Str.digit _) with (Some 7%Z)
         || change (Str.digit _) with (Some 8%Z) || change (Str.digit _) with (Some 9%Z));
    try (apply IHd; now right).
  destruct H as [H| ->]; [contradiction|reflexivity].
Qed.

Lemma of_uint_plain (d : Decimal.uint) :
  Forall (fun c => Str.isspace c = false /\ Str.lower_char c = [c]
                   /\ (c =? Char.MINUS) = false /\ (c =? Char.PLUS) = false)
    (Str.of_uint d).
Proof. induction d; cbn [Str.of_uint]; constructor; auto. Qed.

Lemma of_int_plain (n : Z) :
  Forall (fun c => Str.isspace c = false /\ Str.lower_char c = [c])
    (Str.of_int n).
Proof.
  unfold Str.of_int.
  destruct (Z.to_int n); [|constructor; [now split|]];
    eapply Forall_impl; try apply of_uint_plain; cbn beta; tauto.
Qed.

Lemma strip_of_int (n : Z) : Str.strip (Str.of_int n) = Str.of_int n.
Proof.
  apply strip_id. eapply Forall_impl; [|apply of_int_plain]. cbn beta; tauto.
Qed.

Lemma lower_of_int (n : Z) : Str.lower (Str.of_int n) = Str.of_int n.
Proof.
  apply lower_id. eapply Forall_impl; [|apply of_int_plain]. cbn beta; tauto.
Qed.

Lemma to_int_nonnil (n : Z) :
  match Z.to_int n with Decimal.Pos d | Decimal.Neg d => d <> Decimal.Nil end.
Proof.
  destruct n; cbn [Z.to_int]; try apply Unsigned.to_uint_nonnil. discriminate.
Qed.

Lemma drop_while_id (p : codepoint -> bool) (s : pystr) :
  match s with c :: _ => p c = false | [] => True end ->
  Str.drop_while p s = s.
Proof. destruct s as [|c s]; [reflexivity|]. cbn. now intros ->. Qed.

Lemma trim_id (p : codepoint -> bool) (s : pystr) :
  Forall (fun c => p c = false) s -> Str.trim p s = s.
Proof.
  intros H. unfold Str.trim.
  rewrite (drop_while_id p s) by (destruct H; auto).
  rewrite drop_while_id; [apply rev_involutive|].
  apply Forall_rev in H. destruct H; auto.
Qed.

Lemma int_space_isspace (c : codepoint) :
  Str.isspace c = false -> Str.int_space c = false.
Proof. intros H. unfold Str.int_space. now rewrite H. Qed.

Lemma trim_of_int (n : Z) : Str.trim Str.int_space (Str.of_int n) = Str.of_int n.
Proof.
  apply trim_id. eapply Forall_impl; [|apply of_int_plain]. cbn beta.
  intros c [H _]. now apply int_space_isspace.
Qed.

(** [int(str(n)) == n], for a number that is not too long to be written
    and read. *)
Lemma int_of_int (n : Z) :
  (Str.digit_count (Str.of_int n) <= Str.int_max_str_digits)%nat ->
  Str.int (Str.of_int n) = Some n.
Proof.
  intros Hlen. unfold Str.int. cbv zeta. rewrite trim_of_int.
  apply Nat.ltb_ge in Hlen. rewrite Hlen.
  pose proof (DecimalZ.of_to n) as R.
  pose proof (to_int_nonnil n) as Hnil.
  unfold Str.of_int. destruct (Z.to_int n) as [d|d]; cbn [Z.of_int] in R.
  - pose proof (of_uint_plain d) as Hd.
    destruct (Str.of_uint d) as [|c rest] eqn:E.
    + destruct d; cbn in E; congruence.
    + apply Forall_inv in Hd as (_ & _ & -> & ->).
      rewrite <- E, digits_of_uint, uint_value_0 by auto.
      now rewrite <- R.
  - change (Char.MINUS =? Char.MINUS) with true. cbv iota.
    rewrite digits_of_uint, uint_value_0 by auto.
    cbn [option_map]. now rewrite <- R.
Qed.

(** *** Numbers that [str] and [int] are not too long for *)

Lemma digit_count_of_uint (d : Decimal.uint) :
  Str.digit_count (Str.of_uint d) = List.length (Str.of_uint d).
Proof.
  unfold Str.digit_count.
  induction d; cbn [Str.of_uint]; [reflexivity|..];
    cbn [filter];
    match goal with
    | |- context [Str.digit ?c] =>
        let r := eval vm_compute in (Str.digit c) in
        change (Str.digit c) with r
    end; cbn [List.length]; now rewrite IHd.
Qed.

Lemma uint_value_lower (d : Decimal.uint) (acc : Z) :
  (0 <= acc)%Z ->
  (acc * 10 ^ Z.of_nat (List.length (Str.of_uint d)) <= Ref.uint_value acc d)%Z.
Proof.
  revert acc. induction d; intros acc Hacc;
    cbn [Str.of_uint List.length Ref.uint_value];
    [rewrite Z.pow_0_r; lia|..];
    rewrite Nat2Z.inj_succ, Z.pow_succ_r by lia;
    (etransitivity; [|apply IHd; lia]);
    assert (0 < 10 ^ Z.of_nat (List.length (Str.of_uint d)))%Z
      by (apply Z.pow_pos_nonneg; lia);
    nia.
Qed.

Lemma nzhead_no_zero (d : Decimal.uint) :
  match Decimal.nzhead d with Decimal.D0 _ => False | _ => True end.
Proof. induction d; cbn [Decimal.nzhead]; auto. Qed.

Lemma to_uint_first (p : positive) :
  match Pos.to_uint p with
  | Decimal.Nil | Decimal.D0 _ => False
  | _ => True
  end.
Proof.
  pose proof (Unsigned.to_of (Pos.to_uint p)) as H.
  rewrite Unsigned.of_to in H. cbn [N.to_uint] in H.
  pose proof (Unsigned.to_uint_nonzero p) as Hz.
  pose proof (Unsigned.to_uint_nonnil p) as Hn.
  destruct (Pos.to_uint p) as [|d'| | | | | | | | |] eqn:E; auto.
  unfold Decimal.unorm in H. cbn [Decimal.nzhead] in H.
  pose proof (nzhead_no_zero d') as Hd.
  destruct (Decimal.nzhead d'); try discriminate; try contradiction;
    try (apply Hz; congruence).
Qed.

Lemma of_int_length (n : Z) :
  (10 ^ Z.of_nat (Str.digit_count (Str.of_int n) - 1) <= Z.max 1 (Z.abs n))%Z.
Proof.
  unfold Str.of_int.
  assert (Hp : forall p,
             (10 ^ Z.of_nat (Str.digit_count (Str.of_uint (Pos.to_uint p)) - 1)
              <= Zpos p)%Z).
  { intros p. rewrite digit_count_of_uint.
    pose proof (to_uint_first p) as Hf.
    pose proof (uint_value_0 (Pos.to_uint p)) as Hv.
    rewrite Unsigned.of_to in Hv. cbn [Z.of_N] in Hv. rewrite <- Hv.
    destruct (Pos.to_uint p) as [|d'|d'|d'|d'|d'|d'|d'|d'|d'|d']; try contradiction;
      cbn [Str.of_uint List.length Ref.uint_value];
      rewrite Nat.sub_succ, Nat.sub_0_r;
      (etransitivity; [|apply uint_value_lower; lia]); lia. }
  destruct n as [|p|p]; cbn [Z.to_int].
  - cbn. lia.
  - specialize (Hp p). cbn [Z.abs]. lia.
  - specialize (Hp p). cbn [Z.abs].
    replace (Str.digit_count (Char.MINUS :: Str.of_uint (Pos.to_uint p)))
      with (Str.digit_count (Str.of_uint (Pos.to_uint p))) by reflexivity.
    lia.
Qed.

Lemma digit_count_of_int (n : Z) :
  (Z.abs n < 10 ^ 4300)%Z ->
  (Str.digit_count (Str.of_int n) <= Str.int_max_str_digits)%nat.
Proof.
  intros Hn. pose proof (of_int_length n) as Hlen.
  unfold Str.int_max_str_digits.
  destruct (Nat.le_gt_cases (Str.digit_count (Str.of_int n)) 4300) as [H|H];
    [exact H|exfalso].
  assert (Hpow : (10 ^ 4300 <= 10 ^ Z.of_nat (Str.digit_count (Str.of_int n) - 1))%Z).
  { apply Z.pow_le_mono_r; [lia|].
    change 4300%Z with (Z.of_nat 4300). apply Nat2Z.inj_le.
    revert H. generalize (Str.digit_count (Str.of_int n)). intros k Hk.
    apply Nat.lt_succ_r. rewrite Nat.sub_1_r.
    destruct k; [inversion Hk|]. cbn [Nat.pred]. exact Hk. }
  assert (H1 : (1 < 10 ^ 4300)%Z).
  { apply (Z.lt_le_trans _ (10 ^ 1)); [reflexivity|].
    apply Z.pow_le_mono_r; [reflexivity|discriminate]. }
  revert Hn Hlen Hpow H1.
  generalize (10 ^ 4300)%Z (10 ^ Z.of_nat (Str.digit_count (Str.of_int n) - 1))%Z.
  intros. lia.
Qed.

Lemma digit_count_of_int_le (n : Z) :
  (n <= 0)%Z -> (- 10 ^ 4300 < n)%Z ->
  (Str.digit_count (Str.of_int n) <= Str.int_max_str_digits)%nat.
Proof.
  intros H0 H. apply digit_count_of_int. revert H.
  generalize (10 ^ 4300)%Z. intros. lia.
Qed.

Lemma digit_count_of_int_gt (n : Z) :
  (0 < n)%Z -> (n < 10 ^ 4300)%Z ->
  (Str.digit_count (Str.of_int n) <= Str.int_max_str_digits)%nat.
Proof.
  intros H0 H. apply digit_count_of_int. revert H.
  generalize (10 ^ 4300)%Z. intros. lia.
Qed.

(** ** The validators of [llm.max_rows_per_run] and [llm.progress_log_every] *)

Lemma max_rows_numeric (s : pystr) (n : Z) :
  Str.int (Str.lower (Str.strip s)) = Some n ->
  config._validate_max_rows_per_run (VStr s)
  = Return (if (n <=? 0)%Z then VNone else VInt n).
Proof.
  intros H. unfold config._validate_max_rows_per_run. cbv zeta.
  destruct (pystr_eqb (Str.lower (Str.strip s)) (lit "all")) eqn:E.
  - apply pystr_eqb_eq in E. rewrite E in H. discriminate.
  - now rewrite H.
Qed.

Lemma max_rows_of_int (n : Z) :
  (Str.digit_count (Str.of_int n) <= Str.int_max_str_digits)%nat ->
  config._validate_max_rows_per_run (VStr (Str.of_int n))
  = Return (if (n <=? 0)%Z then VNone else VInt n).
Proof.
  intros Hlen. apply max_rows_numeric.
  now rewrite strip_of_int, lower_of_int, int_of_int.
Qed.

(** C1.  [llm.max_rows_per_run]: null, the word "all" in any case (blanks
    around it are dropped), and every integer that is not positive, given
    as an integer or as a numeric string, all give [None]; a positive
    integer [n], given as an integer or as a numeric string, gives [n];
    any other string makes the validator raise [ValueError] with a
    message that begins with the name [llm.max_rows_per_run].  A numeric
    string is one that [int] reads once the blanks around it are dropped:
    a sign, then decimal digits of any script, 4300 at most, with single
    underscores between them; [str(n)] is one when [n] is not longer.
    What the validator returns is the value of the field. *)
Theorem max_rows_per_run_canonical `{readers : pydantic.text_readers} :
  config._validate_max_rows_per_run VNone = Return VNone
  /\ (forall s, Str.lower (Str.strip s) = lit "all" ->
        config._validate_max_rows_per_run (VStr s) = Return VNone)
  /\ (forall n, (n <= 0)%Z ->
        config._validate_max_rows_per_run (VInt n) = Return VNone
        /\ ((- 10 ^ 4300 < n)%Z ->
            config._validate_max_rows_per_run (VStr (Str.of_int n))
            = Return VNone))
  /\ (forall n, (0 < n)%Z ->
        config._validate_max_rows_per_run (VInt n) = Return (VInt n)
        /\ ((n < 10 ^ 4300)%Z ->
            config._validate_max_rows_per_run (VStr (Str.of_int n))
            = Return (VInt n)))
  /\ (forall s n, Str.int (Str.lower (Str.strip s)) = Some n ->
        config._validate_max_rows_per_run (VStr s)
        = Return (if (n <=? 0)%Z then VNone else VInt n))
  /\ (forall s, Str.lower (Str.strip s) <> lit "all" ->
        Str.int (Str.lower (Str.strip s)) = None ->
        config._validate_max_rows_per_run (VStr s)
        = RaiseValueError (Text config.max_rows_per_run_message))
  /\ Str.startswith (lit "llm.max_rows_per_run") config.max_rows_per_run_message
     = true
  /\ (forall v,
        before config._validate_max_rows_per_run (lax_optional lax_int) v
        = match config._validate_max_rows_per_run v with
          | Return VNone => Valid None
          | Return w => Valid Some <*> lax_int w
          | RaiseValueError msg => fail (value_error msg)
          end)
  /\ (forall n,
        before config._validate_max_rows_per_run (lax_optional lax_int) (VInt n)
        = Valid (if (n <=? 0)%Z then None else Some n))
  /\ (forall s n, Str.int (Str.lower (Str.strip s)) = Some n ->
        before config._validate_max_rows_per_run (lax_optional lax_int) (VStr s)
        = Valid (if (n <=? 0)%Z then None else Some n)).
Proof.
  split; [reflexivity|].
  split.
  { intros s H. unfold config._validate_max_rows_per_run. cbv zeta.
    now rewrite H. }
  split.
  { intros n Hn. split.
    - cbn. apply Z.leb_le in Hn. now rewrite Hn.
    - intros Hlen. rewrite max_rows_of_int by now apply digit_count_of_int_le.
      apply Z.leb_le in Hn. now rewrite Hn. }
  split.
  { intros n Hn. split.
    - cbn. apply Z.leb_gt in Hn. now rewrite Hn.
    - intros Hlen. rewrite max_rows_of_int by now apply digit_count_of_int_gt.
      apply Z.leb_gt in Hn. now rewrite Hn. }
  split; [exact max_rows_numeric|].
  split.
  { intros s Hall Hint. unfold config._validate_max_rows_per_run. cbv zeta.
    apply pystr_eqb_neq in Hall. now rewrite Hall, Hint. }
  split; [reflexivity|].
  split.
  { intros v. unfold before.
    destruct (config._validate_max_rows_per_run v) as [w|msg]; [|reflexivity].
    now destruct w. }
  split.
  { intros n. unfold before. cbn [config._validate_max_rows_per_run].
    now destruct (n <=? 0)%Z. }
  intros s n Hs. unfold before. rewrite (max_rows_numeric s n Hs).
  now destruct (n <=? 0)%Z.
Qed.

Lemma max_rows_per_run_canonical_witness :
  config._validate_max_rows_per_run (VStr (lit " ALL ")) = Return VNone
  /\ config._validate_max_rows_per_run (VInt (-3)) = Return VNone
  /\ config._validate_max_rows_per_run (VStr (lit "0")) = Return VNone
  /\ config._validate_max_rows_per_run (VInt 10) = Return (VInt 10)
  /\ config._validate_max_rows_per_run (VStr (lit "10")) = Return (VInt 10)
  /\ config._validate_max_rows_per_run (VStr [1633; 1634]) = Return (VInt 12)
  /\ config._validate_max_rows_per_run (VStr (lit "ten"))
     = RaiseValueError (Text config.max_rows_per_run_message).
Proof.
  destruct (max_rows_per_run_canonical (readers := Samples.readers))
    as (_ & Hall & Hle & Hgt & Hnum & Hother & _).
  split; [apply Hall; reflexivity|].
  split; [exact (proj1 (Hle (-3)%Z ltac:(lia)))|].
  split; [apply (proj2 (Hle 0%Z ltac:(lia))); vm_compute; reflexivity|].
  split; [exact (proj1 (Hgt 10%Z ltac:(lia)))|].
  split; [apply (proj2 (Hgt 10%Z ltac:(lia))); vm_compute; reflexivity|].
  split; [apply (Hnum [1633; 1634] 12%Z); reflexivity|].
  apply Hother; [|reflexivity].
  apply pystr_eqb_neq. reflexivity.
Defined.

Lemma progress_numeric (s : pystr) (n : Z) :
  Str.int s = Some n ->
  config._validate_progress_log_every (VStr s)
  = if (n <=? 0)%Z
    then RaiseValueError (Text (lit "llm.progress_log_every must be > 0"))
    else Return n.
Proof.
  intros H. unfold config._validate_progress_log_every. cbn [py_int].
  now rewrite H.
Qed.

Lemma ap_valid_inv {A B} (f : outcome (A -> B)) (x : outcome A) (b : B) :
  f <*> x = Valid b -> exists g a, f = Valid g /\ x = Valid a /\ b = g a.
Proof.
  destruct f as [g|], x as [a|]; cbn [ap]; try discriminate.
  intros H. injection H as <-. eauto.
Qed.

Lemma progress_default_when_absent `{readers : pydantic.text_readers}
    (d : pydict) (cfg : config.LLMConfig) :
  Dict.get (lit "progress_log_every") d = None ->
  config.LLMConfig_validate (VDict d) = Valid cfg ->
  config.progress_log_every cfg = 100%Z.
Proof.
  intros Habsent H. unfold config.LLMConfig_validate in H.
  lazy beta iota zeta in H.
  repeat match type of H with
         | _ <*> _ = Valid _ =>
             apply ap_valid_inv in H as (? & ? & H & ? & ->)
         end.
  injection H as <-. cbn [config.progress_log_every].
  match goal with
  | F : field (lit "progress_log_every") _ _ _ = Valid ?a |- ?a = _ =>
      unfold field in F; rewrite Habsent in F; now injection F as <-
  end.
Qed.

(** C6.  [llm.progress_log_every]: null gives 100 and so does an absent
    key; a positive integer, given as an integer or as a string that
    [int] reads, gives that integer; a string that [int] does not read is
    refused, and so is every value that is not positive.  [int] reads a
    sign, then decimal digits of any script, 4300 at most, with single
    underscores between them and blanks around.  The document
    [llm: {max_workers: 0}] is refused; with [max_workers: 1] it is
    accepted and [llm.progress_log_every] is 100. *)
Theorem progress_log_every_validation `{readers : pydantic.text_readers} :
  config._validate_progress_log_every VNone = Return 100%Z
  /\ (forall d cfg,
        Dict.get (lit "progress_log_every") d = None ->
        config.LLMConfig_validate (VDict d) = Valid cfg ->
        config.progress_log_every cfg = 100%Z)
  /\ (forall n, (0 < n)%Z ->
        config._validate_progress_log_every (VInt n) = Return n
        /\ ((n < 10 ^ 4300)%Z ->
            config._validate_progress_log_every (VStr (Str.of_int n)) = Return n))
  /\ (forall s n, Str.int s = Some n -> (0 < n)%Z ->
        config._validate_progress_log_every (VStr s) = Return n)
  /\ (forall s, Str.int s = None ->
        config._validate_progress_log_every (VStr s)
        = RaiseValueError (Text (lit "llm.progress_log_every must be an integer")))
  /\ (forall n, (n <= 0)%Z ->
        config._validate_progress_log_every (VInt n)
        = RaiseValueError (Text (lit "llm.progress_log_every must be > 0"))
        /\ ((- 10 ^ 4300 < n)%Z ->
            config._validate_progress_log_every (VStr (Str.of_int n))
            = RaiseValueError (Text (lit "llm.progress_log_every must be > 0"))))
  /\ (forall v,
        before (returning VInt config._validate_progress_log_every) lax_int v
        = of_checked (config._validate_progress_log_every v))
  /\ model_validate config.ParametersConfig_validate (Samples.llm_with_workers 0)
     = Raise (ValidationError
                [ {| loc := [lit "llm"; lit "max_workers"];
                     type := value_error
                               (Text (lit "llm.max_workers must be > 0")) |} ])
  /\ (exists cfg,
        model_validate config.ParametersConfig_validate (Samples.llm_with_workers 1)
        = Ok cfg
        /\ config.progress_log_every (config.llm cfg) = 100%Z
        /\ config.max_workers (config.llm cfg) = 1%Z).
Proof.
  split; [reflexivity|].
  split; [exact progress_default_when_absent|].
  split.
  { intros n Hn. split.
    - cbn. apply Z.leb_gt in Hn. now rewrite Hn.
    - intros Hlen.
      rewrite (progress_numeric _ n)
        by now apply int_of_int, digit_count_of_int_gt.
      apply Z.leb_gt in Hn. now rewrite Hn. }
  split.
  { intros s n Hs Hn. apply Z.leb_gt in Hn.
    rewrite (progress_numeric _ n) by assumption. now rewrite Hn. }
  split.
  { intros s Hs. unfold config._validate_progress_log_every. cbn [py_int].
    now rewrite Hs. }
  split.
  { intros n Hn. split.
    - cbn. apply Z.leb_le in Hn. now rewrite Hn.
    - intros Hlen.
      rewrite (progress_numeric _ n)
        by now apply int_of_int, digit_count_of_int_le.
      apply Z.leb_le in Hn. now rewrite Hn. }
  split.
  { intros v. unfold before, returning.
    now destruct (config._validate_progress_log_every v). }
  split; [reflexivity|].
  eexists. split; [reflexivity|]. split; reflexivity.
Qed.

Lemma progress_log_every_validation_witness :
  config._validate_progress_log_every (VInt 25) = Return 25%Z
  /\ config._validate_progress_log_every (VStr (lit " 25 ")) = Return 25%Z
  /\ config._validate_progress_log_every (VStr [1635]) = Return 3%Z
  /\ config._validate_progress_log_every (VStr (lit "often"))
     = RaiseValueError (Text (lit "llm.progress_log_every must be an integer"))
  /\ config._validate_progress_log_every (VStr [28; 53])
     = RaiseValueError (Text (lit "llm.progress_log_every must be an integer"))
  /\ config._validate_progress_log_every (VStr (lit "0"))
     = RaiseValueError (Text (lit "llm.progress_log_every must be > 0"))
  /\ config.progress_log_every config.LLMConfig_default = 100%Z.
Proof.
  destruct (progress_log_every_validation (readers := Samples.readers))
    as (_ & Habsent & Hpos & Hstr & Hbad & Hle & _).
  split; [exact (proj1 (Hpos 25%Z ltac:(lia)))|].
  split; [apply (Hstr _ 25%Z); [reflexivity|lia]|].
  split; [apply (Hstr _ 3%Z); [reflexivity|lia]|].
  split; [apply Hbad; reflexivity|].
  split; [apply Hbad; reflexivity|].
  split; [apply (proj2 (Hle 0%Z ltac:(lia))); vm_compute; reflexivity|].
  apply (Habsent []); reflexivity.
Defined.

(** ** The loaders *)

Section Loading.
Variable fs : pystr -> option pystr.
Variable safe_load : pystr -> result pyval.
Variables (path raw : pystr) (root : pyval).
Hypothesis Hfile : fs path = Some raw.
Hypothesis Hparse : safe_load (config.yaml_text raw) = Ok root.

Lemma load_yaml_mapping (d : pydict) :
  root = VDict d -> config._load_yaml fs safe_load path = Ok d.
Proof.
  intros ->. unfold config._load_yaml. rewrite Hfile, Hparse. cbn [bind].
  now destruct d.
Qed.

(** A root that counts as false is replaced by the empty mapping. *)
Lemma load_yaml_falsy : truthy root = false ->
  config._load_yaml fs safe_load path = Ok [].
Proof.
  intros H. unfold config._load_yaml. rewrite Hfile, Hparse. cbn [bind].
  now rewrite H.
Qed.

(** A root that counts as true and is not a mapping is refused. *)
Lemma load_yaml_not_mapping :
  truthy root = true -> is_dict root = false ->
  config._load_yaml fs safe_load path
  = Raise (ValueError
             (Text (lit "YAML root must be a mapping/object: " ++ path))).
Proof.
  intros Ht Hd. unfold config._load_yaml. rewrite Hfile, Hparse. cbn [bind].
  rewrite Ht. now destruct root.
Qed.

End Loading.

Lemma ParametersConfig_empty `{readers : pydantic.text_readers} :
  model_validate config.ParametersConfig_validate (VDict [])
  = Ok config.ParametersConfig_default.
Proof. reflexivity. Qed.

Lemma CredentialsConfig_empty `{readers : pydantic.text_readers} :
  model_validate config.CredentialsConfig_validate (VDict [])
  = Ok config.CredentialsConfig_default.
Proof. reflexivity. Qed.

(** C9.  When the text handed to the parser is the null document,
    [_load_yaml] returns the empty mapping and raises nothing, and
    [load_parameters] and [load_credentials] return the objects made of
    the defaults alone. *)
Theorem null_document_loads_defaults `{readers : pydantic.text_readers}
    (fs : pystr -> option pystr) (safe_load : pystr -> result pyval)
    (path raw : pystr) :
  fs path = Some raw ->
  safe_load (config.yaml_text raw) = Ok VNone ->
  config._load_yaml fs safe_load path = Ok []
  /\ config.load_parameters fs safe_load path = Ok config.ParametersConfig_default
  /\ config.load_credentials fs safe_load path
     = Ok config.CredentialsConfig_default.
Proof.
  intros Hfile Hparse.
  assert (H : config._load_yaml fs safe_load path = Ok [])
    by now apply (load_yaml_falsy fs safe_load path raw VNone).
  unfold config.load_parameters, config.load_credentials.
  rewrite H. cbn [bind].
  now rewrite ParametersConfig_empty, CredentialsConfig_empty.
Qed.

Lemma null_document_loads_defaults_witness :
  config._load_yaml Samples.fs Samples.safe_load (lit "empty.yaml") = Ok []
  /\ config.load_parameters (readers := Samples.readers)
      Samples.fs Samples.safe_load (lit "empty.yaml")
     = Ok config.ParametersConfig_default
  /\ config.load_credentials (readers := Samples.readers)
      Samples.fs Samples.safe_load (lit "empty.yaml")
     = Ok config.CredentialsConfig_default.
Proof.
  apply (null_document_loads_defaults Samples.fs Samples.safe_load
           (lit "empty.yaml") []); reflexivity.
Defined.

(** C2.  The root [0] of a document is not a mapping, and no loader
    refuses it: [_load_yaml] returns the empty mapping, [load_parameters]
    and [load_credentials] return the defaults, and [load_prompt] and
    [load_prompts] fail with the messages for a missing key.  The empty
    list and [false] fare the same; a root that counts as true, such as a
    list with items, is refused with the message about the root. *)
Theorem falsy_root_is_not_refused `{readers : pydantic.text_readers} :
  config._load_yaml Samples.fs Samples.safe_load (lit "zero.yaml") = Ok []
  /\ config._load_yaml Samples.fs Samples.safe_load (lit "false.yaml") = Ok []
  /\ config._load_yaml Samples.fs Samples.safe_load (lit "empty_list.yaml") = Ok []
  /\ config.load_parameters Samples.fs Samples.safe_load (lit "zero.yaml")
     = Ok config.ParametersConfig_default
  /\ config.load_credentials Samples.fs Samples.safe_load (lit "zero.yaml")
     = Ok config.CredentialsConfig_default
  /\ config.load_prompt Samples.fs Samples.safe_load (lit "zero.yaml")
     = Raise (ValueError
                (Text (lit "zero.yaml must contain a non-empty 'System Prompt' string")))
  /\ config.load_prompts Samples.fs Samples.safe_load (lit "zero.yaml")
     = Raise (ValueError
                (Text (lit "prompts.yaml missing required 'meta' mapping")))
  /\ config._load_yaml Samples.fs Samples.safe_load (lit "list.yaml")
     = Raise (ValueError
                (Text (lit "YAML root must be a mapping/object: list.yaml"))).
Proof. repeat split; vm_compute; reflexivity. Qed.

(** C10.  [load_prompt] decides on the value under "System Prompt" unless
    that value is null or the key is absent, and only then on the value
    under "system_prompt"; a value under "System Prompt" that is not null
    is the one taken, whatever "system_prompt" holds.  It returns the
    value decided on when that is a string with something left after
    trimming, and fails otherwise. *)
Theorem load_prompt_selection
    (fs : pystr -> option pystr) (safe_load : pystr -> result pyval)
    (path : pystr) (raw : pydict) :
  config._load_yaml fs safe_load path = Ok raw ->
  (forall v, Dict.get (lit "System Prompt") raw = Some v -> v <> VNone ->
     Ref.selected_prompt raw = v)
  /\ (Dict.get (lit "System Prompt") raw = None
      \/ Dict.get (lit "System Prompt") raw = Some VNone ->
      Ref.selected_prompt raw = Dict.get_or_none (lit "system_prompt") raw)
  /\ (forall s,
        config.load_prompt fs safe_load path = Ok s
        <-> Ref.selected_prompt raw = VStr s /\ Str.strip s <> [])
  /\ (config.load_prompt fs safe_load path
      = Raise (ValueError (config.system_prompt_message path))
      <-> is_str (Ref.selected_prompt raw) = false
          \/ exists s, Ref.selected_prompt raw = VStr s /\ Str.strip s = [])
  /\ ((exists s, config.load_prompt fs safe_load path = Ok s)
      \/ config.load_prompt fs safe_load path
         = Raise (ValueError (config.system_prompt_message path))).
Proof.
  intros Hload.
  assert (Hsel : config.load_prompt fs safe_load path
                 = match Ref.selected_prompt raw with
                   | VStr s =>
                       match Str.strip s with
                       | _ :: _ => Ok s
                       | [] => Raise (ValueError (config.system_prompt_message path))
                       end
                   | _ => Raise (ValueError (config.system_prompt_message path))
                   end).
  { unfold config.load_prompt, Ref.selected_prompt, Dict.get_or_none.
    rewrite Hload. cbn [bind]. cbv zeta.
    destruct (Dict.get (lit "System Prompt") raw) as [[]|]; reflexivity. }
  split; [|split; [|split; [|split]]].
  - intros v Hv Hnone. unfold Ref.selected_prompt. rewrite Hv.
    now destruct v.
  - intros [H|H]; unfold Ref.selected_prompt; now rewrite H.
  - intros s. rewrite Hsel. split.
    + destruct (Ref.selected_prompt raw) as [| | | |s'| |]; try discriminate.
      destruct (Str.strip s') eqn:E; [discriminate|].
      intros H. injection H as <-. split; [reflexivity|]. now rewrite E.
    + intros [-> Hs]. destruct (Str.strip s); [contradiction|reflexivity].
  - rewrite Hsel. split.
    + destruct (Ref.selected_prompt raw) as [| | | |s'| |]; auto.
      destruct (Str.strip s') eqn:E; [|discriminate].
      right. now exists s'.
    + intros [H|(s & -> & ->)]; [|reflexivity].
      now destruct (Ref.selected_prompt raw).
  - rewrite Hsel.
    destruct (Ref.selected_prompt raw) as [| | | |s'| |]; auto.
    destruct (Str.strip s'); eauto.
Qed.

Lemma load_prompt_selection_witness :
  config.load_prompt Samples.fs Samples.safe_load (lit "prompt.yaml")
  = Ok (lit "Judge the posting.").
Proof.
  destruct (load_prompt_selection Samples.fs Samples.safe_load
              (lit "prompt.yaml")
              [Samples.key "System Prompt" (VStr (lit "Judge the posting."));
               Samples.key "system_prompt" (VStr (lit "unused"))]
              eq_refl) as (Hfirst & _ & Hok & _).
  apply Hok. split.
  - apply Hfirst; [reflexivity|discriminate].
  - discriminate.
Defined.

(** ** Prompt templates *)

Lemma strdict_set_Forall (Q : pystr * pystr -> Prop) (k v : pystr) (d : strdict) :
  Forall Q d -> Q (k, v) -> Forall Q (StrDict.set k v d).
Proof.
  intros Hd Hkv. unfold StrDict.set.
  destruct (existsb (StrDict.has_key k) d).
  - induction Hd as [|e d He _ IH]; cbn [map]; constructor; auto.
    destruct (StrDict.has_key k e) eqn:E; [|assumption].
    apply pystr_eqb_eq in E. now rewrite <- E.
  - apply Forall_app. split; [assumption|]. now constructor.
Qed.

Lemma strdict_set_has (k k' v : pystr) (d : strdict) :
  pystr_eqb k' k = true \/ existsb (StrDict.has_key k') d = true ->
  existsb (StrDict.has_key k') (StrDict.set k v d) = true.
Proof.
  unfold StrDict.set.
  destruct (existsb (StrDict.has_key k) d) eqn:Ek.
  - assert (Hmap : forall x,
               existsb (StrDict.has_key x)
                 (map (fun e => if StrDict.has_key k e then (fst e, v) else e) d)
               = existsb (StrDict.has_key x) d).
    { intros x. clear Ek. induction d as [|e d IH]; [reflexivity|].
      cbn [map existsb]. rewrite IH. f_equal.
      now destruct (StrDict.has_key k e). }
    rewrite Hmap. intros [H|H]; [|assumption].
    apply pystr_eqb_eq in H. now subst.
  - rewrite existsb_app. cbn [existsb].
    change (StrDict.has_key k' (k, v)) with (pystr_eqb k' k).
    intros [->| ->]; [|reflexivity].
    now rewrite orb_true_r.
Qed.

Lemma has_get (k : pystr) (d : strdict) :
  existsb (StrDict.has_key k) d = true -> exists t, StrDict.get k d = Some t.
Proof.
  unfold StrDict.get. induction d as [|e d IH]; [discriminate|].
  cbn [existsb find].
  destruct (StrDict.has_key k e); cbn [orb option_map]; [eauto|exact IH].
Qed.

Lemma collect_prompts_app (pre rest : pydict) (out : strdict) :
  forallb Ref.str_to_str pre = true ->
  exists out', config.collect_prompts (pre ++ rest) out
               = config.collect_prompts rest out'.
Proof.
  revert out; induction pre as [|[k v] pre IH]; intros out H; [now exists out|].
  cbn [forallb] in H. apply andb_prop in H as [Hkv Hpre].
  destruct k; try discriminate. destruct v; try discriminate.
  cbn [app config.collect_prompts]. apply IH, Hpre.
Qed.

Lemma collect_prompts_bad (k v : pyval) (rest : pydict) (out : strdict) :
  Ref.str_to_str (k, v) = false ->
  config.collect_prompts ((k, v) :: rest) out = Raise (ValueError (PromptsEntry k v)).
Proof.
  unfold Ref.str_to_str. cbn [fst snd config.collect_prompts].
  destruct k; try reflexivity. destruct v; try reflexivity. discriminate.
Qed.

Lemma collect_prompts_ok (items : pydict) (out0 out : strdict) :
  config.collect_prompts items out0 = Ok out ->
  forallb Ref.str_to_str items = true
  /\ (forall Q : pystr * pystr -> Prop,
        Forall Q out0 ->
        (forall k v, In (VStr k, VStr v) items -> Q (k, v)) ->
        Forall Q out)
  /\ (forall k,
        existsb (StrDict.has_key k) out0 = true
        \/ (exists v, In (VStr k, VStr v) items) ->
        existsb (StrDict.has_key k) out = true).
Proof.
  revert out0; induction items as [|[k v] items IH]; intros out0 H.
  - cbn in H. injection H as <-. split; [reflexivity|]. split; auto.
    intros k [Hk|(v & [])]. exact Hk.
  - cbn [config.collect_prompts] in H.
    destruct k as [| | | |k'| |]; try discriminate.
    destruct v as [| | | |v'| |]; try discriminate.
    apply IH in H as (Hall & Hinv & Hkeys).
    split; [exact Hall|]. split.
    + intros Q H0 HQ. apply Hinv.
      * apply strdict_set_Forall; [assumption|]. apply HQ. now left.
      * intros a b Hab. apply HQ. now right.
    + intros a Ha. apply Hkeys.
      destruct Ha as [Ha|(b & [Hb|Hb])].
      * left. apply strdict_set_has. now right.
      * injection Hb as -> ->. left. apply strdict_set_has. left.
        apply pystr_eqb_refl.
      * right. now exists b.
Qed.

Lemma clean_templates (prompts : strdict) (acc : strdict) :
  let step clean item :=
    StrDict.set (fst item) (prompts._sanitize_prompt_text (snd item)) clean in
  (forall Q : pystr * pystr -> Prop,
     Forall Q acc ->
     (forall k v, In (k, v) prompts -> Q (k, prompts._sanitize_prompt_text v)) ->
     Forall Q (fold_left step prompts acc))
  /\ (forall k,
        existsb (StrDict.has_key k) acc = true \/ (exists v, In (k, v) prompts) ->
        existsb (StrDict.has_key k) (fold_left step prompts acc) = true).
Proof.
  cbv zeta. revert acc; induction prompts as [|[k v] prompts IH]; intros acc.
  - cbn [fold_left]. split; auto. intros k [H|(v & [])]. exact H.
  - cbn [fold_left fst snd]. destruct (IH (StrDict.set k (prompts._sanitize_prompt_text v) acc)) as [Hinv Hkeys].
    split.
    + intros Q Hacc HQ. apply Hinv.
      * apply strdict_set_Forall; [assumption|]. apply HQ. now left.
      * intros a b Hab. apply HQ. now right.
    + intros a Ha. apply Hkeys.
      destruct Ha as [Ha|(b & [Hb|Hb])].
      * left. apply strdict_set_has. now right.
      * injection Hb as -> ->. left. apply strdict_set_has. left.
        apply pystr_eqb_refl.
      * right. now exists b.
Qed.

(** C8.  Loading a multi-prompt document, once the file has been read as
    a mapping: it fails with the message about [meta] when the value under
    [meta] is absent, null or not a mapping; with the message about
    [prompts] when [meta] is a mapping and the value under [prompts] is
    not; and, when both are mappings, with an error that carries the
    first entry of [prompts] that is not a pair of strings.  When it
    succeeds, every entry of [prompts] is a pair of strings, every
    template returned is the sanitizer's result on a template of the
    document under the same key, and every key of the document is
    present. *)
Theorem load_prompt_templates_checked
    (fs : pystr -> option pystr) (safe_load : pystr -> result pyval)
    (path : pystr) (raw : pydict) :
  config._load_yaml fs safe_load path = Ok raw ->
  let meta := Dict.get_or_none (lit "meta") raw in
  let prompts := Dict.get_or_none (lit "prompts") raw in
  let loaded := prompts.load_prompt_templates fs safe_load path in
  (is_dict meta = false ->
     loaded = Raise (ValueError
                       (Text (lit "prompts.yaml missing required 'meta' mapping"))))
  /\ (is_dict meta = true -> is_dict prompts = false ->
      loaded = Raise (ValueError
                        (Text (lit "prompts.yaml missing required 'prompts' mapping"))))
  /\ (forall pre k v post,
        is_dict meta = true ->
        prompts = VDict (pre ++ (k, v) :: post) ->
        forallb Ref.str_to_str pre = true ->
        Ref.str_to_str (k, v) = false ->
        loaded = Raise (ValueError (PromptsEntry k v)))
  /\ (forall out,
        loaded = Ok out ->
        exists items,
          is_dict meta = true
          /\ prompts = VDict items
          /\ forallb Ref.str_to_str items = true
          /\ Forall (fun kt =>
                       exists v, In (VStr (fst kt), VStr v) items
                                 /\ snd kt = prompts._sanitize_prompt_text v) out
          /\ (forall k v, In (VStr k, VStr v) items ->
                exists t, StrDict.get k out = Some t)).
Proof.
  intros Hload. cbv zeta.
  unfold prompts.load_prompt_templates, config.load_prompts.
  rewrite Hload. cbn [bind]. cbv zeta.
  split; [|split; [|split]].
  - intros H. rewrite H. destruct (is_none _); reflexivity.
  - intros Hm Hp. rewrite Hm.
    destruct (Dict.get_or_none (lit "meta") raw); try discriminate.
    cbn [is_none negb orb].
    now destruct (Dict.get_or_none (lit "prompts") raw).
  - intros pre k v post Hm -> Hpre Hkv. rewrite Hm.
    destruct (Dict.get_or_none (lit "meta") raw); try discriminate.
    cbn [is_none negb orb].
    destruct (collect_prompts_app pre ((k, v) :: post) [] Hpre) as [out' ->].
    now rewrite collect_prompts_bad.
  - intros out.
    destruct (Dict.get_or_none (lit "meta") raw) as [| | | | | |m];
      cbn [is_none is_dict negb orb bind]; try discriminate.
    destruct (Dict.get_or_none (lit "prompts") raw) as [| | | | | |items];
      cbn [bind]; try discriminate.
    destruct (config.collect_prompts items []) as [collected|] eqn:E;
      [|discriminate].
    cbn [bind]. intros H. injection H as <-.
    apply collect_prompts_ok in E as (Hall & Hinv & Hkeys).
    destruct (clean_templates collected []) as [Cinv Ckeys].
    exists items. repeat split; auto.
    + apply Cinv; [constructor|].
      intros k v Hkv. cbn [fst snd].
      assert (Hin : Forall (fun kv => In (VStr (fst kv), VStr (snd kv)) items)
                      collected)
        by (apply Hinv; [constructor|auto]).
      rewrite Forall_forall in Hin. specialize (Hin _ Hkv).
      now exists v.
    + intros k v Hkv. apply has_get, Ckeys. right.
      assert (Hk : existsb (StrDict.has_key k) collected = true)
        by (apply Hkeys; right; now exists v).
      apply existsb_exists in Hk as ([k' v'] & Hin & Hk).
      apply pystr_eqb_eq in Hk. cbn [fst] in Hk. subst k'.
      now exists v'.
Qed.

Lemma load_prompt_templates_checked_witness :
  prompts.load_prompt_templates Samples.fs Samples.safe_load (lit "no_meta.yaml")
  = Raise (ValueError (Text (lit "prompts.yaml missing required 'meta' mapping")))
  /\ prompts.load_prompt_templates Samples.fs Samples.safe_load
       (lit "bad_entry.yaml")
     = Raise (ValueError (PromptsEntry (VStr (lit "limit")) (VInt 5))).
Proof.
  split.
  - apply (load_prompt_templates_checked Samples.fs Samples.safe_load
             (lit "no_meta.yaml")
             [Samples.key "prompts"
                (VDict [Samples.key "dq" (VStr (lit "Rate it"))])]
             eq_refl).
    reflexivity.
  - apply (load_prompt_templates_checked Samples.fs Samples.safe_load
             (lit "bad_entry.yaml")
             [Samples.key "meta" (VDict []);
              Samples.key "prompts"
                (VDict [Samples.key "dq" (VStr (lit "Rate it"));
                        Samples.key "limit" (VInt 5)])]
             eq_refl)
      with (pre := [Samples.key "dq" (VStr (lit "Rate it"))]) (post := []);
      reflexivity.
Defined.

(** The sample with an escaped no-break space in a template, in a file
    whose last line ends in [CR LF]. *)
Example load_prompt_templates_sample :
  prompts.load_prompt_templates Samples.fs Samples.safe_load (lit "prompts.yaml")
  = Ok [(lit "dq", lit "Rate it")].
Proof. vm_compute. reflexivity. Qed.

(** *** The two passes compared *)

Lemma read_as_crlf (s : pystr) :
  TextIO.read s = map Ref.cr_to_lf (Ref.crlf s).
Proof.
  induction s as [s IH] using pystr_length_ind.
  destruct s as [|c rest]; [reflexivity|].
  rewrite read_step, crlf_step.
  destruct rest as [|c' rest'].
  - cbn [map]. unfold Ref.cr_to_lf. now destruct (c =? Char.CR).
  - destruct (c =? Char.CR) eqn:Ec; cbn [andb].
    + destruct (c' =? Char.LF); cbn [map].
      * f_equal. apply IH. simpl; lia.
      * replace (Ref.cr_to_lf c) with Char.LF
          by (unfold Ref.cr_to_lf; now rewrite Ec).
        f_equal. apply IH. simpl; lia.
    + cbn [map].
      replace (Ref.cr_to_lf c) with c by (unfold Ref.cr_to_lf; now rewrite Ec).
      f_equal. apply IH. simpl; lia.
Qed.

Lemma yaml_text_as_sanitizer (raw : pystr) :
  config.yaml_text raw
  = Str.replace [Char.CR] [Char.LF] (prompts._sanitize_prompt_text raw).
Proof.
  rewrite yaml_text_eq, sanitize_eq, replace_one, read_as_crlf, !map_map.
  apply map_ext. intros c. fold (Ref.cr_to_lf (Ref.blank4 c)).
  unfold Ref.cr_to_lf. rewrite blank4_cr.
  destruct (c =? Char.CR); reflexivity.
Qed.

(** ** The claims about text *)

(** C3.  Whatever the content of a file, the text that [_load_yaml] hands
    to the parser has none of the four code points U+00A0, U+2007, U+202F
    and U+FEFF and no [CR LF] pair: the parser may refuse every other
    text without changing what the loader returns.  That text is
    [yaml_text] of the content: what the loader returns is decided by
    what the parser makes of it, the error of the parser or the mapping
    it has built, and by nothing else of the parser.  Each of the four code
    points of the file has become a space and each [CR LF] pair a single
    [LF]; the four are replaced by the loop of [_load_yaml], the line
    endings by reading the file in text mode.  The text is what
    [_sanitize_prompt_text] makes of the content, with the carriage
    returns that are left turned into [LF].  Code points other than the
    four and the carriage return reach the parser as they are. *)
Theorem yaml_text_sanitized (raw : pystr) :
  (forall fs safe_load path,
     config._load_yaml fs safe_load path
     = config._load_yaml fs (Ref.guarded safe_load) path)
  /\ (forall fs safe_load path,
        fs path = Some raw ->
        (forall e, safe_load (config.yaml_text raw) = Raise e ->
           config._load_yaml fs safe_load path = Raise e)
        /\ (forall d, safe_load (config.yaml_text raw) = Ok (VDict d) ->
              config._load_yaml fs safe_load path = Ok d)
        /\ (forall safe_load',
              safe_load' (config.yaml_text raw) = safe_load (config.yaml_text raw) ->
              config._load_yaml fs safe_load' path
              = config._load_yaml fs safe_load path))
  /\ forallb (fun c => negb (Str.contains [c] (config.yaml_text raw)))
       [Char.NBSP; Char.FIGURE_SPACE; Char.NNBSP; Char.BOM] = true
  /\ Str.contains [Char.CR; Char.LF] (config.yaml_text raw) = false
  /\ Forall (fun c => forall a b,
               config.yaml_text (a ++ c :: b)
               = config.yaml_text a ++ Char.SPACE :: config.yaml_text b)
       [Char.NBSP; Char.FIGURE_SPACE; Char.NNBSP; Char.BOM]
  /\ (forall a b,
        config.yaml_text (a ++ Char.CR :: Char.LF :: b)
        = config.yaml_text a ++ Char.LF :: config.yaml_text b)
  /\ config.yaml_text raw
     = Str.replace [Char.CR] [Char.LF] (prompts._sanitize_prompt_text raw)
  /\ (forall a b c,
        existsb (N.eqb c)
          [Char.NBSP; Char.FIGURE_SPACE; Char.NNBSP; Char.BOM; Char.CR; Char.LF]
        = false ->
        config.yaml_text (a ++ c :: b)
        = config.yaml_text a ++ c :: config.yaml_text b).
Proof.
  pose proof (yaml_text_clean raw) as Hclean.
  unfold Ref.clean in Hclean. apply andb_prop in Hclean as [Hmarked Hcrlf].
  split; [intros; apply load_yaml_guarded|].
  split.
  { intros fs safe_load path Hfile. unfold config._load_yaml. rewrite Hfile.
    split; [|split].
    - now intros e ->.
    - intros d ->. cbn [bind]. now destruct d.
    - now intros safe_load' ->. }
  split; [exact Hmarked|].
  split; [now apply negb_true_iff|].
  split.
  { repeat constructor; intros a b; rewrite !yaml_text_eq;
      rewrite read_app_other by reflexivity;
      now rewrite map_app. }
  split.
  { intros a b. rewrite !yaml_text_eq, read_app_crlf. now rewrite map_app. }
  split; [apply yaml_text_as_sanitizer|].
  intros a b c Hc. cbn [existsb] in Hc.
  repeat (apply orb_false_elim in Hc as [? Hc]).
  rewrite !yaml_text_eq, read_app_other by assumption.
  rewrite map_app. cbn [map]. do 2 f_equal.
  unfold Ref.blank4, Ref.blank, prompts._BAD_WHITESPACE. cbn [existsb].
  repeat match goal with H : (_ =? _) = false |- _ => rewrite H; clear H end.
  reflexivity.
Qed.

(** The loop of [_load_yaml] by itself leaves a [CR LF] pair where it is,
    and the sanitizer of templates leaves a lone [CR]; the text read from
    a file has neither. *)
Example line_endings_by_stage :
  fold_left (fun text ch => Str.replace [ch] (lit " ") text)
    prompts._BAD_WHITESPACE [97; Char.CR; Char.LF; 98; Char.CR; 99]
  = [97; Char.CR; Char.LF; 98; Char.CR; 99]
  /\ prompts._sanitize_prompt_text [97; Char.CR; Char.LF; 98; Char.CR; 99]
     = [97; Char.LF; 98; Char.CR; 99]
  /\ config.yaml_text [97; Char.CR; Char.LF; 98; Char.CR; 99]
     = [97; Char.LF; 98; Char.LF; 99].
Proof. repeat split. Qed.

(** C4, as the code has it.  The sanitizer is a function on all strings;
    its result never holds one of the four code points; and sanitizing
    twice gives the same as sanitizing once exactly for the strings with
    no carriage return in front of a [CR LF] pair. *)
Theorem sanitize_idempotent_without_cr_crlf (s : pystr) :
  forallb (fun c => negb (Str.contains [c] (prompts._sanitize_prompt_text s)))
    [Char.NBSP; Char.FIGURE_SPACE; Char.NNBSP; Char.BOM] = true
  /\ pystr_eqb
       (prompts._sanitize_prompt_text (prompts._sanitize_prompt_text s))
       (prompts._sanitize_prompt_text s)
     = negb (Str.contains [Char.CR; Char.CR; Char.LF] s)
  /\ (Str.contains [Char.CR] s = false ->
      prompts._sanitize_prompt_text (prompts._sanitize_prompt_text s)
      = prompts._sanitize_prompt_text s)
  /\ (forall order,
        (forall c, In c order <-> In c prompts._BAD_WHITESPACE) ->
        prompts.sanitize_in order s = prompts._sanitize_prompt_text s).
Proof.
  split; [apply sanitize_unmarked|].
  split; [apply sanitize_idempotent_iff|].
  split.
  - intros H. apply pystr_eqb_eq. rewrite sanitize_idempotent_iff.
    apply negb_true_iff.
    clear -H. induction s as [|c s IH]; [reflexivity|].
    rewrite contains_cons in *. cbn [Str.startswith] in *.
    rewrite andb_true_r in H.
    apply orb_false_elim in H as [Hc Hs].
    now rewrite Hc, IH.
  - intros order. apply sanitize_order_irrelevant.
Qed.

Lemma sanitize_idempotent_without_cr_crlf_witness :
  prompts._sanitize_prompt_text
    (prompts._sanitize_prompt_text (lit "a" ++ [Char.NBSP] ++ lit "b"))
  = prompts._sanitize_prompt_text (lit "a" ++ [Char.NBSP] ++ lit "b").
Proof.
  apply (sanitize_idempotent_without_cr_crlf (lit "a" ++ [Char.NBSP] ++ lit "b")).
  reflexivity.
Defined.

(** On [CR CR LF] the first pass leaves [CR LF] and the second [LF]. *)
Lemma sanitize_twice_differs :
  prompts._sanitize_prompt_text [Char.CR; Char.CR; Char.LF] = [Char.CR; Char.LF]
  /\ prompts._sanitize_prompt_text
       (prompts._sanitize_prompt_text [Char.CR; Char.CR; Char.LF])
     = [Char.LF]
  /\ pystr_eqb
       (prompts._sanitize_prompt_text
          (prompts._sanitize_prompt_text [Char.CR; Char.CR; Char.LF]))
       (prompts._sanitize_prompt_text [Char.CR; Char.CR; Char.LF])
     = false.
Proof. repeat split. Qed.

(** ** The claim about legacy keys *)

(** C5.  [_backward_compat_keys] returns a value for every raw tree.  A
    tree that is not a mapping is returned as it is.  In a mapping, the
    entries whose key is not [input] stay as they are and in their order;
    the entry of [input] is removed and its value entered under [inputs]
    exactly when [inputs] is absent, [input] is present and the value of
    [input] is a mapping; otherwise the mapping is returned unchanged.  So
    a document with [input:] over a mapping and no [inputs:] validates to
    the same result as the document in which that key is spelled
    [inputs:]. *)
Theorem backward_compat_keys_renames_input `{readers : pydantic.text_readers} :
  (forall data, is_dict data = false -> config._backward_compat_keys data = data)
  /\ (forall d,
        exists d',
          config._backward_compat_keys (VDict d) = VDict d'
          /\ (forall k, k <> lit "input" -> k <> lit "inputs" ->
                Dict.get k d' = Dict.get k d)
          /\ (negb (Dict.mem (lit "inputs") d) && Dict.mem (lit "input") d
              && is_dict (Dict.get_or_none (lit "input") d) = true ->
              d' = Dict.remove (lit "input") d
                   ++ [(VStr (lit "inputs"), Dict.get_or_none (lit "input") d)]
              /\ Dict.get (lit "inputs") d' = Dict.get (lit "input") d
              /\ Dict.get (lit "input") d' = None)
          /\ (negb (Dict.mem (lit "inputs") d) && Dict.mem (lit "input") d
              && is_dict (Dict.get_or_none (lit "input") d) = false ->
              d' = d))
  /\ (forall d v,
        Dict.get (lit "inputs") d = None ->
        Dict.get (lit "input") d = Some (VDict v) ->
        model_validate config.ParametersConfig_validate (VDict d)
        = model_validate config.ParametersConfig_validate
            (VDict (Ref.rename_key (lit "input") (lit "inputs") d))).
Proof.
  split; [intros data H; now destruct data|].
  split.
  - intros d.
    destruct (negb (Dict.mem (lit "inputs") d) && Dict.mem (lit "input") d
              && is_dict (Dict.get_or_none (lit "input") d)) eqn:E.
    + apply andb_prop in E as [E Hdict]. apply andb_prop in E as [Hno Hyes].
      rewrite get_mem in Hno, Hyes.
      destruct (Dict.get (lit "inputs") d) eqn:Hinputs; [discriminate|].
      destruct (Dict.get (lit "input") d) as [v|] eqn:Hinput; [|discriminate].
      assert (Hv : Dict.get_or_none (lit "input") d = v)
        by (unfold Dict.get_or_none; now rewrite Hinput).
      rewrite Hv in Hdict |- *.
      eexists. split; [exact (backward_compat_rename d v Hinputs Hinput Hdict)|].
      split.
      { intros k Hk Hk'. rewrite get_app, get_remove_other by auto.
        destruct (Dict.get k d); [reflexivity|].
        unfold Dict.get. cbn [find]. rewrite has_key_str.
        apply pystr_eqb_neq in Hk'. now rewrite Hk'. }
      split; [|discriminate].
      intros _. split; [reflexivity|]. split.
      * rewrite get_app, get_remove_other, Hinputs
          by (apply lit_neq; reflexivity).
        reflexivity.
      * rewrite get_app, get_remove_same. reflexivity.
    + exists d. split; [now apply backward_compat_keep|].
      split; [reflexivity|]. split; [discriminate|reflexivity].
  - intros d v Hinputs Hinput. unfold model_validate.
    now rewrite (legacy_input_validates d v).
Qed.

Lemma backward_compat_keys_renames_input_witness :
  config.load_parameters (readers := Samples.readers)
      Samples.fs Samples.safe_load (lit "legacy.yaml")
  = config.load_parameters (readers := Samples.readers)
      Samples.fs Samples.safe_load (lit "current.yaml").
Proof.
  destruct (backward_compat_keys_renames_input (readers := Samples.readers))
    as (_ & _ & H).
  exact (H [Samples.key "input"
              (VDict [Samples.key "raw_jds_csv" (VStr (lit "jds.csv"))]);
            Samples.key "prompt_key" (VStr (lit "v2"))]
           [Samples.key "raw_jds_csv" (VStr (lit "jds.csv"))]
           eq_refl eq_refl).
Defined.

(** What the two sample documents validate to. *)
Example legacy_sample_inputs :
  exists cfg,
    config.load_parameters (readers := Samples.readers)
        Samples.fs Samples.safe_load (lit "legacy.yaml") = Ok cfg
    /\ config.raw_jds_csv (config.inputs cfg) = lit "jds.csv"
    /\ config.prompt_key cfg = lit "v2".
Proof. eexists. repeat split. Qed.

(** Two invalid fields give one error with two entries, in the order of
    the fields. *)
Example two_errors_reported :
  config.load_parameters (readers := Samples.readers)
      Samples.fs Samples.safe_load (lit "two_errors.yaml")
  = Raise (ValidationError
             [ {| loc := [lit "llm"; lit "temperature"];
                  type := value_error
                            (Text (lit "llm.temperature must be within [0.0, 2.0]")) |};
               {| loc := [lit "llm"; lit "max_workers"];
                  type := value_error
                            (Text (lit "llm.max_workers must be > 0")) |} ]).
Proof. reflexivity. Qed.

(** ** Roots that are not mappings *)

(** X1.  A root that is not a mapping and counts as true (a list with
    items, a number other than zero, a string that is not empty, [true])
    makes every loader fail with the message about the root. *)
Theorem non_mapping_root_refused `{readers : pydantic.text_readers}
    (fs : pystr -> option pystr) (safe_load : pystr -> result pyval)
    (path raw : pystr) (root : pyval) :
  fs path = Some raw ->
  safe_load (config.yaml_text raw) = Ok root ->
  truthy root = true ->
  is_dict root = false ->
  let msg := Text (lit "YAML root must be a mapping/object: " ++ path) in
  config._load_yaml fs safe_load path = Raise (ValueError msg)
  /\ config.load_parameters fs safe_load path = Raise (ValueError msg)
  /\ config.load_prompt fs safe_load path = Raise (ValueError msg)
  /\ config.load_prompts fs safe_load path = Raise (ValueError msg)
  /\ config.load_credentials fs safe_load path = Raise (ValueError msg)
  /\ prompts.load_prompt_templates fs safe_load path = Raise (ValueError msg).
Proof.
  intros Hfile Hparse Ht Hd. cbv zeta.
  pose proof (load_yaml_not_mapping fs safe_load path raw root Hfile Hparse Ht Hd)
    as H.
  unfold config.load_parameters, config.load_prompt, config.load_prompts,
    config.load_credentials, prompts.load_prompt_templates, config.load_prompts.
  rewrite H. repeat split.
Qed.

Lemma non_mapping_root_refused_witness :
  config.load_parameters (readers := Samples.readers)
      Samples.fs Samples.safe_load (lit "list.yaml")
  = Raise (ValueError
             (Text (lit "YAML root must be a mapping/object: list.yaml"))).
Proof.
  apply (non_mapping_root_refused Samples.fs Samples.safe_load
           (lit "list.yaml") (Samples.lines ["- a"; "- b"]%string)
           (VList [VStr (lit "a"); VStr (lit "b")]));
    reflexivity.
Defined.

(** ** Errors of one field

    The checks of the schema report at the place they are made, and the
    places of the schema are distinct, so the entries of a report under
    the path of a field are the errors of that field. *)

Lemma fail_at_root {A} (t : error_type) (e : line_error) :
  In e (errors_of (@fail A t)) -> loc e = [].
Proof. intros [<-|[]]. reflexivity. Qed.

Lemma lax_str_at_root (v : pyval) (e : line_error) :
  In e (errors_of (lax_str v)) -> loc e = [].
Proof. destruct v; cbn [lax_str errors_of]; try contradiction; apply fail_at_root. Qed.

Lemma of_read_at_root {A} (r : A + error_type) (e : line_error) :
  In e (errors_of (of_read r)) -> loc e = [].
Proof. destruct r; [contradiction|apply fail_at_root]. Qed.

Lemma float_as_int_at_root (x : pyfloat) (e : line_error) :
  In e (errors_of (float_as_int x)) -> loc e = [].
Proof.
  unfold float_as_int. destruct (Float.trunc x); [|apply fail_at_root].
  destruct (negb _); [apply fail_at_root|].
  destruct (_ && _); [contradiction|apply fail_at_root].
Qed.

Lemma int_as_bool_at_root (n : Z) (e : line_error) :
  In e (errors_of (int_as_bool n)) -> loc e = [].
Proof.
  unfold int_as_bool. destruct (n =? 0)%Z; [contradiction|].
  destruct (n =? 1)%Z; [contradiction|apply fail_at_root].
Qed.

Lemma lax_int_at_root `{readers : text_readers} (v : pyval) (e : line_error) :
  In e (errors_of (lax_int v)) -> loc e = [].
Proof.
  destruct v; cbn [lax_int errors_of]; try contradiction; try apply fail_at_root.
  - apply float_as_int_at_root.
  - apply of_read_at_root.
Qed.

Lemma lax_float_at_root `{readers : text_readers} (v : pyval) (e : line_error) :
  In e (errors_of (lax_float v)) -> loc e = [].
Proof.
  destruct v; cbn [lax_float errors_of]; try contradiction; try apply fail_at_root.
  - destruct (Float.of_int n); [contradiction|apply fail_at_root].
  - apply of_read_at_root.
Qed.

Lemma lax_bool_at_root `{readers : text_readers} (v : pyval) (e : line_error) :
  In e (errors_of (lax_bool v)) -> loc e = [].
Proof.
  destruct v as [|b|n|x|s|l|d]; cbn [lax_bool errors_of];
    try contradiction; try apply fail_at_root.
  - destruct (fits_i64 n); [apply int_as_bool_at_root|apply fail_at_root].
  - destruct (float_as_int x); [apply int_as_bool_at_root|apply fail_at_root].
  - apply of_read_at_root.
Qed.

Lemma of_checked_at_root {A} (c : checked A) (e : line_error) :
  In e (errors_of (of_checked c)) -> loc e = [].
Proof. destruct c; [contradiction|apply fail_at_root]. Qed.

Lemma after_at_root {A} (convert : pyval -> outcome A) f (v : pyval)
    (e : line_error) :
  (forall w e', In e' (errors_of (convert w)) -> loc e' = []) ->
  In e (errors_of (after convert f v)) -> loc e = [].
Proof.
  intros H. unfold after. specialize (H v).
  destruct (convert v); [apply of_checked_at_root|apply H].
Qed.

Lemma before_at_root {A} f (convert : pyval -> outcome A) (v : pyval)
    (e : line_error) :
  (forall w e', In e' (errors_of (convert w)) -> loc e' = []) ->
  In e (errors_of (before f convert v)) -> loc e = [].
Proof.
  intros H. unfold before. destruct (f v); [apply H|apply fail_at_root].
Qed.

Lemma lax_optional_at_root {A} (convert : pyval -> outcome A) (v : pyval)
    (e : line_error) :
  (forall w e', In e' (errors_of (convert w)) -> loc e' = []) ->
  In e (errors_of (lax_optional convert v)) -> loc e = [].
Proof.
  intros H. unfold lax_optional.
  destruct v; try contradiction; rewrite errors_of_ap; cbn [errors_of app];
    apply H.
Qed.

Lemma must_be_mapping_at_root (v : pyval) (e : line_error) :
  In e (Ref.must_be_mapping v) -> loc e = [].
Proof.
  unfold Ref.must_be_mapping. destruct (is_dict v); [contradiction|].
  intros [<-|[]]. reflexivity.
Qed.

Lemma schema_checks_at_root `{readers : pydantic.text_readers}
    (path : list pystr) chk (v : pyval) (e : line_error) :
  In (path, chk) Ref.checks_of_code -> In e (chk v) -> loc e = [].
Proof.
  intros Hin. unfold Ref.checks_of_code in Hin.
  repeat (destruct Hin as [Hin|Hin]; [injection Hin as <- <-|]);
    try contradiction; unfold Ref.check;
    first [ apply must_be_mapping_at_root
          | apply lax_str_at_root
          | apply lax_bool_at_root
          | apply after_at_root; first [apply lax_float_at_root|apply lax_int_at_root]
          | apply before_at_root; first [apply lax_int_at_root|idtac] ].
  intros w e'. apply lax_optional_at_root. intros w' e''. apply lax_int_at_root.
Qed.

Lemma located_at_root (path : list pystr) (e : line_error) :
  loc e = [] -> Ref.located path e = {| loc := path; type := type e |}.
Proof. intros H. unfold Ref.located. now rewrite H, app_nil_r. Qed.

(** The check made at a place of the schema. *)
Ltac schema_entry H :=
  unfold Ref.checks_of_code in H;
  repeat (destruct H as [H|H];
          [apply pair_equal_spec in H as [H ?];
           first [ vm_compute in H; discriminate H | subst; reflexivity ]|]);
  contradiction.

Lemma check_of_temperature `{readers : pydantic.text_readers} chk :
  In ([lit "llm"; lit "temperature"], chk) Ref.checks_of_code ->
  chk = Ref.check (after lax_float config._validate_temperature).
Proof. intros H. schema_entry H. Qed.

Lemma check_of_max_workers `{readers : pydantic.text_readers} chk :
  In ([lit "llm"; lit "max_workers"], chk) Ref.checks_of_code ->
  chk = Ref.check (after lax_int (config._validate_positive_int (lit "max_workers"))).
Proof. intros H. schema_entry H. Qed.

Lemma check_of_max_retries `{readers : pydantic.text_readers} chk :
  In ([lit "llm"; lit "max_retries"], chk) Ref.checks_of_code ->
  chk = Ref.check (after lax_int (config._validate_positive_int (lit "max_retries"))).
Proof. intros H. schema_entry H. Qed.

(** An entry of the report under the path of a field is an error of the
    check made there. *)
Lemma report_entry_of_field `{readers : pydantic.text_readers}
    (raw : pydict) (path : list pystr) (e' : line_error) :
  In e' (errors_of (config.ParametersConfig_validate (VDict raw))) ->
  loc e' = path ->
  exists chk v,
    In (path, chk) Ref.checks_of_code
    /\ Ref.lookup path (config._backward_compat_keys (VDict raw)) = Some v
    /\ In {| loc := []; type := type e' |} (chk v).
Proof.
  intros He' Hloc.
  destruct (every_report_is_an_error raw e' He')
    as (path' & chk & v & e & Hin & Hlook & He & ->).
  pose proof (schema_checks_at_root path' chk v e Hin He) as Hroot.
  rewrite located_at_root in Hloc by assumption. cbn [loc] in Hloc. subst path'.
  exists chk, v. repeat split; auto.
  rewrite located_at_root by assumption. cbn [type].
  destruct e as [l t]. cbn [loc type] in *. now subst l.
Qed.

(** ** Range checks of [LLMConfig] *)

Lemma temperature_rejected_iff (q : Q) :
  Float.ltb (FFin q) (Float.of_Z 0) || Float.ltb (Float.of_Z 2) (FFin q) = true
  <-> (q < 0 \/ 2 < q)%Q.
Proof.
  unfold Float.of_Z. cbn [Float.ltb].
  rewrite orb_true_iff, !negb_true_iff.
  assert (L : forall a b : Q, Qle_bool a b = false <-> (b < a)%Q).
  { intros a b. split.
    - intros H. apply Qnot_le_lt. rewrite <- Qle_bool_iff. congruence.
    - intros H. apply Qlt_not_le in H. rewrite <- Qle_bool_iff in H.
      now destruct (Qle_bool a b). }
  rewrite !L. reflexivity.
Qed.

(** X2.  [llm.temperature], once pydantic has converted it to a float,
    whatever the value was: a float below 0.0 or above 2.0 puts the error
    of [_validate_temperature] into the report under [llm.temperature]
    and no object is returned; any other float leaves no entry under that
    path.  For a finite value the first
    case is [q < 0] or [2 < q]; both infinities are refused;
    not-a-number is accepted, since both comparisons are false for it. *)
Theorem temperature_range `{readers : pydantic.text_readers}
    (raw : pydict) (v : pyval) (x : pyfloat) :
  Ref.lookup [lit "llm"; lit "temperature"]
    (config._backward_compat_keys (VDict raw)) = Some v ->
  lax_float v = Valid x ->
  let report := errors_of (config.ParametersConfig_validate (VDict raw)) in
  let entry :=
    {| loc := [lit "llm"; lit "temperature"];
       type := value_error
                 (Text (lit "llm.temperature must be within [0.0, 2.0]")) |} in
  let refused :=
    Float.ltb x (Float.of_Z 0) || Float.ltb (Float.of_Z 2) x in
  (refused = true ->
     In entry report
     /\ model_validate config.ParametersConfig_validate (VDict raw)
        = Raise (ValidationError report))
  /\ (refused = false ->
      forall e, In e report -> loc e <> [lit "llm"; lit "temperature"])
  /\ (forall q, x = FFin q -> (refused = true <-> (q < 0 \/ 2 < q)%Q))
  /\ (x = FNan -> refused = false)
  /\ (forall b, x = FInf b -> refused = true).
Proof.
  intros Hlook Hconv. cbv zeta.
  assert (Hchk : Ref.check (after lax_float config._validate_temperature) v
                 = errors_of (of_checked (config._validate_temperature x))).
  { unfold Ref.check, after. now rewrite Hconv. }
  split; [|split; [|split; [|split]]].
  - intros Hrej.
    assert (R : In {| loc := [lit "llm"; lit "temperature"];
                      type := value_error
                                (Text (lit "llm.temperature must be within [0.0, 2.0]")) |}
                  (errors_of (config.ParametersConfig_validate (VDict raw)))).
    { apply (every_error_reported raw [lit "llm"; lit "temperature"]
               (Ref.check (after lax_float config._validate_temperature)) v
               {| loc := [];
                  type := value_error
                            (Text (lit "llm.temperature must be within [0.0, 2.0]")) |});
        [unfold Ref.checks_of_code; in_schema|exact Hlook|].
      rewrite Hchk. unfold config._validate_temperature. rewrite Hrej.
      now left. }
    split; [exact R|]. now apply model_validate_errors in R.
  - intros Hacc e He Hloc.
    destruct (report_entry_of_field raw _ e He Hloc) as (chk & v' & Hin & Hlook' & Hc).
    apply check_of_temperature in Hin. subst chk.
    rewrite Hlook in Hlook'. injection Hlook' as <-.
    rewrite Hchk in Hc. unfold config._validate_temperature in Hc.
    rewrite Hacc in Hc. contradiction.
  - intros q ->. apply temperature_rejected_iff.
  - intros ->. reflexivity.
  - intros b ->. now destruct b.
Qed.

Lemma temperature_range_witness :
  model_validate (config.ParametersConfig_validate (readers := Samples.readers))
    (VDict [Samples.key "llm"
              (VDict [Samples.key "temperature" (VFloat (FFin (5 # 2)))])])
  = Raise (ValidationError
             [ {| loc := [lit "llm"; lit "temperature"];
                  type := value_error
                            (Text (lit "llm.temperature must be within [0.0, 2.0]")) |} ]).
Proof.
  apply (temperature_range
           [Samples.key "llm"
              (VDict [Samples.key "temperature" (VFloat (FFin (5 # 2)))])]
           (VFloat (FFin (5 # 2))) (FFin (5 # 2)) eq_refl eq_refl).
  reflexivity.
Defined.

(** X3.  [llm.max_workers] and [llm.max_retries], once pydantic has
    converted the value to an integer, whatever the value was: an integer
    of 0 or less puts an error into the report under the
    path of the field, with a message that names that field, and no
    object is returned; a positive value leaves no entry under that
    path. *)
Theorem positive_int_fields `{readers : pydantic.text_readers}
    (raw : pydict) (name : pystr) (v : pyval) (n : Z) :
  name = lit "max_workers" \/ name = lit "max_retries" ->
  Ref.lookup [lit "llm"; name] (config._backward_compat_keys (VDict raw))
  = Some v ->
  lax_int v = Valid n ->
  let report := errors_of (config.ParametersConfig_validate (VDict raw)) in
  let entry :=
    {| loc := [lit "llm"; name];
       type := value_error (Text (lit "llm." ++ name ++ lit " must be > 0")) |} in
  ((n <= 0)%Z ->
     In entry report
     /\ model_validate config.ParametersConfig_validate (VDict raw)
        = Raise (ValidationError report))
  /\ ((0 < n)%Z -> forall e, In e report -> loc e <> [lit "llm"; name]).
Proof.
  intros Hname Hlook Hconv. cbv zeta.
  assert (Hin : In ([lit "llm"; name],
                    Ref.check (after lax_int (config._validate_positive_int name)))
                  Ref.checks_of_code)
    by (destruct Hname as [-> | ->]; unfold Ref.checks_of_code; in_schema).
  assert (Hchk : Ref.check (after lax_int (config._validate_positive_int name)) v
                 = errors_of (of_checked (config._validate_positive_int name n))).
  { unfold Ref.check, after. now rewrite Hconv. }
  split.
  - intros Hn. apply Z.leb_le in Hn.
    assert (R : In {| loc := [lit "llm"; name];
                      type := value_error
                                (Text (lit "llm." ++ name ++ lit " must be > 0")) |}
                  (errors_of (config.ParametersConfig_validate (VDict raw)))).
    { apply (every_error_reported raw [lit "llm"; name] _ v
               {| loc := [];
                  type := value_error
                            (Text (lit "llm." ++ name ++ lit " must be > 0")) |}
               Hin Hlook).
      rewrite Hchk. unfold config._validate_positive_int. rewrite Hn.
      now left. }
    split; [exact R|]. now apply model_validate_errors in R.
  - intros Hn e He Hloc. apply Z.leb_gt in Hn.
    destruct (report_entry_of_field raw _ e He Hloc) as (chk & v' & Hin' & Hlook' & Hc).
    assert (chk = Ref.check (after lax_int (config._validate_positive_int name))).
    { destruct Hname as [-> | ->];
        [now apply check_of_max_workers|now apply check_of_max_retries]. }
    subst chk. rewrite Hlook in Hlook'. injection Hlook' as <-.
    rewrite Hchk in Hc. unfold config._validate_positive_int in Hc.
    rewrite Hn in Hc. contradiction.
Qed.

Lemma positive_int_fields_witness :
  model_validate (config.ParametersConfig_validate (readers := Samples.readers))
    (VDict [Samples.key "llm" (VDict [Samples.key "max_retries" (VInt (-1))])])
  = Raise (ValidationError
             [ {| loc := [lit "llm"; lit "max_retries"];
                  type := value_error (Text (lit "llm.max_retries must be > 0")) |} ]).
Proof.
  apply (positive_int_fields (readers := Samples.readers)
           [Samples.key "llm" (VDict [Samples.key "max_retries" (VInt (-1))])]
           (lit "max_retries") (VInt (-1)) (-1)%Z
           (or_intror eq_refl) eq_refl eq_refl).
  lia.
Defined.

From Stdlib Require Import Permutation.

(** ** Keys that validation does not know *)

Lemma backward_compat_cases (d : pydict) :
  (exists v, Dict.get (lit "inputs") d = None
             /\ Dict.get (lit "input") d = Some v /\ is_dict v = true
             /\ config._backward_compat_keys (VDict d)
                = VDict (Dict.remove (lit "input") d ++ [(VStr (lit "inputs"), v)]))
  \/ ((Dict.get (lit "inputs") d <> None
       \/ Dict.get (lit "input") d = None
       \/ exists v, Dict.get (lit "input") d = Some v /\ is_dict v = false)
      /\ config._backward_compat_keys (VDict d) = VDict d).
Proof.
  destruct (Dict.get (lit "inputs") d) as [w|] eqn:Hinputs.
  { right. split; [left; discriminate|].
    apply backward_compat_keep. now rewrite get_mem, Hinputs. }
  destruct (Dict.get (lit "input") d) as [v|] eqn:Hinput.
  2:{ right. split; [auto|].
      apply backward_compat_keep. now rewrite !get_mem, Hinputs, Hinput. }
  destruct (is_dict v) eqn:Hv.
  - left. exists v. repeat split; auto. now apply backward_compat_rename.
  - right. split; [right; right; now exists v|].
    apply backward_compat_keep. unfold Dict.get_or_none.
    now rewrite !get_mem, Hinputs, Hinput, Hv.
Qed.

Lemma get_unknown_entry (k : pystr) (e : pyval * pyval) (pre post : pydict) :
  Dict.has_key k e = false ->
  Dict.get k (pre ++ e :: post) = Dict.get k (pre ++ post).
Proof.
  intros H. rewrite !get_app. destruct (Dict.get k pre); [reflexivity|].
  unfold Dict.get. cbn [find]. now rewrite H.
Qed.

Lemma parameters_by_known_keys `{readers : pydantic.text_readers}
    (d1 d2 : pydict) :
  (forall k, In k Known.parameters_keys -> Dict.get k d1 = Dict.get k d2) ->
  config.ParametersConfig_validate (VDict d1)
  = config.ParametersConfig_validate (VDict d2).
Proof.
  intros H.
  assert (Hk : forall name, In (lit name) Known.parameters_keys ->
                 Dict.get (lit name) d1 = Dict.get (lit name) d2) by (intros; now apply H).
  pose proof (Hk "project"%string ltac:(cbn; tauto)) as Hproject.
  pose proof (Hk "inputs"%string ltac:(cbn; tauto)) as Hinputs.
  pose proof (Hk "input"%string ltac:(cbn; tauto)) as Hinput.
  pose proof (Hk "llm"%string ltac:(cbn; tauto)) as Hllm.
  pose proof (Hk "outputs"%string ltac:(cbn; tauto)) as Houtputs.
  pose proof (Hk "prompt_key"%string ltac:(cbn; tauto)) as Hkey.
  unfold config.ParametersConfig_validate.
  destruct (backward_compat_cases d1) as [(v & H1 & H2 & H3 & ->)|[Hc ->]].
  - rewrite (backward_compat_rename d2 v) by congruence.
    unfold field. rewrite !get_app.
    rewrite !get_remove_other by (apply lit_neq; reflexivity).
    now rewrite Hproject, Hinputs, Hllm, Houtputs, Hkey.
  - rewrite (backward_compat_keep d2).
    + unfold field.
      now rewrite Hproject, Hinputs, Hllm, Houtputs, Hkey.
    + unfold Dict.get_or_none. rewrite !get_mem, <- Hinputs, <- Hinput.
      destruct Hc as [Hc|[Hc|(v & Hc & Hv)]].
      * now destruct (Dict.get (lit "inputs") d1).
      * rewrite Hc. now destruct (Dict.get (lit "inputs") d1).
      * rewrite Hc, Hv. now destruct (Dict.get (lit "inputs") d1).
Qed.

Lemma llm_by_known_keys `{readers : pydantic.text_readers} (d1 d2 : pydict) :
  (forall k, In k Known.llm_keys -> Dict.get k d1 = Dict.get k d2) ->
  config.LLMConfig_validate (VDict d1) = config.LLMConfig_validate (VDict d2).
Proof.
  intros H.
  assert (Hk : forall name, In (lit name) Known.llm_keys ->
                 Dict.get (lit name) d1 = Dict.get (lit name) d2) by (intros; now apply H).
  unfold config.LLMConfig_validate, field. cbv zeta.
  rewrite (Hk "model_name"%string), (Hk "temperature"%string),
    (Hk "progress_log_every"%string), (Hk "max_workers"%string),
    (Hk "silence_client_lv_logs"%string), (Hk "json_only"%string),
    (Hk "max_retries"%string), (Hk "max_rows_per_run"%string),
    (Hk "force"%string) by (cbn; tauto).
  reflexivity.
Qed.

Lemma has_key_fst (k : pystr) (e : pyval * pyval) :
  Dict.has_key k e = true -> fst e = VStr k.
Proof.
  unfold Dict.has_key. destruct (fst e); try discriminate.
  intros H. apply pystr_eqb_eq in H. now subst.
Qed.

Lemma get_permutation (k : pystr) (d d' : pydict) :
  NoDup (map fst d) -> Permutation d d' -> Dict.get k d = Dict.get k d'.
Proof.
  intros Hnd Hp. induction Hp as [|x l l' Hp IH|x y l|l l' l'' Hp1 IH1 Hp2 IH2].
  - reflexivity.
  - unfold Dict.get in *. cbn [find]. cbn [map] in Hnd.
    apply NoDup_cons_iff in Hnd as [_ Hnd].
    destruct (Dict.has_key k x); [reflexivity|now apply IH].
  - unfold Dict.get. cbn [find].
    destruct (Dict.has_key k y) eqn:Ey, (Dict.has_key k x) eqn:Ex; try reflexivity.
    apply has_key_fst in Ey, Ex. cbn [map] in Hnd.
    apply NoDup_cons_iff in Hnd as [Hnd _]. exfalso. apply Hnd.
    left. congruence.
  - rewrite IH1 by assumption. apply IH2.
    apply (Permutation_NoDup (Permutation_map fst Hp1) Hnd).
Qed.

(** X4.  Validation of a Parameters document reads the values under
    [project], [inputs], [input], [llm], [outputs] and [prompt_key] and
    nothing else: two documents that agree there validate to the same
    object or the same error.  So an entry under any other key, of any
    type, anywhere in the document changes nothing, and neither does the
    order of the entries of a document whose keys are distinct.  The same
    holds inside [llm] for its nine fields. *)
Theorem unknown_keys_ignored `{readers : pydantic.text_readers} :
  (forall d1 d2,
     (forall k, In k Known.parameters_keys -> Dict.get k d1 = Dict.get k d2) ->
     model_validate config.ParametersConfig_validate (VDict d1)
     = model_validate config.ParametersConfig_validate (VDict d2))
  /\ (forall pre post e,
        (forall k, In k Known.parameters_keys -> Dict.has_key k e = false) ->
        model_validate config.ParametersConfig_validate (VDict (pre ++ e :: post))
        = model_validate config.ParametersConfig_validate (VDict (pre ++ post)))
  /\ (forall d d',
        NoDup (map fst d) -> Permutation d d' ->
        model_validate config.ParametersConfig_validate (VDict d)
        = model_validate config.ParametersConfig_validate (VDict d'))
  /\ (forall d1 d2,
        (forall k, In k Known.llm_keys -> Dict.get k d1 = Dict.get k d2) ->
        config.LLMConfig_validate (VDict d1) = config.LLMConfig_validate (VDict d2))
  /\ (forall pre post e,
        (forall k, In k Known.llm_keys -> Dict.has_key k e = false) ->
        config.LLMConfig_validate (VDict (pre ++ e :: post))
        = config.LLMConfig_validate (VDict (pre ++ post))).
Proof.
  split; [|split; [|split; [|split]]].
  - intros d1 d2 H. unfold model_validate.
    now rewrite (parameters_by_known_keys d1 d2).
  - intros pre post e H. unfold model_validate.
    rewrite (parameters_by_known_keys (pre ++ e :: post) (pre ++ post)); auto.
    intros k Hk. apply get_unknown_entry, H, Hk.
  - intros d d' Hnd Hp. unfold model_validate.
    rewrite (parameters_by_known_keys d d'); [reflexivity|].
    intros k _. now apply get_permutation.
  - exact llm_by_known_keys.
  - intros pre post e H. apply llm_by_known_keys.
    intros k Hk. apply get_unknown_entry, H, Hk.
Qed.

Lemma unknown_keys_ignored_witness :
  model_validate (config.ParametersConfig_validate (readers := Samples.readers))
    (VDict [Samples.key "notes" (VStr (lit "draft"));
            Samples.key "llm" (VDict [Samples.key "max_workers" (VInt 1)]);
            (VInt 7, VList [])])
  = model_validate (config.ParametersConfig_validate (readers := Samples.readers))
      (Samples.llm_with_workers 1).
Proof.
  destruct (unknown_keys_ignored (readers := Samples.readers)) as (H & _).
  apply H. intros k Hk.
  repeat (destruct Hk as [<-|Hk]; [reflexivity|]). contradiction.
Defined.

(** ** Credentials *)

Lemma field_absent {A} (name : pystr) (dflt : A) validate (d : pydict) (a : A) :
  Dict.get name d = None -> field name dflt validate d = Valid a -> a = dflt.
Proof. intros Hget H. unfold field in H. rewrite Hget in H. now injection H. Qed.

Lemma request_fields `{readers : text_readers} (r : pydict)
    (req : config.CredentialsGeminiRequest) :
  config.CredentialsGeminiRequest_validate (VDict r) = Valid req ->
  (Dict.get (lit "timeout_seconds") r = None -> config.timeout_seconds req = 60%Z)
  /\ (Dict.get (lit "retry_backoff_seconds") r = None ->
      config.retry_backoff_seconds req = 2%Z)
  /\ (Dict.get (lit "max_retry_backoff_seconds") r = None ->
      config.max_retry_backoff_seconds req = 20%Z).
Proof.
  intros H. unfold config.CredentialsGeminiRequest_validate in H.
  lazy beta iota zeta in H.
  repeat match type of H with
         | _ <*> _ = Valid _ =>
             apply ap_valid_inv in H as (? & ? & H & ? & ->)
         end.
  injection H as <-.
  cbn [config.timeout_seconds config.retry_backoff_seconds
       config.max_retry_backoff_seconds].
  repeat split; intros Habsent;
    match goal with
    | F : field ?n _ _ _ = Valid ?a, G : Dict.get ?n _ = None |- ?a = _ =>
        now rewrite (field_absent _ _ _ _ _ G F)
    end.
Qed.

Lemma gemini_fields `{readers : text_readers} (g : pydict)
    (gem : config.CredentialsGemini) :
  config.CredentialsGemini_validate (VDict g) = Valid gem ->
  (Dict.get (lit "api_key_env") g = None ->
   config.api_key_env gem = lit "GEMINI_API_KEY")
  /\ (Dict.get (lit "gcp_project_id") g = None -> config.gcp_project_id gem = None)
  /\ (Dict.get (lit "gcp_location") g = None -> config.gcp_location gem = None)
  /\ (Dict.get (lit "request") g = None ->
      config.request gem
      = {| config.timeout_seconds := 60;
           config.retry_backoff_seconds := 2;
           config.max_retry_backoff_seconds := 20 |})
  /\ (forall r, Dict.get (lit "request") g = Some (VDict r) ->
        config.CredentialsGeminiRequest_validate (VDict r)
        = Valid (config.request gem)).
Proof.
  intros H. unfold config.CredentialsGemini_validate in H.
  lazy beta iota zeta in H.
  repeat match type of H with
         | _ <*> _ = Valid _ =>
             apply ap_valid_inv in H as (? & ? & H & ? & ->)
         end.
  injection H as <-.
  cbn [config.api_key_env config.gcp_project_id config.gcp_location
       config.request].
  split; [|split; [|split; [|split]]];
    try (intros Habsent;
         match goal with
         | F : field ?n _ _ _ = Valid ?a, G : Dict.get ?n _ = None |- ?a = _ =>
             now rewrite (field_absent _ _ _ _ _ G F)
         end).
  intros r Hr.
  match goal with
  | F : field (lit "request") _ _ _ = Valid ?a |- _ = Valid ?a =>
      unfold field in F; rewrite Hr in F;
      destruct (config.CredentialsGeminiRequest_validate (VDict r));
      cbn [at_loc] in F; [now injection F as <-|discriminate]
  end.
Qed.

(** X5.  A Credentials document is read under [gemini] only.  Without
    that key the defaults are returned, whatever else the document holds:
    [api_key_env] is "GEMINI_API_KEY", no project and no location, and
    the three numbers of [request] are 60, 2 and 20.  A key [gemini] with
    no value (null) is not an absent key: the document is refused with
    one error under [gemini].  Inside [gemini] every field that is absent
    takes its default, and so does every field that is absent inside
    [request]; [request] may be absent as a whole. *)
Theorem credentials_defaults `{readers : pydantic.text_readers} (raw : pydict) :
  (Dict.get (lit "gemini") raw = None ->
     model_validate config.CredentialsConfig_validate (VDict raw)
     = Ok {| config.gemini :=
               {| config.api_key_env := lit "GEMINI_API_KEY";
                  config.gcp_project_id := None;
                  config.gcp_location := None;
                  config.request :=
                    {| config.timeout_seconds := 60;
                       config.retry_backoff_seconds := 2;
                       config.max_retry_backoff_seconds := 20 |} |} |})
  /\ (forall v, Dict.get (lit "gemini") raw = Some v -> is_dict v = false ->
        model_validate config.CredentialsConfig_validate (VDict raw)
        = Raise (ValidationError
                   [ {| loc := [lit "gemini"]; type := model_type |} ]))
  /\ (forall g name,
        Dict.get (lit "gemini") raw = Some (VDict g) ->
        Dict.get (lit "api_key_env") g = Some (VStr name) ->
        Dict.get (lit "gcp_project_id") g = None ->
        Dict.get (lit "gcp_location") g = None ->
        Dict.get (lit "request") g = None ->
        model_validate config.CredentialsConfig_validate (VDict raw)
        = Ok {| config.gemini :=
                  {| config.api_key_env := name;
                     config.gcp_project_id := None;
                     config.gcp_location := None;
                     config.request :=
                       {| config.timeout_seconds := 60;
                          config.retry_backoff_seconds := 2;
                          config.max_retry_backoff_seconds := 20 |} |} |})
  /\ (forall g cfg,
        Dict.get (lit "gemini") raw = Some (VDict g) ->
        model_validate config.CredentialsConfig_validate (VDict raw) = Ok cfg ->
        (Dict.get (lit "api_key_env") g = None ->
         config.api_key_env (config.gemini cfg) = lit "GEMINI_API_KEY")
        /\ (Dict.get (lit "gcp_project_id") g = None ->
            config.gcp_project_id (config.gemini cfg) = None)
        /\ (Dict.get (lit "gcp_location") g = None ->
            config.gcp_location (config.gemini cfg) = None)
        /\ (Dict.get (lit "request") g = None ->
            config.request (config.gemini cfg)
            = {| config.timeout_seconds := 60;
                 config.retry_backoff_seconds := 2;
                 config.max_retry_backoff_seconds := 20 |})
        /\ (forall r, Dict.get (lit "request") g = Some (VDict r) ->
              (Dict.get (lit "timeout_seconds") r = None ->
               config.timeout_seconds (config.request (config.gemini cfg)) = 60%Z)
              /\ (Dict.get (lit "retry_backoff_seconds") r = None ->
                  config.retry_backoff_seconds (config.request (config.gemini cfg))
                  = 2%Z)
              /\ (Dict.get (lit "max_retry_backoff_seconds") r = None ->
                  config.max_retry_backoff_seconds
                    (config.request (config.gemini cfg)) = 20%Z)))
  /\ (Dict.get (lit "gemini") raw = Some (VDict []) ->
      model_validate config.CredentialsConfig_validate (VDict raw)
      = Ok {| config.gemini :=
                {| config.api_key_env := lit "GEMINI_API_KEY";
                   config.gcp_project_id := None;
                   config.gcp_location := None;
                   config.request :=
                     {| config.timeout_seconds := 60;
                        config.retry_backoff_seconds := 2;
                        config.max_retry_backoff_seconds := 20 |} |} |})
  /\ config.api_key_env (config.gemini config.CredentialsConfig_default)
     = lit "GEMINI_API_KEY"
  /\ config.timeout_seconds
       (config.request (config.gemini config.CredentialsConfig_default)) = 60%Z.
Proof.
  split; [|split; [|split; [|split; [|split; [|split]]]]]; try reflexivity.
  - intros H. unfold model_validate, config.CredentialsConfig_validate, field.
    now rewrite H.
  - intros v H Hv. unfold model_validate, config.CredentialsConfig_validate, field.
    rewrite H. now destruct v.
  - intros g name H Hname Hp Hl Hr.
    unfold model_validate, config.CredentialsConfig_validate, field. rewrite H.
    unfold config.CredentialsGemini_validate, field. cbv zeta.
    now rewrite Hname, Hp, Hl, Hr.
  - intros g cfg Hg Hok. unfold model_validate in Hok.
    destruct (config.CredentialsConfig_validate (VDict raw)) as [c|] eqn:E;
      [injection Hok as ->|discriminate].
    unfold config.CredentialsConfig_validate, field in E. rewrite Hg in E.
    apply ap_valid_inv in E as (f & gem & Hf & Hgem & ->).
    injection Hf as <-. cbn [config.gemini].
    destruct (config.CredentialsGemini_validate (VDict g)) as [gem'|] eqn:Eg;
      cbn [at_loc] in Hgem; [injection Hgem as ->|discriminate].
    destruct (gemini_fields g gem Eg) as (Hk & Hp & Hl & Hr & Hreq).
    repeat (split; [assumption|]).
    intros r Hget. apply (request_fields r), (Hreq r Hget).
  - intros H. unfold model_validate, config.CredentialsConfig_validate, field.
    now rewrite H.
Qed.

Lemma credentials_defaults_witness :
  model_validate (config.CredentialsConfig_validate (readers := Samples.readers))
    (VDict [Samples.key "gemini" VNone])
  = Raise (ValidationError [ {| loc := [lit "gemini"]; type := model_type |} ]).
Proof.
  destruct (credentials_defaults (readers := Samples.readers)
              [Samples.key "gemini" VNone]) as (_ & H & _).
  apply (H VNone); reflexivity.
Defined.

(** ** More on the sanitizer *)

Lemma map_fixed {A} (f : A -> A) (l : list A) :
  map f l = l <-> Forall (fun x => f x = x) l.
Proof.
  induction l as [|x l IH]; cbn [map]; split; intros H; auto.
  - injection H as Hx Hl. constructor; [assumption|now apply IH].
  - apply Forall_cons_iff in H as [Hx Hl]. f_equal; [assumption|now apply IH].
Qed.

Lemma blank4_fixed (c : codepoint) :
  Ref.blank4 c = c <-> existsb (N.eqb c) prompts._BAD_WHITESPACE = false.
Proof.
  unfold Ref.blank4, Ref.blank.
  destruct (existsb (N.eqb c) prompts._BAD_WHITESPACE) eqn:E; split; auto.
  - intros <-. discriminate.
  - discriminate.
Qed.

Lemma unmarked_iff (s : pystr) :
  forallb (fun c => negb (Str.contains [c] s)) prompts._BAD_WHITESPACE = true
  <-> Forall (fun c => Ref.blank4 c = c) s.
Proof.
  rewrite forallb_forall, Forall_forall. split.
  - intros H c Hc. apply blank4_fixed.
    destruct (existsb (N.eqb c) prompts._BAD_WHITESPACE) eqn:E; [|reflexivity].
    apply existsb_exists in E as (m & Hm & Hcm). apply N.eqb_eq in Hcm. subst m.
    specialize (H c Hm). rewrite contains_one in H.
    apply negb_true_iff in H.
    assert (existsb (N.eqb c) s = true); [|congruence].
    apply existsb_exists. exists c. split; [assumption|apply N.eqb_refl].
  - intros H m Hm. rewrite contains_one. apply negb_true_iff.
    destruct (existsb (N.eqb m) s) eqn:E; [|reflexivity].
    apply existsb_exists in E as (c & Hc & Hmc). apply N.eqb_eq in Hmc. subst c.
    specialize (H m Hc). apply blank4_fixed in H.
    assert (existsb (N.eqb m) prompts._BAD_WHITESPACE = true); [|congruence].
    apply existsb_exists. exists m. split; [assumption|apply N.eqb_refl].
Qed.

(** X6.  The texts that [_sanitize_prompt_text] returns as they are, are
    the texts with none of the four code points and no [CR LF] pair; the
    result is never longer than the text; and in a text with no carriage
    return each code point is blanked or kept where it stands, so the
    result has the length of the text. *)
Theorem sanitize_fixed_points (s : pystr) :
  pystr_eqb (prompts._sanitize_prompt_text s) s = Ref.clean s
  /\ (List.length (prompts._sanitize_prompt_text s) <= List.length s)%nat
  /\ (Str.contains [Char.CR] s = false ->
      prompts._sanitize_prompt_text s = map Ref.blank4 s).
Proof.
  rewrite sanitize_eq. split; [|split].
  - unfold Ref.clean.
    destruct (Str.contains [Char.CR; Char.LF] s) eqn:Ecrlf.
    + rewrite andb_false_r. apply pystr_eqb_neq. intros H.
      apply (f_equal (@List.length _)) in H. rewrite length_map in H.
      apply crlf_shorter in Ecrlf. lia.
    + rewrite andb_true_r, crlf_fixed by assumption.
      destruct (forallb _ _) eqn:E.
      * apply pystr_eqb_eq, map_fixed, unmarked_iff, E.
      * apply pystr_eqb_neq. intros H.
        apply map_fixed, unmarked_iff in H. congruence.
  - rewrite length_map. apply crlf_length.
  - intros H. now rewrite crlf_fixed by now apply contains_crlf_cr.
Qed.

Lemma sanitize_fixed_points_witness :
  prompts._sanitize_prompt_text (lit "Rate {posting} from 1 to 5.")
  = map Ref.blank4 (lit "Rate {posting} from 1 to 5.").
Proof.
  apply (sanitize_fixed_points (lit "Rate {posting} from 1 to 5.")).
  reflexivity.
Defined.

(** ** Templates, key by key *)

Lemma strdict_not_in (k : pystr) (d : strdict) :
  existsb (StrDict.has_key k) d = false -> ~ In k (map fst d).
Proof.
  intros H Hin. apply in_map_iff in Hin as (e & <- & He).
  assert (existsb (StrDict.has_key (fst e)) d = true); [|congruence].
  apply existsb_exists. exists e. split; [assumption|apply pystr_eqb_refl].
Qed.

Lemma strdict_in (k : pystr) (d : strdict) :
  existsb (StrDict.has_key k) d = true -> In k (map fst d).
Proof.
  intros H. apply existsb_exists in H as (e & He & Hk).
  apply pystr_eqb_eq in Hk. subst k. now apply in_map.
Qed.

Lemma strdict_set_new (k v : pystr) (d : strdict) :
  ~ In k (map fst d) -> StrDict.set k v d = d ++ [(k, v)].
Proof.
  intros H. unfold StrDict.set.
  destruct (existsb (StrDict.has_key k) d) eqn:E; [|reflexivity].
  apply strdict_in in E. contradiction.
Qed.

Lemma strdict_set_keys (k v : pystr) (d : strdict) :
  NoDup (map fst d) -> NoDup (map fst (StrDict.set k v d)).
Proof.
  intros H. unfold StrDict.set.
  destruct (existsb (StrDict.has_key k) d) eqn:E.
  - rewrite map_map.
    erewrite map_ext; [exact H|].
    intros e. now destruct (StrDict.has_key k e).
  - rewrite map_app. cbn [map fst].
    apply NoDup_app; [assumption|repeat constructor; auto|].
    intros x Hx [<-|[]]. now apply (strdict_not_in k d).
Qed.

Lemma collect_prompts_keys (items : pydict) (out0 out : strdict) :
  config.collect_prompts items out0 = Ok out ->
  NoDup (map fst out0) -> NoDup (map fst out).
Proof.
  revert out0; induction items as [|[k v] items IH]; intros out0 H Hnd.
  - cbn in H. now injection H as <-.
  - cbn [config.collect_prompts] in H.
    destruct k; try discriminate. destruct v; try discriminate.
    apply IH in H; [assumption|]. now apply strdict_set_keys.
Qed.

(** Entering pairs with new, distinct keys appends them in their order. *)
Lemma fold_set_distinct (f : pystr -> pystr) (l acc : strdict) :
  NoDup (map fst acc ++ map fst l) ->
  fold_left (fun clean item => StrDict.set (fst item) (f (snd item)) clean) l acc
  = acc ++ map (fun kv => (fst kv, f (snd kv))) l.
Proof.
  revert acc; induction l as [|[k v] l IH]; intros acc H.
  - cbn. now rewrite app_nil_r.
  - cbn [fold_left map fst snd] in *.
    rewrite strdict_set_new.
    2:{ apply NoDup_remove_2 in H. intros Hin. apply H, in_or_app. now left. }
    rewrite IH.
    + now rewrite <- app_assoc.
    + rewrite map_app. cbn [map fst]. now rewrite <- app_assoc.
Qed.

Lemma collect_prompts_distinct (typed out0 : strdict) :
  NoDup (map fst out0 ++ map fst typed) ->
  config.collect_prompts
    (map (fun kv => (VStr (fst kv), VStr (snd kv))) typed) out0
  = Ok (out0 ++ typed).
Proof.
  revert out0; induction typed as [|[k v] typed IH]; intros out0 H.
  - cbn. now rewrite app_nil_r.
  - cbn [map fst snd config.collect_prompts] in *.
    rewrite strdict_set_new.
    2:{ apply NoDup_remove_2 in H. intros Hin. apply H, in_or_app. now left. }
    rewrite IH.
    + now rewrite <- app_assoc.
    + rewrite map_app. cbn [map fst]. now rewrite <- app_assoc.
Qed.

Lemma strdict_get_map (f : pystr -> pystr) (k : pystr) (d : strdict) :
  StrDict.get k (map (fun kv => (fst kv, f (snd kv))) d)
  = option_map f (StrDict.get k d).
Proof.
  unfold StrDict.get. induction d as [|e d IH]; [reflexivity|].
  cbn [map find]. unfold StrDict.has_key at 1 3. cbn [fst].
  destruct (pystr_eqb k (fst e)); [reflexivity|exact IH].
Qed.

Lemma load_prompts_keys fs safe_load path (loaded : strdict) :
  config.load_prompts fs safe_load path = Ok loaded -> NoDup (map fst loaded).
Proof.
  unfold config.load_prompts.
  destruct (config._load_yaml fs safe_load path) as [raw|]; [|discriminate].
  cbn [bind]. cbv zeta.
  destruct (is_none _ || negb _); [discriminate|].
  destruct (Dict.get_or_none (lit "prompts") raw); try discriminate.
  intros H. apply collect_prompts_keys in H; [assumption|constructor].
Qed.

Lemma load_prompt_templates_eq fs safe_load path :
  prompts.load_prompt_templates fs safe_load path
  = match config.load_prompts fs safe_load path with
    | Ok loaded =>
        Ok (map (fun kv => (fst kv, prompts._sanitize_prompt_text (snd kv)))
              loaded)
    | Raise e => Raise e
    end.
Proof.
  unfold prompts.load_prompt_templates.
  destruct (config.load_prompts fs safe_load path) as [loaded|e] eqn:E;
    [|reflexivity].
  cbn [bind]. f_equal.
  apply (fold_set_distinct prompts._sanitize_prompt_text loaded []).
  cbn [map app]. now apply (load_prompts_keys fs safe_load path).
Qed.

(** X7.  [load_prompt_templates] fails exactly as [load_prompts] does,
    with the same error, and otherwise returns the map of [load_prompts]
    with [_sanitize_prompt_text] applied to each template: the same keys
    in the same order, each key once, and the template found under a key
    is the sanitized template that [load_prompts] has under it. *)
Theorem load_prompt_templates_is_sanitized_load_prompts
    (fs : pystr -> option pystr) (safe_load : pystr -> result pyval)
    (path : pystr) :
  prompts.load_prompt_templates fs safe_load path
  = match config.load_prompts fs safe_load path with
    | Ok loaded =>
        Ok (map (fun kv => (fst kv, prompts._sanitize_prompt_text (snd kv)))
              loaded)
    | Raise e => Raise e
    end
  /\ (forall loaded,
        config.load_prompts fs safe_load path = Ok loaded ->
        NoDup (map fst loaded)
        /\ exists clean,
             prompts.load_prompt_templates fs safe_load path = Ok clean
             /\ map fst clean = map fst loaded
             /\ forall k, StrDict.get k clean
                          = option_map prompts._sanitize_prompt_text
                              (StrDict.get k loaded)).
Proof.
  split; [apply load_prompt_templates_eq|].
  intros loaded H. split; [now apply (load_prompts_keys fs safe_load path)|].
  rewrite load_prompt_templates_eq, H. eexists. split; [reflexivity|]. split.
  - rewrite map_map. reflexivity.
  - intros k. apply strdict_get_map.
Qed.

(** X8.  A document with a mapping under [meta] and, under [prompts], a
    mapping from distinct string keys to strings loads to exactly those
    pairs in the order of the document: [load_prompts] returns the
    templates as written, [load_prompt_templates] returns each of them
    sanitized. *)
Theorem prompts_round_trip
    (fs : pystr -> option pystr) (safe_load : pystr -> result pyval)
    (path : pystr) (raw : pydict) (typed : strdict) :
  config._load_yaml fs safe_load path = Ok raw ->
  is_dict (Dict.get_or_none (lit "meta") raw) = true ->
  Dict.get_or_none (lit "prompts") raw
  = VDict (map (fun kv => (VStr (fst kv), VStr (snd kv))) typed) ->
  NoDup (map fst typed) ->
  config.load_prompts fs safe_load path = Ok typed
  /\ prompts.load_prompt_templates fs safe_load path
     = Ok (map (fun kv => (fst kv, prompts._sanitize_prompt_text (snd kv))) typed).
Proof.
  intros Hload Hmeta Hprompts Hnd.
  assert (H : config.load_prompts fs safe_load path = Ok typed).
  { unfold config.load_prompts. rewrite Hload. cbn [bind]. cbv zeta.
    rewrite Hmeta, Hprompts.
    destruct (Dict.get_or_none (lit "meta") raw); try discriminate.
    cbn [is_none negb orb].
    now rewrite (collect_prompts_distinct typed []). }
  split; [exact H|]. now rewrite load_prompt_templates_eq, H.
Qed.

Lemma prompts_round_trip_witness :
  prompts.load_prompt_templates Samples.fs Samples.safe_load (lit "prompts.yaml")
  = Ok [(lit "dq", lit "Rate it")].
Proof.
  apply (prompts_round_trip Samples.fs Samples.safe_load (lit "prompts.yaml")
           [Samples.key "meta" (VDict [Samples.key "version" (VInt 1)]);
            Samples.key "prompts"
              (VDict [Samples.key "dq"
                        (VStr (lit "Rate" ++ [Char.NBSP] ++ lit "it"))])]
           [(lit "dq", lit "Rate" ++ [Char.NBSP] ++ lit "it")]
           eq_refl eq_refl eq_refl).
  repeat constructor. intros [].
Defined.

(** ** The Gemini client *)

Section Client.
Import client.
Variable environ : pystr -> option pystr.
Variable str : anyobj -> pystr.
Hypothesis str_of_str : forall s, str (Value (VStr s)) = s.

Lemma resolve_not_mapping (cc : anyobj) :
  (forall d, cc <> Value (VDict d)) ->
  _get (_resolve_gemini_config cc) (lit "model_name") none = none.
Proof.
  intros H. destruct cc as [v|c|g|r]; try reflexivity.
  destruct v; try reflexivity. now destruct (H items).
Qed.

Lemma model_name_override_wins (cc : anyobj) (c : codepoint) (s : pystr) :
  get_model_name environ str cc (Some (c :: s)) = Returned (c :: s).
Proof. unfold get_model_name. cbn. now rewrite str_of_str. Qed.

Lemma model_name_not_mapping (cc : anyobj) (override : option pystr) :
  override = None \/ override = Some [] ->
  (forall d, cc <> Value (VDict d)) ->
  get_model_name environ str cc override = Known.model_from_environment environ.
Proof.
  intros Ho Hcc. unfold get_model_name. cbv zeta.
  rewrite (resolve_not_mapping cc Hcc).
  now destruct Ho as [-> | ->].
Qed.

Lemma model_name_of_mapping (cfg : pydict) (cc : anyobj)
    (override : option pystr) :
  override = None \/ override = Some [] ->
  _resolve_gemini_config cc = Value (VDict cfg) ->
  get_model_name environ str cc override
  = if truthy (Dict.get_or_none (lit "model_name") cfg)
    then Returned (str (Value (Dict.get_or_none (lit "model_name") cfg)))
    else Known.model_from_environment environ.
Proof.
  intros Ho Hcfg. unfold get_model_name. cbv zeta. rewrite Hcfg.
  unfold _get, Dict.get_or_none. cbn [is_none_obj].
  destruct Ho as [-> | ->]; cbn [of_option truthy_obj none truthy];
    destruct (Dict.get (lit "model_name") cfg); reflexivity.
Qed.

(** X9.  [get_model_name]: an override that is not empty is returned,
    whatever the configuration and the environment.  Without one, a
    configuration that is not a [dict] (the typed credentials, their
    [gemini] section, [None]) never gives the name: the result is the
    variable [GEMINI_MODEL] if it is set and not empty, and the
    [ValueError] otherwise.  A [dict], or the [dict] under its key
    [gemini], gives the name under [model_name] when that is a string
    that is not empty, before the environment is looked at. *)
Theorem model_name_priority :
  (forall cc c s,
     get_model_name environ str cc (Some (c :: s)) = Returned (c :: s))
  /\ (forall cc override,
        override = None \/ override = Some [] ->
        (forall d, cc <> Value (VDict d)) ->
        get_model_name environ str cc override
        = Known.model_from_environment environ)
  /\ (forall cc cfg override c name,
        override = None \/ override = Some [] ->
        _resolve_gemini_config cc = Value (VDict cfg) ->
        Dict.get (lit "model_name") cfg = Some (VStr (c :: name)) ->
        get_model_name environ str cc override = Returned (c :: name))
  /\ (forall cc cfg override,
        override = None \/ override = Some [] ->
        _resolve_gemini_config cc = Value (VDict cfg) ->
        truthy (Dict.get_or_none (lit "model_name") cfg) = false ->
        get_model_name environ str cc override
        = Known.model_from_environment environ).
Proof.
  split; [exact model_name_override_wins|].
  split; [exact model_name_not_mapping|].
  split.
  - intros cc cfg override c name Ho Hcfg Hname.
    rewrite (model_name_of_mapping cfg cc override Ho Hcfg).
    unfold Dict.get_or_none. rewrite Hname. cbn [truthy].
    now rewrite str_of_str.
  - intros cc cfg override Ho Hcfg Hname.
    rewrite (model_name_of_mapping cfg cc override Ho Hcfg).
    now rewrite Hname.
Qed.

(** X10.  [build_gemini_client] on the typed credentials.  An empty
    [api_key_env] gives the [ValueError] about [api_key_env]; otherwise a
    variable of that name that is unset or empty gives the
    [EnvironmentError] that names it, whether or not a model name could
    be found; otherwise the client is built with the value of that
    variable, and the model name is the override when there is one and
    else [GEMINI_MODEL], with the [ValueError] of [get_model_name] when
    there is neither. *)
Theorem build_gemini_client_typed (c : config.CredentialsConfig)
    (override : option pystr) :
  let name := config.api_key_env (config.gemini c) in
  let built := build_gemini_client environ str (Creds c) override in
  (name = [] ->
     built = Raised (ValueError (lit "credentials_config.api_key_env is required")))
  /\ (name <> [] -> environ name = None \/ environ name = Some [] ->
      built = Raised (EnvironmentError
                        (lit "Environment variable '" ++ name
                         ++ lit "' not set for Gemini API key")))
  /\ (forall k key,
        name <> [] -> environ name = Some (k :: key) ->
        (forall m s, override = Some (m :: s) ->
           built = Returned {| client := Client (k :: key);
                               model_name := m :: s |})
        /\ (override = None \/ override = Some [] ->
            built = match Known.model_from_environment environ with
                    | Returned model =>
                        Returned {| client := Client (k :: key);
                                    model_name := model |}
                    | Raised e => Raised e
                    end)).
Proof.
  cbv zeta. unfold build_gemini_client. cbv zeta.
  change (_get (_resolve_gemini_config (Creds c)) (lit "api_key_env") none)
    with (Value (VStr (config.api_key_env (config.gemini c)))).
  rewrite str_of_str. cbn [truthy_obj truthy].
  split; [|split].
  - intros ->. reflexivity.
  - intros Hname Henv.
    destruct (config.api_key_env (config.gemini c)); [contradiction|].
    cbn [negb]. now destruct Henv as [-> | ->].
  - intros k key Hname Henv.
    destruct (config.api_key_env (config.gemini c)); [contradiction|].
    cbn [negb]. rewrite Henv. split.
    + intros m s ->. now rewrite model_name_override_wins.
    + intros Ho. rewrite model_name_not_mapping by (auto; discriminate).
      reflexivity.
Qed.

End Client.

Lemma model_name_priority_witness :
  client.get_model_name Demo.environ Demo.str
    (client.Creds config.CredentialsConfig_default) None
  = client.Returned (lit "gemini-2.5-pro")
  /\ client.get_model_name Demo.environ Demo.str
       (client.Value
          (VDict [Samples.key "gemini"
                    (VDict [Samples.key "model_name" (VStr (lit "gemini-2.0"))])]))
       (Some [])
     = client.Returned (lit "gemini-2.0").
Proof.
  destruct (model_name_priority Demo.environ Demo.str (fun s => eq_refl))
    as (_ & Htyped & Hdict & _).
  split.
  - apply Htyped; [now left|discriminate].
  - apply (Hdict _ [Samples.key "model_name" (VStr (lit "gemini-2.0"))]);
      [now right|reflexivity|reflexivity].
Defined.

Lemma build_gemini_client_typed_witness :
  client.build_gemini_client Demo.environ Demo.str
    (client.Creds config.CredentialsConfig_default) None
  = client.Returned
      {| client.client := client.Client (lit "secret-key");
         client.model_name := lit "gemini-2.5-pro" |}.
Proof.
  destruct (build_gemini_client_typed Demo.environ Demo.str (fun s => eq_refl)
              config.CredentialsConfig_default None) as (_ & _ & H).
  apply (H 115 (lit "ecret-key")); [discriminate|reflexivity|now left].
Defined.

(** X11.  The credentials may be passed whole or as their [gemini]
    section, with the same result: for the typed object and its section,
    and for a [dict] with a [dict] under [gemini] and that inner [dict],
    provided the inner one has no [dict] under a key [gemini] of its
    own. *)
Theorem whole_or_section
    (environ : pystr -> option pystr) (str : client.anyobj -> pystr)
    (override : option pystr) :
  (forall c,
     client.build_gemini_client environ str (client.Creds c) override
     = client.build_gemini_client environ str
         (client.Gemini (config.gemini c)) override
     /\ client.get_model_name environ str (client.Creds c) override
        = client.get_model_name environ str
            (client.Gemini (config.gemini c)) override)
  /\ (forall d g,
        Dict.get (lit "gemini") d = Some (VDict g) ->
        is_dict (Dict.get_or_none (lit "gemini") g) = false ->
        client.build_gemini_client environ str (client.Value (VDict d)) override
        = client.build_gemini_client environ str (client.Value (VDict g)) override
        /\ client.get_model_name environ str (client.Value (VDict d)) override
           = client.get_model_name environ str (client.Value (VDict g)) override).
Proof.
  split.
  - intros c. split; reflexivity.
  - intros d g Hd Hg.
    assert (R1 : client._resolve_gemini_config (client.Value (VDict d))
                 = client.Value (VDict g))
      by (unfold client._resolve_gemini_config; now rewrite Hd).
    assert (R2 : client._resolve_gemini_config (client.Value (VDict g))
                 = client.Value (VDict g)).
    { unfold client._resolve_gemini_config. unfold Dict.get_or_none in Hg.
      destruct (Dict.get (lit "gemini") g) as [[]|]; try reflexivity.
      discriminate. }
    unfold client.build_gemini_client, client.get_model_name. cbv zeta.
    rewrite R1, R2. split; reflexivity.
Qed.

Lemma whole_or_section_witness :
  client.build_gemini_client Demo.environ Demo.str
    (client.Value
       (VDict [Samples.key "gemini"
                 (VDict [Samples.key "api_key_env" (VStr (lit "GEMINI_API_KEY"))])]))
    (Some (lit "gemini-2.0"))
  = client.build_gemini_client Demo.environ Demo.str
      (client.Value (VDict [Samples.key "api_key_env" (VStr (lit "GEMINI_API_KEY"))]))
      (Some (lit "gemini-2.0")).
Proof.
  destruct (whole_or_section Demo.environ Demo.str (Some (lit "gemini-2.0")))
    as (_ & H).
  apply (H [Samples.key "gemini"
              (VDict [Samples.key "api_key_env" (VStr (lit "GEMINI_API_KEY"))])]
           [Samples.key "api_key_env" (VStr (lit "GEMINI_API_KEY"))]);
    reflexivity.
Defined.

(** ** Trimming *)

Lemma lstrip_cases (s : pystr) :
  Str.lstrip s = []
  \/ exists c t, Str.lstrip s = c :: t /\ Str.isspace c = false.
Proof.
  induction s as [|c s IH]; [now left|].
  cbn [Str.lstrip]. destruct (Str.isspace c) eqn:E; [exact IH|].
  right. now exists c, s.
Qed.

Lemma lstrip_Forall (P : codepoint -> Prop) (s : pystr) :
  Forall P s -> Forall P (Str.lstrip s).
Proof.
  induction 1 as [|c s Hc Hs IH]; [constructor|].
  cbn [Str.lstrip]. destruct (Str.isspace c); [exact IH|now constructor].
Qed.

Lemma rstrip_Forall (P : codepoint -> Prop) (s : pystr) :
  Forall P s -> Forall P (Str.rstrip s).
Proof.
  intros H. unfold Str.rstrip. apply Forall_rev, lstrip_Forall, Forall_rev, H.
Qed.

Lemma strip_Forall (P : codepoint -> Prop) (s : pystr) :
  Forall P s -> Forall P (Str.strip s).
Proof. intros H. apply rstrip_Forall, lstrip_Forall, H. Qed.

Lemma lstrip_app_nonspace (l m : pystr) (c : codepoint) :
  Str.isspace c = false -> Str.lstrip (l ++ c :: m) = Str.lstrip l ++ c :: m.
Proof.
  intros Hc. induction l as [|x l IH]; cbn [app Str.lstrip].
  - now rewrite Hc.
  - destruct (Str.isspace x); [exact IH|reflexivity].
Qed.

Lemma rstrip_cons_nonspace (c : codepoint) (t : pystr) :
  Str.isspace c = false -> Str.rstrip (c :: t) = c :: Str.rstrip t.
Proof.
  intros Hc. unfold Str.rstrip. cbn [rev].
  rewrite lstrip_app_nonspace by assumption.
  now rewrite rev_app_distr.
Qed.

Lemma lstrip_idem (s : pystr) : Str.lstrip (Str.lstrip s) = Str.lstrip s.
Proof.
  destruct (lstrip_cases s) as [-> | (c & t & -> & Hc)]; [reflexivity|].
  cbn [Str.lstrip]. now rewrite Hc.
Qed.

Lemma rstrip_idem (s : pystr) : Str.rstrip (Str.rstrip s) = Str.rstrip s.
Proof. unfold Str.rstrip. now rewrite rev_involutive, lstrip_idem. Qed.

Lemma strip_idem (s : pystr) : Str.strip (Str.strip s) = Str.strip s.
Proof.
  unfold Str.strip.
  destruct (lstrip_cases s) as [-> | (c & t & -> & Hc)]; [reflexivity|].
  rewrite rstrip_cons_nonspace by assumption.
  cbn [Str.lstrip]. rewrite Hc.
  now rewrite rstrip_cons_nonspace, rstrip_idem by assumption.
Qed.

(** ** Replacing and deleting *)

Lemma replace_delete (a : codepoint) (s : pystr) :
  Str.replace [a] [] s = filter (fun c => negb (c =? a)) s.
Proof.
  unfold Str.replace.
  induction s as [|c s IH]; [reflexivity|].
  cbn [Str.replace_from Str.startswith List.length app filter].
  rewrite andb_true_r, N.eqb_sym.
  destruct (c =? a); cbn [negb]; now rewrite IH.
Qed.

Lemma replace_pair_step (a b : codepoint) (new : pystr) (c : codepoint)
    (rest : pystr) :
  Str.replace_from [a; b] new 0 (c :: rest)
  = match rest with
    | c' :: rest' =>
        if (c =? a) && (c' =? b)
        then new ++ Str.replace_from [a; b] new 0 rest'
        else c :: Str.replace_from [a; b] new 0 rest
    | [] => [c]
    end.
Proof.
  destruct rest as [|c' rest'];
    cbn [Str.replace_from Str.startswith List.length app].
  - now rewrite andb_false_r.
  - rewrite andb_true_r, (N.eqb_sym a c), (N.eqb_sym b c'). reflexivity.
Qed.

Lemma filter_fixed {A} (f : A -> bool) (l : list A) :
  Forall (fun x => f x = true) l -> filter f l = l.
Proof.
  induction 1 as [|x l Hx _ IH]; [reflexivity|].
  cbn [filter]. now rewrite Hx, IH.
Qed.

Lemma filter_Forall {A} (f : A -> bool) (l : list A) :
  Forall (fun x => f x = true) (filter f l).
Proof.
  induction l as [|x l IH]; [constructor|].
  cbn [filter]. destruct (f x) eqn:E; [now constructor|exact IH].
Qed.

Lemma replace_absent (old new s : pystr) (a : codepoint) :
  Forall (fun c => (c =? a) = false) s ->
  Str.replace (a :: old) new s = s.
Proof.
  unfold Str.replace. induction 1 as [|c s Hc _ IH]; [reflexivity|].
  cbn [Str.replace_from Str.startswith]. rewrite N.eqb_sym, Hc. cbn [andb].
  now rewrite IH.
Qed.

(** ** Cleaning of tabular cells *)

Section Ingestion.
Import ingestions.

Lemma filter_escaped_comma (s : pystr) :
  filter (fun c => negb (c =? BACKSLASH))
    (Str.replace [BACKSLASH; COMMA] [COMMA] s)
  = filter (fun c => negb (c =? BACKSLASH)) s.
Proof.
  unfold Str.replace.
  induction s as [s IH] using pystr_length_ind.
  destruct s as [|c rest]; [reflexivity|].
  rewrite replace_pair_step. destruct rest as [|c' rest']; [reflexivity|].
  destruct ((c =? BACKSLASH) && (c' =? COMMA)) eqn:E.
  - apply andb_prop in E as [Ec Ec']. apply N.eqb_eq in Ec, Ec'. subst c c'.
    cbn [app filter]. change (BACKSLASH =? BACKSLASH) with true.
    change (COMMA =? BACKSLASH) with false. cbn [negb].
    f_equal. apply IH. simpl; lia.
  - cbn [filter]. rewrite (IH (c' :: rest')) by (simpl; lia). reflexivity.
Qed.

Lemma clean_value_text (x : cell) :
  notna x = true -> clean_value x = Text (Known.cleaned (str x)).
Proof.
  intros H. unfold clean_value, Known.cleaned. rewrite H. f_equal. f_equal.
  change (lit " ") with [Char.SPACE].
  rewrite !replace_one, replace_delete, filter_escaped_comma, map_map.
  apply map_ext. intros c. unfold Known.line_end_to_space.
  destruct (c =? Char.LF) eqn:E; [reflexivity|].
  now destruct (c =? Char.CR).
Qed.

Lemma final_cell_eq (x : cell) :
  match series_replace (lit "NaN") []
          (series_replace (lit "nan") []
             (series_replace (lit "[None]") [] [clean_value x])) with
  | [y] => y = Known.final_cell x
  | _ => False
  end.
Proof.
  destruct x as [s| |s]; try reflexivity;
    rewrite clean_value_text by reflexivity; cbn [str];
    unfold Known.final_cell, Known.is_placeholder; cbn [str series_replace map];
    destruct (pystr_eqb (Known.cleaned s) (lit "[None]")) eqn:E1; cbn [orb];
    try reflexivity;
    destruct (pystr_eqb (Known.cleaned s) (lit "nan")) eqn:E2; cbn [orb];
    try reflexivity;
    destruct (pystr_eqb (Known.cleaned s) (lit "NaN")); reflexivity.
Qed.

Lemma final_column (col : list cell) :
  series_replace (lit "NaN") []
    (series_replace (lit "nan") []
       (series_replace (lit "[None]") [] (map clean_value col)))
  = map Known.final_cell col.
Proof.
  induction col as [|x col IH]; [reflexivity|].
  pose proof (final_cell_eq x) as H.
  unfold series_replace in *. cbn [map] in *. rewrite IH. f_equal.
  exact H.
Qed.

Lemma cleaned_settled (s : pystr) :
  Known.is_placeholder (Known.cleaned s) = false ->
  Known.settled (Known.cleaned s) = true.
Proof.
  intros Hp. unfold Known.settled. rewrite Hp. cbn [negb].
  rewrite andb_true_r. apply andb_true_intro. split.
  - apply forallb_forall, Forall_forall. unfold Known.cleaned.
    apply strip_Forall, Forall_map.
    eapply Forall_impl; [|apply filter_Forall]. cbn beta. intros c Hc.
    apply negb_true_iff in Hc. unfold Known.line_end_to_space.
    destruct (c =? Char.LF) eqn:E1; [reflexivity|].
    destruct (c =? Char.CR) eqn:E2; [reflexivity|].
    cbn [orb]. now rewrite Hc, E1, E2.
  - apply pystr_eqb_eq. unfold Known.cleaned. apply strip_idem.
Qed.

Lemma final_cell_settled (x : cell) :
  exists s, Known.final_cell x = Text s /\ Known.settled s = true.
Proof.
  unfold Known.final_cell.
  destruct x as [s| |s]; try (exists []; now auto);
    cbn [str];
    (destruct (Known.is_placeholder (Known.cleaned s)) eqn:E;
     [exists []; now auto
     |exists (Known.cleaned s); split; [reflexivity|now apply cleaned_settled]]).
Qed.

Lemma settled_cleaned (s : pystr) :
  Known.settled s = true ->
  Known.cleaned s = s /\ Known.is_placeholder s = false.
Proof.
  intros H.
  unfold Known.settled in H.
  apply andb_prop in H as [H Hp]. apply andb_prop in H as [Hc Hs].
  apply negb_true_iff in Hp. apply pystr_eqb_eq in Hs.
  split; [|exact Hp].
  unfold Known.cleaned. rewrite forallb_forall, <- Forall_forall in Hc.
  rewrite filter_fixed.
  - rewrite (proj2 (map_fixed Known.line_end_to_space s)); [exact Hs|].
    eapply Forall_impl; [|exact Hc]. cbn beta. intros c H.
    apply negb_true_iff, orb_false_elim in H as [H Hcr].
    apply orb_false_elim in H as [_ Hlf].
    unfold Known.line_end_to_space. now rewrite Hlf, Hcr.
  - eapply Forall_impl; [|exact Hc]. cbn beta. intros c H.
    apply negb_true_iff, orb_false_elim in H as [H _].
    apply orb_false_elim in H as [H _]. now rewrite H.
Qed.

Lemma final_cell_idem (x : cell) :
  Known.final_cell (Known.final_cell x) = Known.final_cell x.
Proof.
  destruct (final_cell_settled x) as (s & -> & Hs).
  destruct (settled_cleaned s Hs) as [Hc Hp].
  unfold Known.final_cell. cbn [str]. now rewrite Hc, Hp.
Qed.

Lemma assign_assign (l : pystr) (f g : list cell -> list cell) (df : frame) :
  assign l f (assign l g df) = assign l (fun c => f (g c)) df.
Proof.
  unfold assign. rewrite map_map. apply map_ext. intros col.
  destruct (pystr_eqb l (fst col)) eqn:E; cbn [fst snd]; now rewrite E.
Qed.

Lemma assign_ext (l : pystr) (f g : list cell -> list cell) (df : frame) :
  (forall c, f c = g c) -> assign l f df = assign l g df.
Proof.
  intros H. unfold assign. apply map_ext. intros col. now rewrite H.
Qed.

Lemma clean_all_eq (labels : list pystr) (df : frame) :
  clean_all labels df
  = map (fun col =>
           if existsb (fun l => pystr_eqb l (fst col)) labels
           then (fst col, map Known.final_cell (snd col))
           else col) df.
Proof.
  unfold clean_all. revert df.
  induction labels as [|l labels IH]; intros df.
  - cbn [fold_left existsb]. symmetry. apply map_id.
  - cbn [fold_left]. cbv zeta. rewrite !assign_assign.
    rewrite (assign_ext l _ (map Known.final_cell)) by apply final_column.
    rewrite IH. unfold assign. rewrite map_map. apply map_ext. intros col.
    cbn [existsb].
    destruct (pystr_eqb l (fst col)); cbn [fst snd orb]; [|reflexivity].
    destruct (existsb _ labels); [|reflexivity].
    f_equal. rewrite map_map. apply map_ext, final_cell_idem.
Qed.

Lemma clean_frame_eq (df : frame) :
  clean_frame df
  = map (fun col =>
           (fst col,
            map Known.final_cell
              (if pystr_eqb (lit "ISCED_LEVELS_NAME") (fst col)
               then map clean_isced (snd col) else snd col))) df.
Proof.
  unfold clean_frame. cbv zeta.
  assert (Hlabels : forall f,
             map fst (assign (lit "ISCED_LEVELS_NAME") f df) = map fst df).
  { intros f. unfold assign. rewrite map_map. apply map_ext. intros col.
    now destruct (pystr_eqb _ _). }
  assert (Hall : forall (d : frame) (col : pystr * list cell),
             In col d ->
             existsb (fun l => pystr_eqb l (fst col)) (map fst d) = true).
  { intros d col Hin. apply existsb_exists. exists (fst col).
    split; [now apply in_map|apply pystr_eqb_refl]. }
  destruct (has_column (lit "ISCED_LEVELS_NAME") df) eqn:E.
  - rewrite clean_all_eq, Hlabels. unfold assign. rewrite map_map.
    apply map_ext_in. intros col Hin.
    destruct (pystr_eqb (lit "ISCED_LEVELS_NAME") (fst col)); cbn [fst snd];
      now rewrite (Hall df col Hin).
  - rewrite clean_all_eq. apply map_ext_in. intros col Hin.
    rewrite (Hall df col Hin).
    destruct (pystr_eqb (lit "ISCED_LEVELS_NAME") (fst col)) eqn:Ecol;
      [|reflexivity].
    unfold has_column in E.
    assert (existsb (fun c => pystr_eqb (lit "ISCED_LEVELS_NAME") (fst c)) df
            = true); [|congruence].
    apply existsb_exists. now exists col.
Qed.

Lemma line_end_outside (c : codepoint) :
  isced_class c = false -> isced_class (Known.line_end_to_space c) = false.
Proof.
  intros H. unfold Known.line_end_to_space.
  now destruct ((c =? Char.LF) || (c =? Char.CR)).
Qed.

Lemma isced_final_outside (x : cell) :
  Known.outside_class (Known.final_cell (clean_isced x)) = true.
Proof.
  assert (H : exists t, clean_isced x = Text t
                        /\ Forall (fun c => isced_class c = false) t).
  { unfold clean_isced. destruct (notna x); [|now exists []].
    eexists. split; [reflexivity|].
    apply strip_Forall. unfold re_sub_class.
    eapply Forall_impl; [|apply filter_Forall]. cbn beta.
    intros c Hc. now apply negb_true_iff. }
  destruct H as (t & -> & Ht).
  unfold Known.final_cell. cbn [str].
  destruct (Known.is_placeholder (Known.cleaned t)); [reflexivity|].
  cbn [Known.outside_class]. apply forallb_forall, Forall_forall.
  unfold Known.cleaned. apply strip_Forall, Forall_map.
  assert (Hf : Forall (fun c => isced_class c = false)
                 (filter (fun c => negb (c =? BACKSLASH)) t)).
  { apply Forall_forall. intros c Hc. apply filter_In in Hc as [Hc _].
    rewrite Forall_forall in Ht. now apply Ht. }
  eapply Forall_impl; [|exact Hf]. cbn beta. intros c Hc.
  apply negb_true_iff. now apply line_end_outside.
Qed.

Lemma clean_isced_fixed (s : pystr) :
  Known.outside_class (Text s) = true -> Known.settled s = true ->
  clean_isced (Text s) = Text s.
Proof.
  intros Ho Hs. unfold clean_isced. cbn [notna str]. f_equal.
  unfold re_sub_class. rewrite filter_fixed.
  - unfold Known.settled in Hs.
    apply andb_prop in Hs as [Hs _]. apply andb_prop in Hs as [_ Hs].
    now apply pystr_eqb_eq.
  - cbn [Known.outside_class] in Ho. rewrite forallb_forall in Ho.
    now apply Forall_forall.
Qed.

Lemma isced_pass_idem (x : cell) :
  Known.final_cell (clean_isced (Known.final_cell (clean_isced x)))
  = Known.final_cell (clean_isced x).
Proof.
  pose proof (isced_final_outside x) as Ho.
  destruct (final_cell_settled (clean_isced x)) as (s & E & Hs).
  rewrite E in *. rewrite (clean_isced_fixed s Ho Hs), <- E.
  apply final_cell_idem.
Qed.

End Ingestion.

(** X12.  The frame that [clean_csv_to_psv_pandas] returns and writes has
    the columns of the frame read, under the same labels, with as many
    cells.  Each of its cells is a string with no backslash, line feed or
    carriage return in it and no blank at either end, and is never
    [[None]], [nan] or [NaN].  On a cell that is not missing the four
    replacements together delete the backslashes and turn line ends into
    spaces: the replacement of an escaped comma changes nothing that the
    deletion of backslashes would not. *)
Theorem cleaned_frame_cells (df : ingestions.frame) :
  map fst (ingestions.clean_frame df) = map fst df
  /\ map (fun col => List.length (snd col)) (ingestions.clean_frame df)
     = map (fun col => List.length (snd col)) df
  /\ Forall (fun col => forallb Known.settled_cell (snd col) = true)
       (ingestions.clean_frame df)
  /\ (forall x, ingestions.notna x = true ->
        ingestions.clean_value x = ingestions.Text (Known.cleaned (ingestions.str x)))
  /\ (forall read_csv input output,
        ingestions.clean_csv_to_psv_pandas read_csv input output
        = (ingestions.clean_frame (read_csv input),
           (output, 124, ingestions.clean_frame (read_csv input)))).
Proof.
  rewrite clean_frame_eq. split; [|split; [|split; [|split]]].
  - rewrite map_map. reflexivity.
  - rewrite map_map. apply map_ext. intros col. cbn [snd].
    rewrite length_map.
    destruct (pystr_eqb _ _); [apply length_map|reflexivity].
  - apply Forall_map, Forall_forall. intros col _. cbn [snd].
    apply forallb_forall. intros y Hy.
    apply in_map_iff in Hy as (x & <- & _).
    destruct (final_cell_settled x) as (s & -> & Hs). exact Hs.
  - exact clean_value_text.
  - reflexivity.
Qed.

(** X13.  Cleaning a frame that has been cleaned changes nothing. *)
Theorem clean_frame_idempotent (df : ingestions.frame) :
  ingestions.clean_frame (ingestions.clean_frame df) = ingestions.clean_frame df.
Proof.
  rewrite (clean_frame_eq (ingestions.clean_frame df)), clean_frame_eq, map_map.
  apply map_ext. intros col. cbn [fst snd]. f_equal.
  destruct (pystr_eqb (lit "ISCED_LEVELS_NAME") (fst col)).
  - rewrite !map_map. apply map_ext, isced_pass_idem.
  - rewrite map_map. apply map_ext, final_cell_idem.
Qed.

(** X14.  In the column [ISCED_LEVELS_NAME] the pattern deletes every
    letter [n], with the brackets, double quotes, backslashes and carriage
    returns, and deletes no line feed: the cells returned hold no code
    point of the class, so no [n].  A line feed in such a cell is left to
    the loop over the columns, which turns it into a space. *)
Theorem isced_pattern_deletes_n (df : ingestions.frame) :
  (forall col s,
     In (lit "ISCED_LEVELS_NAME", col) (ingestions.clean_frame df) ->
     In (ingestions.Text s) col ->
     Str.contains (lit "n") s = false
     /\ forallb (fun c => negb (ingestions.isced_class c)) s = true)
  /\ (forall a b,
        ingestions.re_sub_class ingestions.isced_class (a ++ lit "n" ++ b)
        = ingestions.re_sub_class ingestions.isced_class a
          ++ ingestions.re_sub_class ingestions.isced_class b)
  /\ (forall a b,
        ingestions.re_sub_class ingestions.isced_class (a ++ [Char.LF] ++ b)
        = ingestions.re_sub_class ingestions.isced_class a
          ++ [Char.LF] ++ ingestions.re_sub_class ingestions.isced_class b).
Proof.
  split; [|split].
  - intros col s Hcol Hs. rewrite clean_frame_eq in Hcol.
    apply in_map_iff in Hcol as ([l c] & Hc & _). cbn [fst snd] in Hc.
    apply pair_equal_spec in Hc as [-> <-].
    rewrite pystr_eqb_refl, map_map in Hs. apply in_map_iff in Hs as (x & Hx & _).
    pose proof (isced_final_outside x) as Ho. rewrite Hx in Ho.
    cbn [Known.outside_class] in Ho. split; [|exact Ho].
    change (lit "n") with [110]. rewrite contains_one.
    destruct (existsb (N.eqb 110) s) eqn:E; [|reflexivity].
    apply existsb_exists in E as (k & Hk & Hn). apply N.eqb_eq in Hn. subst k.
    rewrite forallb_forall in Ho. now specialize (Ho _ Hk).
  - intros a b. unfold ingestions.re_sub_class.
    now rewrite !filter_app.
  - intros a b. unfold ingestions.re_sub_class.
    now rewrite !filter_app.
Qed.

Lemma isced_pattern_deletes_n_witness :
  ingestions.clean_frame
    [(lit "ISCED_LEVELS_NAME",
      [ingestions.Text (lit "[Bachelor's or equivalent level]");
       ingestions.Text (lit "[None]"); ingestions.Missing])]
  = [(lit "ISCED_LEVELS_NAME",
      [ingestions.Text (lit "Bachelor's or equivalet level");
       ingestions.Text (lit "Noe"); ingestions.Text [] ])]
  /\ Str.contains (lit "n") (lit "Bachelor's or equivalet level") = false.
Proof.
  split; [reflexivity|].
  apply (isced_pattern_deletes_n
           [(lit "ISCED_LEVELS_NAME",
             [ingestions.Text (lit "[Bachelor's or equivalent level]");
              ingestions.Text (lit "[None]"); ingestions.Missing])])
    with (col := [ingestions.Text (lit "Bachelor's or equivalet level");
                  ingestions.Text (lit "Noe"); ingestions.Text [] ]).
  - left. reflexivity.
  - left. reflexivity.
Defined.

(** ** The input table *)

Lemma lstrip_blank_app (pre m : pystr) :
  forallb Str.isspace pre = true -> Str.lstrip (pre ++ m) = Str.lstrip m.
Proof.
  induction pre as [|c pre IH]; [reflexivity|].
  cbn [forallb app Str.lstrip]. intros H. apply andb_prop in H as [-> H].
  now apply IH.
Qed.

Lemma strip_padded (pre w post : pystr) :
  forallb Str.isspace pre = true -> forallb Str.isspace post = true ->
  forallb (fun c => negb (Str.isspace c)) w = true ->
  Str.strip (pre ++ w ++ post) = w.
Proof.
  intros Hpre Hpost Hw. unfold Str.strip.
  rewrite lstrip_blank_app by assumption.
  assert (Hrev : forallb Str.isspace (rev post) = true).
  { apply forallb_forall. intros c Hc. apply in_rev in Hc.
    rewrite forallb_forall in Hpost. now apply Hpost. }
  assert (Hl : forall v, forallb (fun c => negb (Str.isspace c)) v = true ->
                         Str.lstrip v = v).
  { intros [|c v]; [reflexivity|]. cbn [forallb Str.lstrip]. intros H.
    apply andb_prop in H as [H _]. apply negb_true_iff in H. now rewrite H. }
  assert (Hwr : forallb (fun c => negb (Str.isspace c)) (rev w) = true).
  { apply forallb_forall. intros c Hc. apply in_rev in Hc.
    rewrite forallb_forall in Hw. now apply Hw. }
  destruct w as [|c t].
  - cbn [app]. unfold Str.rstrip.
    replace (Str.lstrip post) with (@nil codepoint).
    + reflexivity.
    + symmetry. rewrite <- (app_nil_r post).
      now rewrite lstrip_blank_app.
  - assert (Hc : Str.isspace c = false).
    { cbn [forallb] in Hw. apply andb_prop in Hw as [Hw _].
      now apply negb_true_iff. }
    change ((c :: t) ++ post) with (c :: (t ++ post)).
    cbn [Str.lstrip]. rewrite Hc.
    change (c :: (t ++ post)) with ((c :: t) ++ post).
    unfold Str.rstrip. rewrite rev_app_distr.
    rewrite lstrip_blank_app by assumption.
    rewrite Hl by assumption. apply rev_involutive.
Qed.

Lemma lower_blank (s : pystr) :
  forallb Str.isspace s = true -> Str.lower s = s.
Proof.
  intros H. apply lower_id, Forall_forall. intros c Hc.
  rewrite forallb_forall in H. specialize (H c Hc).
  unfold Str.isspace in H. unfold Str.lower_char.
  destruct ((65 <=? c) && (c <=? 90)) eqn:E1.
  - exfalso. apply andb_prop in E1 as [A B].
    apply N.leb_le in A, B.
    repeat (apply orb_prop in H as [H|H]);
      try (apply andb_prop in H as [H1 H2]; apply N.leb_le in H1, H2; lia);
      try (apply N.eqb_eq in H; lia).
  - destruct (c =? 304) eqn:E2; [|destruct (c =? 8490) eqn:E3; [|reflexivity]];
      exfalso; [apply N.eqb_eq in E2|apply N.eqb_eq in E3];
      repeat (apply orb_prop in H as [H|H]);
      try (apply andb_prop in H as [H1 H2]; apply N.leb_le in H1, H2; lia);
      try (apply N.eqb_eq in H; lia).
Qed.

Lemma lower_spelled (word s : pystr) :
  forallb Known.small_letter word = true ->
  Known.spelled word s = true -> Str.lower s = word.
Proof.
  unfold Known.spelled. intros Hw H. apply pystr_eqb_eq in H. subst word.
  unfold Str.lower. induction s as [|c s IH]; [reflexivity|].
  cbn [map forallb] in Hw. apply andb_prop in Hw as [Hc Hw].
  cbn [flat_map map]. rewrite (IH Hw). cbn [app]. f_equal.
  unfold Known.small_letter, Known.ascii_lower in Hc.
  unfold Str.lower_char, Known.ascii_lower.
  destruct ((65 <=? c) && (c <=? 90)) eqn:E1; [reflexivity|].
  apply andb_prop in Hc as [A B]. apply N.leb_le in A, B.
  destruct (c =? 304) eqn:E2; [apply N.eqb_eq in E2; lia|].
  destruct (c =? 8490) eqn:E3; [apply N.eqb_eq in E3; lia|reflexivity].
Qed.

Lemma small_letter_not_blank (w : pystr) :
  forallb Known.small_letter w = true ->
  forallb (fun c => negb (Str.isspace c)) w = true.
Proof.
  intros H. apply forallb_forall. intros c Hc.
  rewrite forallb_forall in H. specialize (H c Hc).
  unfold Known.small_letter in H. apply andb_prop in H as [A B].
  apply N.leb_le in A, B. apply negb_true_iff.
  unfold Str.isspace.
  repeat (apply orb_false_intro);
    try (apply N.eqb_neq; lia);
    try (apply andb_false_iff; left; apply N.leb_gt; lia);
    try (apply andb_false_iff; right; apply N.leb_gt; lia).
Qed.

Lemma format_normalised (pre s post word : pystr) :
  forallb Str.isspace pre = true -> forallb Str.isspace post = true ->
  forallb Known.small_letter word = true ->
  Known.spelled word s = true ->
  Str.strip (Str.lower (pre ++ s ++ post)) = word.
Proof.
  intros Hpre Hpost Hw Hs.
  unfold Str.lower. rewrite !flat_map_app. fold (Str.lower pre).
  fold (Str.lower s). fold (Str.lower post).
  rewrite (lower_blank pre), (lower_blank post) by assumption.
  rewrite (lower_spelled word s Hw Hs).
  apply strip_padded; try assumption. now apply small_letter_not_blank.
Qed.

Lemma among_In (c : pystr) (l : list pystr) :
  readers.among c l = true <-> In c l.
Proof.
  unfold readers.among. rewrite existsb_exists. split.
  - intros (x & Hx & E). apply pystr_eqb_eq in E. now subst.
  - intros H. exists c. split; [assumption|apply pystr_eqb_refl].
Qed.

(** X15.  [validate_required_columns] returns exactly when every required
    column is among the columns of the frame.  Otherwise it raises the
    [ValueError] that shows the columns found and the missing ones, which
    are the required columns that the frame has not. *)
Theorem required_columns_checked (df : readers.frame) (required : list pystr) :
  (readers.validate_required_columns df required = readers.Returned tt
   <-> incl required (readers.columns df))
  /\ (forall e,
        readers.validate_required_columns df required = readers.Raised e ->
        exists missing,
          e = readers.MissingColumns missing (readers.columns df)
          /\ (exists c, In c missing)
          /\ (forall c, In c missing
                        <-> In c required
                            /\ readers.among c (readers.columns df) = false)).
Proof.
  unfold readers.validate_required_columns. cbv zeta.
  set (absent := fun c => negb (readers.among c (readers.columns df))).
  assert (Hin : forall c, In c (filter absent required)
                          <-> In c required
                              /\ readers.among c (readers.columns df) = false).
  { intros c. rewrite filter_In. unfold absent.
    now rewrite negb_true_iff. }
  destruct (filter absent required) as [|m missing] eqn:E.
  - split; [|discriminate]. split; [intros _|reflexivity].
    intros c Hc. apply among_In.
    destruct (readers.among c (readers.columns df)) eqn:Ec; [reflexivity|].
    exfalso. apply (proj2 (Hin c)). now split.
  - split.
    + split; [discriminate|]. intros Hincl. exfalso.
      destruct (proj1 (Hin m) (or_introl eq_refl)) as [Hm Ha].
      apply Hincl, among_In in Hm. congruence.
    + intros e [= <-]. exists (m :: missing).
      split; [reflexivity|]. split; [exists m; now left|exact Hin].
Qed.

Section Readers.

Variable Path : pystr -> pystr.
Variable path_exists : pystr -> bool.
Variable trim_lr : pystr -> pystr.
Variable read_csv : pystr -> pystr -> pystr -> readers.raised readers.frame.
Variable read_excel : pystr -> pystr -> readers.raised readers.frame.

(** X16.  [read_input_table] looks for the file first: a path that does
    not exist is refused whatever the format.  The format is read without
    regard to capitals and to blanks around it: [csv] is read with a
    comma between the cells, [tsv] with a tab, [psv] with a bar, and
    [xlsx] from the sheet asked for, which is [sheet1] when no name or an
    empty name is given.  Any other format is refused. *)
Theorem read_input_table_format (path fmt : pystr) (sheet_name : option pystr)
    (encoding : pystr) :
  (path_exists (Path path) = false ->
   readers.read_input_table Path path_exists trim_lr read_csv read_excel
     path fmt sheet_name encoding
   = readers.Raised (readers.FileNotFoundError (Path path)))
  /\ (path_exists (Path path) = true ->
      forall pre word post,
        fmt = pre ++ word ++ post ->
        forallb Str.isspace pre = true -> forallb Str.isspace post = true ->
        (Known.spelled (lit "csv") word = true ->
         readers.read_input_table Path path_exists trim_lr read_csv read_excel
           path fmt sheet_name encoding
         = Known.with_trimmed_labels trim_lr
             (read_csv (Path path) (lit ",") encoding))
        /\ (Known.spelled (lit "tsv") word = true ->
            readers.read_input_table Path path_exists trim_lr read_csv
              read_excel path fmt sheet_name encoding
            = Known.with_trimmed_labels trim_lr
                (read_csv (Path path) [Char.TAB] encoding))
        /\ (Known.spelled (lit "psv") word = true ->
            readers.read_input_table Path path_exists trim_lr read_csv
              read_excel path fmt sheet_name encoding
            = Known.with_trimmed_labels trim_lr
                (read_csv (Path path) (lit "|") encoding))
        /\ (Known.spelled (lit "xlsx") word = true ->
            (sheet_name = None \/ sheet_name = Some [] ->
             readers.read_input_table Path path_exists trim_lr read_csv
               read_excel path fmt sheet_name encoding
             = Known.with_trimmed_labels trim_lr
                 (read_excel (Path path) (lit "sheet1")))
            /\ (forall c s, sheet_name = Some (c :: s) ->
                readers.read_input_table Path path_exists trim_lr read_csv
                  read_excel path fmt sheet_name encoding
                = Known.with_trimmed_labels trim_lr
                    (read_excel (Path path) (c :: s)))))
  /\ (path_exists (Path path) = true ->
      readers.among (Str.strip (Str.lower fmt)) Known.formats = false ->
      readers.read_input_table Path path_exists trim_lr read_csv read_excel
        path fmt sheet_name encoding
      = readers.Raised readers.UnsupportedFormat).
Proof.
  unfold readers.read_input_table. cbv zeta.
  split; [|split].
  - now intros ->.
  - intros -> pre word post -> Hpre Hpost. cbn [negb].
    split; [|split; [|split]]; intros Hw.
    + now rewrite (format_normalised pre word post (lit "csv") Hpre Hpost
                     eq_refl Hw).
    + now rewrite (format_normalised pre word post (lit "tsv") Hpre Hpost
                     eq_refl Hw).
    + now rewrite (format_normalised pre word post (lit "psv") Hpre Hpost
                     eq_refl Hw).
    + rewrite (format_normalised pre word post (lit "xlsx") Hpre Hpost
                 eq_refl Hw).
      split.
      * now intros [-> | ->].
      * now intros c s ->.
  - intros -> H. cbn [negb].
    unfold Known.formats, readers.among in H. cbn [existsb] in H.
    rewrite orb_false_r in H.
    apply orb_false_elim in H as [H1 H]. apply orb_false_elim in H as [H2 H].
    apply orb_false_elim in H as [H3 H4].
    unfold readers.among. cbn [existsb].
    now rewrite H1, H2, H3, H4.
Qed.

(** X17.  A frame that [read_input_table] returns is a frame read from an
    existing file by one of the two readers, with the same columns in the
    same order and every cell as the reader gave it: the labels alone have
    been through [trim_lr]. *)
Theorem read_input_table_keeps_cells (path fmt : pystr)
    (sheet_name : option pystr) (encoding : pystr) (df : readers.frame) :
  readers.read_input_table Path path_exists trim_lr read_csv read_excel
    path fmt sheet_name encoding
  = readers.Returned df ->
  path_exists (Path path) = true
  /\ exists raw,
       ((exists sep,
           In sep [lit ","; [Char.TAB]; lit "|"]
           /\ read_csv (Path path) sep encoding = readers.Returned raw)
        \/ (exists sheet,
              read_excel (Path path) sheet = readers.Returned raw))
       /\ map snd df = map snd raw
       /\ readers.columns df = map trim_lr (readers.columns raw).
Proof.
  unfold readers.read_input_table. cbv zeta.
  destruct (path_exists (Path path)); cbn [negb]; [|discriminate].
  intros H. split; [reflexivity|].
  assert (Htrim : forall r,
             readers.and_then r
               (fun d => readers.Returned (readers._trim_column_names trim_lr d))
             = readers.Returned df ->
             exists raw, r = readers.Returned raw
                         /\ map snd df = map snd raw
                         /\ readers.columns df
                            = map trim_lr (readers.columns raw)).
  { intros [raw|e]; cbn [readers.and_then]; [|discriminate].
    intros [= <-]. exists raw. split; [reflexivity|].
    unfold readers._trim_column_names, readers.columns.
    now rewrite !map_map. }
  destruct (readers.among _ _) eqn:Ea.
  - unfold readers.among in Ea. cbn [existsb] in Ea.
    rewrite orb_false_r in Ea.
    assert (Hf : Str.strip (Str.lower fmt) = lit "csv"
                 \/ Str.strip (Str.lower fmt) = lit "tsv"
                 \/ Str.strip (Str.lower fmt) = lit "psv").
    { apply orb_prop in Ea as [Ea|Ea];
        [|apply orb_prop in Ea as [Ea|Ea]]; apply pystr_eqb_eq in Ea; auto. }
    destruct Hf as [Hf|[Hf|Hf]]; rewrite Hf in H;
      apply Htrim in H as (raw & Hr & Hc & Hl); exists raw;
      (split; [left; eexists; split; [|exact Hr]; cbn [In]; auto|now split]).
  - destruct (pystr_eqb _ (lit "xlsx")); [|discriminate].
    apply Htrim in H as (raw & Hr & Hc & Hl). exists raw.
    split; [right; eexists; exact Hr|now split].
Qed.

End Readers.

Lemma read_input_table_keeps_cells_witness :
  readers.read_input_table (fun p => p) Demo.path_exists Str.strip
    Demo.read_csv Demo.read_excel
    (lit "raw_data/courses.psv") (lit " PSV ") None (lit "utf-8")
  = readers.Returned
      [(lit "course_name_en", [lit " Algebra "; lit "nan"]);
       (lit "clo_name", [lit "a\b"; []])]
  /\ Demo.path_exists (lit "raw_data/courses.psv") = true
  /\ exists raw,
       ((exists sep,
           In sep [lit ","; [Char.TAB]; lit "|"]
           /\ Demo.read_csv (lit "raw_data/courses.psv") sep (lit "utf-8")
              = readers.Returned raw)
        \/ (exists sheet,
              Demo.read_excel (lit "raw_data/courses.psv") sheet
              = readers.Returned raw))
       /\ map snd [(lit "course_name_en", [lit " Algebra "; lit "nan"]);
                   (lit "clo_name", [lit "a\b"; []])]
          = map snd raw
       /\ readers.columns
            [(lit "course_name_en", [lit " Algebra "; lit "nan"]);
             (lit "clo_name", [lit "a\b"; []])]
          = map Str.strip (readers.columns raw).
Proof.
  split; [reflexivity|].
  exact (read_input_table_keeps_cells (fun p => p) Demo.path_exists
           Str.strip Demo.read_csv Demo.read_excel
           (lit "raw_data/courses.psv") (lit " PSV ") None (lit "utf-8")
           [(lit "course_name_en", [lit " Algebra "; lit "nan"]);
            (lit "clo_name", [lit "a\b"; []])] eq_refl).
Defined.
